(** * The tool-calling conversation loop of [MCPClient]

    A shallow embedding of [src/client/mcp_client.py]: the client's fields
    and the world it talks to (RPC session, LLM endpoint, clock, file
    system, logger) are an explicit state, raised exceptions are a result
    constructor, and every method of the class is a function in a small
    state-and-exception monad.  The external collaborators are oracles
    gathered in the record [environment]. *)

From Stdlib Require Import ZArith Lia Ascii.
From stdpp Require Import base option list strings gmap.

Local Open Scope string_scope.
Local Open Scope list_scope.
Set Warnings "-register-all".

(** ** Python values *)

(** The dynamically typed values the client handles.  A [PDict] keeps its
    entries in insertion order, as Python dicts do.  A [PObj] is an object
    seen through its attributes; a [PMethod r] is a bound method without
    arguments whose call returns [r].  None of the attribute names read by
    the client ([choices], [message], [content], [tool_calls], [function],
    [name], [arguments], [id], [to_dict], [tools], [description],
    [inputSchema]) exists on a builtin value. *)
Inductive pyval : Type :=
| PNone
| PBool (b : bool)
| PInt (z : Z)
| PStr (s : string)
| PList (xs : list pyval)
| PDict (kvs : list (string * pyval))
| PObj (attrs : list (string * pyval))
| PMethod (ret : pyval).

Definition pydict : Type := list (string * pyval).

Inductive exn : Type :=
| ValueError (msg : string)
| AttributeError (name : string)
| KeyError (key : string)
| IndexError
| TypeError
| FileExistsError (path : string)
| IsADirectoryError (path : string)
| External (what : string).

(** The result of running a piece of the program: a value, a raised
    exception, or the loop budget of the model exhausted. *)
Inductive outcome (A : Type) : Type :=
| Ok (a : A)
| Raise (e : exn)
| OutOfFuel.
Arguments Ok {A} a.
Arguments Raise {A} e.
Arguments OutOfFuel {A}.

Definition obind {A B} (r : outcome A) (k : A -> outcome B) : outcome B :=
  match r with
  | Ok a => k a
  | Raise e => Raise e
  | OutOfFuel => OutOfFuel
  end.

Notation "'try!' x ':=' r 'in' k" := (obind r (fun x => k))
  (at level 10, x name, r at level 100, k at level 200).

(** ** Dictionaries *)

Fixpoint dict_get (d : pydict) (k : string) : option pyval :=
  match d with
  | [] => None
  | (k', v) :: d' => if String.eqb k' k then Some v else dict_get d' k
  end.

(** [k in d] *)
Definition dict_in (k : string) (d : pydict) : bool :=
  match dict_get d k with Some _ => true | None => false end.

(** [d[k] = v]: an existing key keeps its place, a new one goes last. *)
Fixpoint dict_set (d : pydict) (k : string) (v : pyval) : pydict :=
  match d with
  | [] => [(k, v)]
  | (k', v') :: d' =>
      if String.eqb k' k then (k', v) :: d' else (k', v') :: dict_set d' k v
  end.

(** [d[k]] *)
Definition dict_item (d : pydict) (k : string) : outcome pyval :=
  match dict_get d k with
  | Some v => Ok v
  | None => Raise (KeyError k)
  end.

(** ** Attribute access, indexing, truth, iteration *)

Definition getattr (v : pyval) (name : string) : outcome pyval :=
  match v with
  | PObj attrs =>
      match dict_get attrs name with
      | Some a => Ok a
      | None => Raise (AttributeError name)
      end
  | _ => Raise (AttributeError name)
  end.

Definition hasattr (v : pyval) (name : string) : bool :=
  match getattr v name with Ok _ => true | _ => false end.

Definition isinstance_dict (v : pyval) : bool :=
  match v with PDict _ => true | _ => false end.

(** [v()] *)
Definition py_call (v : pyval) : outcome pyval :=
  match v with
  | PMethod r => Ok r
  | _ => Raise TypeError
  end.

Definition chars (s : string) : list pyval :=
  (fun c => PStr (String c EmptyString)) <$> String.list_ascii_of_string s.

(** [v[0]] *)
Definition py_first (v : pyval) : outcome pyval :=
  match v with
  | PList (x :: _) => Ok x
  | PList [] => Raise IndexError
  | PStr s =>
      match chars s with x :: _ => Ok x | [] => Raise IndexError end
  | PDict _ => Raise (KeyError "0")
  | _ => Raise TypeError
  end.

(** [bool(v)] *)
Definition truthy (v : pyval) : bool :=
  match v with
  | PNone => false
  | PBool b => b
  | PInt z => negb (Z.eqb z 0)
  | PStr s => negb (String.eqb s "")
  | PList xs => match xs with [] => false | _ => true end
  | PDict kvs => match kvs with [] => false | _ => true end
  | PObj _ => true
  | PMethod _ => true
  end.

(** The elements a [for] loop over [v] visits. *)
Definition py_iter (v : pyval) : outcome (list pyval) :=
  match v with
  | PList xs => Ok xs
  | PStr s => Ok (chars s)
  | PDict kvs => Ok ((fun kv => PStr (fst kv)) <$> kvs)
  | _ => Raise TypeError
  end.

(** [s.endswith(suffix)] *)
Definition endswith (s suffix : string) : bool :=
  let n := String.length s in
  let k := String.length suffix in
  if (k <=? n)%nat
  then String.eqb (String.substring (n - k) k s) suffix
  else false.

(** ** The file system, the clock and the log *)

Inductive node : Type :=
| Dir
| File (content : pyval).

(** What [datetime.now()] returns. *)
Record datetime : Type := {
  year : Z; month : Z; day : Z;
  hour : Z; minute : Z; second : Z;
  microsecond : Z
}.

(** The last decimal digit of [n]. *)
Definition digit (n : Z) : ascii := ascii_of_nat (Z.to_nat (48 + n mod 10)).

(** [%m], [%d], [%H], [%M], [%S]: two digits. *)
Definition pad2 (n : Z) : string :=
  String (digit (n / 10)) (String (digit n) "").

(** [%Y]: four digits. *)
Definition pad4 (n : Z) : string :=
  String (digit (n / 1000)) (String (digit (n / 100)) (pad2 n)).

(** [t.strftime("%Y-%m-%d_%H-%M-%S")] *)
Definition strftime (t : datetime) : string :=
  pad4 (year t) +:+ "-" +:+ pad2 (month t) +:+ "-" +:+ pad2 (day t) +:+ "_"
  +:+ pad2 (hour t) +:+ "-" +:+ pad2 (minute t) +:+ "-" +:+ pad2 (second t).

(** [os.path.join(a, b)] for a relative [b], on a POSIX system. *)
Definition path_join (a b : string) : string := a +:+ "/" +:+ b.

Definition conversation_path (t : datetime) : string :=
  path_join "conversations" ("conversation_" +:+ strftime t +:+ ".json").

Inductive level : Type := INFO | ERROR | DEBUG | STDERR.

(** ** External calls *)

(** Every call that leaves the client is written to a trace, in the order
    the calls are made.  The trace is the only place where the model keeps
    more than the program does; the oracles below are indexed by it.
    The creation of a directory shows in the file system only. *)
Inductive event : Type :=
| EvSpawn (command : string) (args : list string)
| EvOpenSession (stdio write : nat)
| EvInitialize (session : nat)
| EvListTools (session : nat)
| EvLLM (messages : list pydict) (tools : list pyval)
| EvCallTool (session : nat) (name args : pyval)
| EvNow (t : datetime)
| EvWrite (path : string) (content : pyval).

Definition is_llm (e : event) : bool :=
  match e with EvLLM _ _ => true | _ => false end.
Definition is_call_tool (e : event) : bool :=
  match e with EvCallTool _ _ _ => true | _ => false end.
Definition is_now (e : event) : bool :=
  match e with EvNow _ => true | _ => false end.

Definition count (p : event -> bool) (tr : list event) : nat :=
  length (List.filter p tr).

(** The collaborators of the client.  A call is answered from its
    arguments and from how many calls of its kind came before it. *)
Record environment : Type := {
  (** [stdio_client(server_params)], entered: the two streams *)
  env_stdio_client : string -> list string -> outcome (nat * nat);
  (** [ClientSession(stdio, write)], entered *)
  env_client_session : nat -> nat -> outcome nat;
  env_initialize : nat -> outcome unit;
  env_list_tools : nat -> outcome pyval;
  env_call_tool : nat -> nat -> pyval -> pyval -> outcome pyval;
  (** [self.llm.chat.completions.create(...)] *)
  env_completions_create : nat -> list pydict -> list pyval -> outcome pyval;
  env_json_loads : pyval -> outcome pyval;
  env_now : nat -> datetime;
  (** a failure of the operating system on creating a directory or on
      opening a file for writing, by path *)
  env_makedirs_fault : string -> option exn;
  env_open_fault : string -> option exn
}.

Inductive resource : Type :=
| StdioTransport (stdio write : nat)
| Session (id : nat).

(** The fields of [MCPClient] followed by the world around it. *)
Record state : Type := {
  session : option nat;
  stdio_write : option (nat * nat);
  exit_stack : list resource;
  tools : list pyval;
  messages : list pydict;
  fs : gmap string node;
  logs : list (level * string);
  trace : list event
}.

(** [MCPClient.__init__] in a world with files [files]. *)
Definition init (files : gmap string node) : state :=
  {| session := None; stdio_write := None; exit_stack := [];
     tools := []; messages := [];
     fs := files; logs := []; trace := [] |}.

Definition set_session (x : option nat) (s : state) : state :=
  {| session := x; stdio_write := stdio_write s; exit_stack := exit_stack s;
     tools := tools s; messages := messages s;
     fs := fs s; logs := logs s; trace := trace s |}.
Definition set_stdio_write (x : option (nat * nat)) (s : state) : state :=
  {| session := session s; stdio_write := x; exit_stack := exit_stack s;
     tools := tools s; messages := messages s;
     fs := fs s; logs := logs s; trace := trace s |}.
Definition set_exit_stack (x : list resource) (s : state) : state :=
  {| session := session s; stdio_write := stdio_write s; exit_stack := x;
     tools := tools s; messages := messages s;
     fs := fs s; logs := logs s; trace := trace s |}.
Definition set_tools (x : list pyval) (s : state) : state :=
  {| session := session s; stdio_write := stdio_write s;
     exit_stack := exit_stack s; tools := x; messages := messages s;
     fs := fs s; logs := logs s; trace := trace s |}.
Definition set_messages (x : list pydict) (s : state) : state :=
  {| session := session s; stdio_write := stdio_write s;
     exit_stack := exit_stack s; tools := tools s; messages := x;
     fs := fs s; logs := logs s; trace := trace s |}.
Definition set_fs (x : gmap string node) (s : state) : state :=
  {| session := session s; stdio_write := stdio_write s;
     exit_stack := exit_stack s; tools := tools s; messages := messages s;
     fs := x; logs := logs s; trace := trace s |}.
Definition set_logs (x : list (level * string)) (s : state) : state :=
  {| session := session s; stdio_write := stdio_write s;
     exit_stack := exit_stack s; tools := tools s; messages := messages s;
     fs := fs s; logs := x; trace := trace s |}.
Definition set_trace (x : list event) (s : state) : state :=
  {| session := session s; stdio_write := stdio_write s;
     exit_stack := exit_stack s; tools := tools s; messages := messages s;
     fs := fs s; logs := logs s; trace := x |}.

(** ** The monad of the methods *)

Definition M (A : Type) : Type := state -> outcome A * state.

Definition ret {A} (a : A) : M A := fun s => (Ok a, s).

Definition bind {A B} (m : M A) (k : A -> M B) : M B :=
  fun s =>
    match m s with
    | (Ok a, s') => k a s'
    | (Raise e, s') => (Raise e, s')
    | (OutOfFuel, s') => (OutOfFuel, s')
    end.

Notation "'let!' x ':=' m 'in' k" := (bind m (fun x => k))
  (at level 10, x name, m at level 100, k at level 200).
Notation "m ';;;' k" := (bind m (fun _ => k))
  (at level 100, k at level 200, right associativity).

Definition raise {A} (e : exn) : M A := fun s => (Raise e, s).

(** A pure computation that may raise. *)
Definition lift {A} (r : outcome A) : M A := fun s => (r, s).

Definition get {A} (f : state -> A) : M A := fun s => (Ok (f s), s).
Definition modify (f : state -> state) : M unit := fun s => (Ok tt, f s).

(** [try: m  except Exception as e: h e; raise] *)
Definition reraising {A} (m : M A) (h : exn -> M unit) : M A :=
  fun s =>
    match m s with
    | (Raise e, s') =>
        match h e s' with
        | (Ok _, s'') => (Raise e, s'')
        | (Raise e', s'') => (Raise e', s'')
        | (OutOfFuel, s'') => (OutOfFuel, s'')
        end
    | r => r
    end.

Definition emit (e : event) : M unit :=
  modify (fun s => set_trace (trace s ++ [e]) s).

(** [self.logger.<level>(f"<text>...")]: the log keeps the level and the
    literal text of the message, not the values formatted into it. *)
Definition log (l : level) (text : string) : M unit :=
  modify (fun s => set_logs (logs s ++ [(l, text)]) s).

(** [self.messages.append(m)] *)
Definition append_message (m : pydict) : M unit :=
  modify (fun s => set_messages (messages s ++ [m]) s).

(** ** The transcript encoding *)

(** A list comprehension, or a loop that appends one result per element:
    the first element that raises ends it. *)
Fixpoint for_each {A B} (f : A -> outcome B) (l : list A) : outcome (list B) :=
  match l with
  | [] => Ok []
  | x :: l' =>
      try! y := f x in
      try! ys := for_each f l' in
      Ok (y :: ys)
  end.

(** The three branches of the inner loop of [log_conversation]. *)
Definition serialize_tool_call (tool_call : pyval) : outcome pyval :=
  if hasattr tool_call "to_dict" then
    try! m := getattr tool_call "to_dict" in
    py_call m
  else if isinstance_dict tool_call then
    Ok tool_call
  else
    try! i := getattr tool_call "id" in
    try! f := getattr tool_call "function" in
    try! n := getattr f "name" in
    try! f' := getattr tool_call "function" in
    try! a := getattr f' "arguments" in
    Ok (PDict [("id", i); ("function", PDict [("name", n); ("arguments", a)])]).

(** The body of the outer loop of [log_conversation], for one message. *)
Definition serialize_message (message : pydict) : outcome pydict :=
  try! role := dict_item message "role" in
  let sm := [("role", role)] in
  try! sm1 :=
    (if dict_in "content" message then
       try! c := dict_item message "content" in
       Ok (dict_set sm "content" c)
     else Ok sm) in
  try! sm2 :=
    (if dict_in "tool_calls" message then
       try! tcs := dict_item message "tool_calls" in
       try! items := py_iter tcs in
       try! l := for_each serialize_tool_call items in
       Ok (dict_set sm1 "tool_calls" (PList l))
     else Ok sm1) in
  try! sm3 :=
    (if dict_in "tool_call_id" message then
       try! i := dict_item message "tool_call_id" in
       Ok (dict_set sm2 "tool_call_id" i)
     else Ok sm2) in
  Ok sm3.

(** ** The methods of [MCPClient] *)

Section Client.

Context (E : environment).

(** [os.makedirs(path, exist_ok=True)] *)
Definition os_makedirs (path : string) : M unit :=
  match env_makedirs_fault E path with
  | Some e => raise e
  | None =>
      let! files := get fs in
      match files !! path with
      | Some (File _) => raise (FileExistsError path)
      | Some Dir => ret tt
      | None =>
          modify (fun s => set_fs (<[path := Dir]> (fs s)) s)
      end
  end.

(** [datetime.now()] *)
Definition now : M datetime :=
  let! tr := get trace in
  let t := env_now E (count is_now tr) in
  emit (EvNow t) ;;;
  ret t.

(** [with open(filepath, "w") as f: json.dump(v, f, indent=2, default=str)]:
    the file holds the structure that is dumped, in place of what was
    there. *)
Definition write_json (filepath : string) (v : pyval) : M unit :=
  match env_open_fault E filepath with
  | Some e => raise e
  | None =>
      let! files := get fs in
      match files !! filepath with
      | Some Dir => raise (IsADirectoryError filepath)
      | _ =>
          emit (EvWrite filepath v) ;;;
          modify (fun s => set_fs (<[filepath := File v]> (fs s)) s)
      end
  end.

(** The outer loop of [log_conversation]. *)
Fixpoint serialize_conversation (msgs : list pydict) : M (list pydict) :=
  match msgs with
  | [] => ret []
  | message :: rest =>
      let! sm :=
        reraising (lift (serialize_message message))
          (fun _ => log ERROR "Error processing message: " ;;;
                    log DEBUG "Message content: ") in
      let! sms := serialize_conversation rest in
      ret (sm :: sms)
  end.

Definition record_of (sc : list pydict) : pyval := PList (PDict <$> sc).

Definition log_conversation : M unit :=
  os_makedirs "conversations" ;;;
  let! msgs := get messages in
  let! serializable_conversation := serialize_conversation msgs in
  let! t := now in
  let filepath := conversation_path t in
  reraising (write_json filepath (record_of serializable_conversation))
    (fun _ => log ERROR "Error writing conversation to file: " ;;;
              log DEBUG "Serializable conversation: ").

(** [self.llm.chat.completions.create(model="gpt-4o", max_tokens=1000,
    messages=self.messages, tools=self.tools)] inside [call_llm]. *)
Definition call_llm : M pyval :=
  reraising
    (log INFO "Calling LLM" ;;;
     let! msgs := get messages in
     let! ts := get tools in
     let! tr := get trace in
     emit (EvLLM msgs ts) ;;;
     lift (env_completions_create E (count is_llm tr) msgs ts))
    (fun _ => log ERROR "Error calling LLM: ").

(** [self.session.call_tool(tool_name, tool_args)] *)
Definition session_call_tool (tool_name tool_args : pyval) : M pyval :=
  let! sess := get session in
  match sess with
  | None => raise (AttributeError "call_tool")
  | Some sid =>
      let! tr := get trace in
      emit (EvCallTool sid tool_name tool_args) ;;;
      lift (env_call_tool E (count is_call_tool tr) sid tool_name tool_args)
  end.

Definition tool_message (tool_use_id content : pyval) : pydict :=
  [("role", PStr "tool"); ("tool_call_id", tool_use_id); ("content", content)].

(** The body of [for tool_call in message.tool_calls]. *)
Definition dispatch_tool_call (tool_call : pyval) : M unit :=
  let! f := lift (getattr tool_call "function") in
  let! tool_name := lift (getattr f "name") in
  let! f' := lift (getattr tool_call "function") in
  let! a := lift (getattr f' "arguments") in
  let! tool_args := lift (env_json_loads E a) in
  let! tool_use_id := lift (getattr tool_call "id") in
  log INFO "Calling tool  with args " ;;;
  reraising
    (let! result := session_call_tool tool_name tool_args in
     log INFO "Tool  result: ..." ;;;
     let! content := lift (getattr result "content") in
     append_message (tool_message tool_use_id content) ;;;
     log_conversation)
    (fun _ => log ERROR "Error calling tool : ").

Fixpoint dispatch_tool_calls (tool_calls : list pyval) : M unit :=
  match tool_calls with
  | [] => ret tt
  | tool_call :: rest =>
      dispatch_tool_call tool_call ;;;
      dispatch_tool_calls rest
  end.

(** [response.choices[0].message] *)
Definition first_message (response : pyval) : outcome pyval :=
  try! choices := getattr response "choices" in
  try! choice := py_first choices in
  getattr choice "message".

(** [not hasattr(response, 'choices')
     or not response.choices[0].message.tool_calls] *)
Definition is_text_response (response : pyval) : outcome bool :=
  if negb (hasattr response "choices") then Ok true
  else
    try! message := first_message response in
    try! tool_calls := getattr message "tool_calls" in
    Ok (negb (truthy tool_calls)).

Definition user_message (query : string) : pydict :=
  [("role", PStr "user"); ("content", PStr query)].

Definition assistant_text_message (content : pyval) : pydict :=
  [("role", PStr "assistant"); ("content", content)].

Definition assistant_tool_message (content tool_calls : pyval) : pydict :=
  [("role", PStr "assistant"); ("content", content);
   ("tool_calls", tool_calls)].

(** [while True: ...] of [process_query]; [fuel] bounds the number of
    turns of the loop the model follows. *)
Fixpoint agent_loop (fuel : nat) : M unit :=
  match fuel with
  | O => lift OutOfFuel
  | S fuel' =>
      let! response := call_llm in
      let! text := lift (is_text_response response) in
      if (text : bool) then
        let! message := lift (first_message response) in
        let! content := lift (getattr message "content") in
        append_message (assistant_text_message content) ;;;
        log_conversation
      else
        let! message := lift (first_message response) in
        let! content := lift (getattr message "content") in
        let! tool_calls := lift (getattr message "tool_calls") in
        append_message (assistant_tool_message content tool_calls) ;;;
        log_conversation ;;;
        let! items := lift (py_iter tool_calls) in
        dispatch_tool_calls items ;;;
        agent_loop fuel'
  end.

Definition process_query (fuel : nat) (query : string) : M (list pydict) :=
  reraising
    (log INFO "Processing query: " ;;;
     modify (set_messages [user_message query]) ;;;
     agent_loop fuel ;;;
     get messages)
    (fun _ => log ERROR "Error processing query: ").

(** *** Connecting *)

(** [self.exit_stack.enter_async_context(stdio_client(server_params))] *)
Definition enter_stdio_client (command : string) (args : list string)
  : M (nat * nat) :=
  emit (EvSpawn command args) ;;;
  let! t := lift (env_stdio_client E command args) in
  modify (fun s =>
    set_exit_stack (exit_stack s ++ [StdioTransport (fst t) (snd t)]) s) ;;;
  ret t.

(** [self.exit_stack.enter_async_context(ClientSession(stdio, write))] *)
Definition enter_client_session (stdio write : nat) : M nat :=
  emit (EvOpenSession stdio write) ;;;
  let! sid := lift (env_client_session E stdio write) in
  modify (fun s => set_exit_stack (exit_stack s ++ [Session sid]) s) ;;;
  ret sid.

(** [self.session.initialize()] *)
Definition session_initialize : M unit :=
  let! sess := get session in
  match sess with
  | None => raise (AttributeError "initialize")
  | Some sid =>
      emit (EvInitialize sid) ;;;
      lift (env_initialize E sid)
  end.

Definition get_mcp_tools : M pyval :=
  reraising
    (let! sess := get session in
     match sess with
     | None => raise (AttributeError "list_tools")
     | Some sid =>
         emit (EvListTools sid) ;;;
         let! response := lift (env_list_tools E sid) in
         lift (getattr response "tools")
     end)
    (fun _ => log ERROR "Error getting MCP tools: ").

(** One element of the comprehension that builds [self.tools]. *)
Definition tool_schema (tool : pyval) : outcome pyval :=
  try! n := getattr tool "name" in
  try! d := getattr tool "description" in
  try! p := getattr tool "inputSchema" in
  Ok (PDict [("type", PStr "function");
             ("function",
              PDict [("name", n); ("description", d); ("parameters", p)])]).

Definition connect_to_server (server_script_path : string) : M bool :=
  reraising
    (let is_python := endswith server_script_path ".py" in
     let is_js := endswith server_script_path ".js" in
     (if negb (is_python || is_js)
      then raise (ValueError "Server script must be a .py or .js file")
      else ret tt) ;;;
     let command := if is_python then "python" else "node" in
     let! stdio_transport := enter_stdio_client command [server_script_path] in
     modify (set_stdio_write (Some stdio_transport)) ;;;
     let! sid :=
       enter_client_session (fst stdio_transport) (snd stdio_transport) in
     modify (set_session (Some sid)) ;;;
     session_initialize ;;;
     log INFO "Connected to MCP server" ;;;
     let! mcp_tools := get_mcp_tools in
     let! items := lift (py_iter mcp_tools) in
     let! schemas := lift (for_each tool_schema items) in
     modify (set_tools schemas) ;;;
     log INFO "Available tools: " ;;;
     ret true)
    (fun _ => log ERROR "Error connecting to MCP server: " ;;;
              log STDERR "traceback").

End Client.

Arguments count : simpl never.
Arguments conversation_path : simpl never.
Arguments record_of : simpl never.


(** ** Vocabulary of the properties *)

(** The state in which [process_query] enters its loop. *)
Definition query_start (query : string) (s : state) : state :=
  set_messages [user_message query]
    (set_logs (logs s ++ [(INFO, "Processing query: ")]) s).

(** The storage accepts transcripts: the operating system reports no
    failure, ["conversations"] is not a file and no transcript path is a
    directory. *)
Definition storage_ok (E : environment) (s : state) : Prop :=
  env_makedirs_fault E "conversations" = None
  /\ (forall p, env_open_fault E p = None)
  /\ (forall c, fs s !! "conversations" <> Some (File c))
  /\ (forall t, fs s !! conversation_path t <> Some Dir).

(** The time at which a transcript written from [s] is stamped. *)
Definition stamp (E : environment) (s : state) : datetime :=
  env_now E (count is_now (trace s)).

(** The state after a transcript [sc] has been written from [s]. *)
Definition recorded (E : environment) (sc : list pydict) (s : state)
  : state :=
  let t := stamp E s in
  set_fs (<[conversation_path t := File (record_of sc)]>
            (<["conversations" := Dir]> (fs s)))
    (set_trace
       (trace s ++ [EvNow t; EvWrite (conversation_path t) (record_of sc)])
       s).

(** What one tool call of a batch amounts to: the identifier, the tool
    name, the decoded arguments, and the content of the result. *)
Record reply : Type := {
  r_id : pyval; r_name : pyval; r_args : pyval; r_content : pyval
}.

(** [tool_call] reads as a request for [r_name r] with arguments that
    decode to [r_args r], under the identifier [r_id r]. *)
Definition requests (E : environment) (tool_call : pyval) (r : reply)
  : Prop :=
  exists f a,
    getattr tool_call "function" = Ok f
    /\ getattr f "name" = Ok (r_name r)
    /\ getattr f "arguments" = Ok a
    /\ env_json_loads E a = Ok (r_args r)
    /\ getattr tool_call "id" = Ok (r_id r).

(** The [k]-th call made on session [sid] is this request and returns a
    result whose content is [r_content r]. *)
Definition answered (E : environment) (sid k : nat) (tool_call : pyval)
    (r : reply) : Prop :=
  requests E tool_call r
  /\ exists result,
       env_call_tool E k sid (r_name r) (r_args r) = Ok result
       /\ getattr result "content" = Ok (r_content r).

(** The calls of a batch, the first being the [k]-th call of the session,
    are answered one by one. *)
Fixpoint all_answered (E : environment) (sid k : nat)
    (tool_calls : list pyval) (rs : list reply) : Prop :=
  match tool_calls, rs with
  | [], [] => True
  | tool_call :: tool_calls', r :: rs' =>
      answered E sid k tool_call r /\ all_answered E sid (S k) tool_calls' rs'
  | _, _ => False
  end.

Definition reply_message (r : reply) : pydict :=
  tool_message (r_id r) (r_content r).

(** The encoding of [reply_message r] in a transcript. *)
Definition reply_record (r : reply) : pydict :=
  [("role", PStr "tool"); ("content", r_content r);
   ("tool_call_id", r_id r)].

(** The external calls of the [i]-th tool call of a batch that starts in
    a state whose clock was read [n] times and whose conversation encodes
    as [sc]: the call, then the transcript with the first [i + 1]
    results. *)
Definition call_block (E : environment) (sid n : nat) (sc : list pydict)
    (rs : list reply) (i : nat) (r : reply) : list event :=
  let t := env_now E (n + i) in
  [EvCallTool sid (r_name r) (r_args r);
   EvNow t;
   EvWrite (conversation_path t)
     (record_of (sc ++ (reply_record <$> take (S i) rs)))].

Definition role_of (m : pydict) : option pyval := dict_get m "role".

(** ** Values of the shapes the collaborators document *)

Definition mk_tool_call (i n a : pyval) : pyval :=
  PObj [("id", i); ("type", PStr "function");
        ("function", PObj [("name", n); ("arguments", a)])].

Definition mk_response (content tool_calls : pyval) : pyval :=
  PObj [("choices",
         PList [PObj [("message",
                       PObj [("role", PStr "assistant");
                             ("content", content);
                             ("tool_calls", tool_calls)])]])].

Definition mk_result (content : pyval) : pyval :=
  PObj [("content", content); ("isError", PBool false)].

Definition mk_tool (n d schema : pyval) : pyval :=
  PObj [("name", n); ("description", d); ("inputSchema", schema)].

(** The state after the LLM endpoint has been called from [s]. *)
Definition asked (s : state) : state :=
  set_trace (trace s ++ [EvLLM (messages s) (tools s)])
    (set_logs (logs s ++ [(INFO, "Calling LLM")]) s).

(** The answer the endpoint gives to the call made from [s]. *)
Definition completion (E : environment) (s : state) : outcome pyval :=
  env_completions_create E (count is_llm (trace s)) (messages s) (tools s).

(** ** Environments for the examples *)

(** The double quote, and the JSON document of an object with the one key
    [city], as the model writes the arguments of a call. *)
Definition dq : string := String "034"%char "".

Definition city_json (c : string) : string :=
  "{" +:+ dq +:+ "city" +:+ dq +:+ ": " +:+ dq +:+ c +:+ dq +:+ "}".

Definition city_args (c : string) : pyval := PStr (city_json c).

(** [json.loads] on the arguments of the examples: the document of one of
    three cities decodes to its mapping; the examples hand it no other
    document, and a string that is none raises [JSONDecodeError], a
    [ValueError].  An argument that is no string raises [TypeError]. *)
Definition json_loads_cities (a : pyval) : outcome pyval :=
  match a with
  | PStr s =>
      match List.find (fun c => String.eqb s (city_json c))
              ["Paris"; "Oslo"; "Rome"] with
      | Some c => Ok (PDict [("city", PStr c)])
      | None => Raise (ValueError "JSONDecodeError")
      end
  | _ => Raise TypeError
  end.

(** The weather server of the examples, by the arguments of the call. *)
Definition forecast (args : pyval) : outcome pyval :=
  match args with
  | PDict [(k, PStr c)] =>
      if negb (String.eqb k "city") then Raise (External "invalid arguments")
      else if String.eqb c "Paris" then Ok (PStr "15C, cloudy")
      else if String.eqb c "Oslo" then Ok (PStr "3C, snow")
      else if String.eqb c "Rome" then Ok (PStr "22C, sunny")
      else Raise (External "unknown city")
  | _ => Raise (External "invalid arguments")
  end.

Definition first_of_january (sec usec : Z) : datetime :=
  {| year := 2025; month := 1; day := 1; hour := 12; minute := 0;
     second := sec; microsecond := usec |}.

(** A server with one tool, a model that asks for the weather once and
    then answers, and a clock that advances by one second per reading. *)
Definition weather_env : environment :=
  {| env_stdio_client := fun _ _ => Ok (0, 1);
     env_client_session := fun _ _ => Ok 7;
     env_initialize := fun _ => Ok tt;
     env_list_tools := fun _ =>
       Ok (PObj [("tools",
                  PList [mk_tool (PStr "get_weather") (PStr "Weather")
                           (PDict [("type", PStr "object")])])]);
     env_call_tool := fun _ _ _ _ => Ok (mk_result (PStr "15C, cloudy"));
     env_completions_create := fun n _ _ =>
       match n with
       | O => Ok (mk_response PNone
                    (PList [mk_tool_call (PStr "call_1") (PStr "get_weather")
                              (city_args "Paris")]))
       | _ => Ok (mk_response (PStr "It is 15C and cloudy in Paris.") PNone)
       end;
     env_json_loads := json_loads_cities;
     env_now := fun n => first_of_january (Z.of_nat n) 0;
     env_makedirs_fault := fun _ => None;
     env_open_fault := fun _ => None |}.

(** The same, with a model that answers at once. *)
Definition sum_env : environment :=
  {| env_stdio_client := env_stdio_client weather_env;
     env_client_session := env_client_session weather_env;
     env_initialize := env_initialize weather_env;
     env_list_tools := env_list_tools weather_env;
     env_call_tool := env_call_tool weather_env;
     env_completions_create := fun _ _ _ => Ok (mk_response (PStr "4") PNone);
     env_json_loads := env_json_loads weather_env;
     env_now := env_now weather_env;
     env_makedirs_fault := fun _ => None;
     env_open_fault := fun _ => None |}.

(** A client connected to session 7, before any query. *)
Definition connected : state := set_session (Some 7) (init ∅).

Definition bad_script_error : exn :=
  ValueError "Server script must be a .py or .js file".


Arguments stamp : simpl never.

(** An endpoint whose answer is an object without [choices]. *)
Definition empty_env : environment :=
  {| env_stdio_client := env_stdio_client weather_env;
     env_client_session := env_client_session weather_env;
     env_initialize := env_initialize weather_env;
     env_list_tools := env_list_tools weather_env;
     env_call_tool := env_call_tool weather_env;
     env_completions_create := fun _ _ _ =>
       Ok (PObj [("error", PStr "overloaded")]);
     env_json_loads := env_json_loads weather_env;
     env_now := env_now weather_env;
     env_makedirs_fault := fun _ => None;
     env_open_fault := fun _ => None |}.

(** A tool descriptor as the server lists it. *)
Record descriptor : Type := {
  d_name : pyval; d_description : pyval; d_input_schema : pyval
}.

(** The object [tool] carries the descriptor [d]. *)
Definition describes (tool : pyval) (d : descriptor) : Prop :=
  getattr tool "name" = Ok (d_name d)
  /\ getattr tool "description" = Ok (d_description d)
  /\ getattr tool "inputSchema" = Ok (d_input_schema d).

(** The schema entry the LLM endpoint is given for [d]. *)
Definition schema_entry (d : descriptor) : pyval :=
  PDict [("type", PStr "function");
         ("function",
          PDict [("name", d_name d);
                 ("description", d_description d);
                 ("parameters", d_input_schema d)])].

(** The entry as the specification words it, with the discriminator under
    the key [kind]. *)
Definition kind_entry (d : descriptor) : pyval :=
  PDict [("kind", PStr "function");
         ("function",
          PDict [("name", d_name d);
                 ("description", d_description d);
                 ("parameters", d_input_schema d)])].

(** A server with three tools, listed in an order that is not the
    alphabetical one. *)
Definition catalog : list descriptor :=
  [{| d_name := PStr "get_weather"; d_description := PStr "Weather";
      d_input_schema := PDict [("type", PStr "object")] |};
   {| d_name := PStr "add"; d_description := PStr "Sum of two numbers";
      d_input_schema := PDict [("type", PStr "object");
                               ("required", PList [PStr "a"; PStr "b"])] |};
   {| d_name := PStr "get_time"; d_description := PStr "Time";
      d_input_schema := PDict [] |}].

Definition catalog_env : environment :=
  {| env_stdio_client := env_stdio_client weather_env;
     env_client_session := env_client_session weather_env;
     env_initialize := env_initialize weather_env;
     env_list_tools := fun _ =>
       Ok (PObj [("tools",
                  PList ((fun d => mk_tool (d_name d) (d_description d)
                                     (d_input_schema d)) <$> catalog))]);
     env_call_tool := env_call_tool weather_env;
     env_completions_create := env_completions_create weather_env;
     env_json_loads := env_json_loads weather_env;
     env_now := env_now weather_env;
     env_makedirs_fault := fun _ => None;
     env_open_fault := fun _ => None |}.

(** The state after the call [r] was made from [s] on session [sid] and
    its result was appended to the conversation. *)
Definition called (sid : nat) (r : reply) (s : state) : state :=
  set_messages (messages s ++ [reply_message r])
    (set_logs (logs s ++ [(INFO, "Calling tool  with args ");
                          (INFO, "Tool  result: ...")])
       (set_trace (trace s ++ [EvCallTool sid (r_name r) (r_args r)]) s)).

(** The state after the calls [rs] were made, appended and recorded one
    after the other, from a state whose conversation encodes as [sc]. *)
Fixpoint after_batch (E : environment) (sid : nat) (sc : list pydict)
    (rs : list reply) (s : state) : state :=
  match rs with
  | [] => s
  | r :: rs' =>
      let sc' := sc ++ [reply_record r] in
      after_batch E sid sc' rs' (recorded E sc' (called sid r s))
  end.

(** The [k]-th call of session [sid] fails with [e], either when its
    arguments are decoded or when the tool is called; the index is the
    external calls made for it. *)
Inductive fails (E : environment) (sid k : nat) (tool_call : pyval)
    (e : exn) : list event -> Prop :=
| fails_decode (f n a : pyval) :
    getattr tool_call "function" = Ok f ->
    getattr f "name" = Ok n ->
    getattr f "arguments" = Ok a ->
    env_json_loads E a = Raise e ->
    fails E sid k tool_call e []
| fails_call (r : reply) :
    requests E tool_call r ->
    env_call_tool E k sid (r_name r) (r_args r) = Raise e ->
    fails E sid k tool_call e [EvCallTool sid (r_name r) (r_args r)].

(** The state after the model answered the call made from [s] with the
    assistant message [am], which was appended and recorded as [ar]. *)
Definition turned (E : environment) (sc : list pydict) (am ar : pydict)
    (s : state) : state :=
  recorded E (sc ++ [ar]) (set_messages (messages s ++ [am]) (asked s)).

(** What [process_query] makes of the way its loop ends. *)
Definition finish_query (r : outcome unit * state)
  : outcome (list pydict) * state :=
  match r with
  | (Ok _, s') => (Ok (messages s'), s')
  | (Raise e, s') =>
      (Raise e, set_logs (logs s' ++ [(ERROR, "Error processing query: ")]) s')
  | (OutOfFuel, s') => (OutOfFuel, s')
  end.

(** A model that asks for three tools at once, and a session whose second
    call fails. *)
Definition three_calls : list pyval :=
  [mk_tool_call (PStr "call_1") (PStr "get_weather") (city_args "Paris");
   mk_tool_call (PStr "call_2") (PStr "get_weather") (city_args "Oslo");
   mk_tool_call (PStr "call_3") (PStr "get_weather") (city_args "Rome")].

Definition failing_env : environment :=
  {| env_stdio_client := env_stdio_client weather_env;
     env_client_session := env_client_session weather_env;
     env_initialize := env_initialize weather_env;
     env_list_tools := env_list_tools weather_env;
     env_call_tool := fun k _ _ _ =>
       match k with
       | 1 => Raise (External "tool execution failed")
       | _ => Ok (mk_result (PStr "15C, cloudy"))
       end;
     env_completions_create := fun _ _ _ =>
       Ok (mk_response PNone (PList three_calls));
     env_json_loads := json_loads_cities;
     env_now := env_now weather_env;
     env_makedirs_fault := fun _ => None;
     env_open_fault := fun _ => None |}.

(** A model that asks for the weather of three cities at once and then
    answers, a server that knows them, and a clock that advances by one
    second per reading. *)
Definition three_cities_env : environment :=
  {| env_stdio_client := env_stdio_client weather_env;
     env_client_session := env_client_session weather_env;
     env_initialize := env_initialize weather_env;
     env_list_tools := env_list_tools weather_env;
     env_call_tool := fun _ _ _ args =>
       try! c := forecast args in Ok (mk_result c);
     env_completions_create := fun n _ _ =>
       match n with
       | O => Ok (mk_response PNone (PList three_calls))
       | _ => Ok (mk_response (PStr "Cloudy, snow and sun.") PNone)
       end;
     env_json_loads := json_loads_cities;
     env_now := env_now weather_env;
     env_makedirs_fault := fun _ => None;
     env_open_fault := fun _ => None |}.

(** What the three calls amount to, in the order of the request. *)
Definition three_replies : list reply :=
  [{| r_id := PStr "call_1"; r_name := PStr "get_weather";
      r_args := PDict [("city", PStr "Paris")];
      r_content := PStr "15C, cloudy" |};
   {| r_id := PStr "call_2"; r_name := PStr "get_weather";
      r_args := PDict [("city", PStr "Oslo")];
      r_content := PStr "3C, snow" |};
   {| r_id := PStr "call_3"; r_name := PStr "get_weather";
      r_args := PDict [("city", PStr "Rome")];
      r_content := PStr "22C, sunny" |}].

(** The transcript of the three-cities query once the three results are
    in: the user message, the assistant message with the three calls,
    and the three results. *)
Definition three_cities_record : list pydict :=
  [[("role", PStr "user"); ("content", PStr "Weather in three cities?")];
   [("role", PStr "assistant"); ("content", PNone);
    ("tool_calls",
     PList
       [PDict [("id", PStr "call_1");
               ("function",
                PDict [("name", PStr "get_weather");
                       ("arguments", city_args "Paris")])];
        PDict [("id", PStr "call_2");
               ("function",
                PDict [("name", PStr "get_weather");
                       ("arguments", city_args "Oslo")])];
        PDict [("id", PStr "call_3");
               ("function",
                PDict [("name", PStr "get_weather");
                       ("arguments", city_args "Rome")])]])];
   [("role", PStr "tool"); ("content", PStr "15C, cloudy");
    ("tool_call_id", PStr "call_1")];
   [("role", PStr "tool"); ("content", PStr "3C, snow");
    ("tool_call_id", PStr "call_2")];
   [("role", PStr "tool"); ("content", PStr "22C, sunny");
    ("tool_call_id", PStr "call_3")]].

(** ** Views of the conversation *)

(** [lo], then the conversations [views] in this order, then [hi]: each is
    a prefix of the next. *)
Fixpoint between (lo : list pydict) (views : list (list pydict))
    (hi : list pydict) : Prop :=
  match views with
  | [] => lo `prefix_of` hi
  | v :: views' => lo `prefix_of` v /\ between v views' hi
  end.

(** The conversation an external call shows: the LLM endpoint is given the
    conversation itself, a transcript is its encoding; the other calls show
    nothing of it. *)
Definition sees (e : event) (msgs : list pydict) : Prop :=
  match e with
  | EvLLM m _ => m = msgs
  | EvWrite _ v =>
      exists sc, for_each serialize_message msgs = Ok sc /\ v = record_of sc
  | _ => True
  end.

(** From [s] to [s'] the trace and the conversation only grow, and every
    external call made on the way saw a conversation of the growing
    sequence. *)
Definition extends (s s' : state) : Prop :=
  exists (evs : list event) (views : list (list pydict)),
    trace s' = trace s ++ evs
    /\ Forall2 sees evs views
    /\ between (messages s) views (messages s').

(** Every run of [m] relates the state it starts from to the state it
    ends in. *)
Definition preserves (R : state -> state -> Prop) {A} (m : M A) : Prop :=
  forall s, R s (snd (m s)).

(** ** Time stamps *)

(** The ranges of the fields of a Python [datetime], for the years of
    four digits, which [%Y] prints alike on every platform. *)
Definition valid_datetime (t : datetime) : Prop :=
  (1000 <= year t <= 9999 /\ 1 <= month t <= 12 /\ 1 <= day t <= 31
   /\ 0 <= hour t <= 23 /\ 0 <= minute t <= 59 /\ 0 <= second t <= 59
   /\ 0 <= microsecond t <= 999999)%Z.

(** Two times that agree down to the second. *)
Definition same_second (t t' : datetime) : Prop :=
  year t = year t' /\ month t = month t' /\ day t = day t'
  /\ hour t = hour t' /\ minute t = minute t' /\ second t = second t'.

(** The decimal digits of [n] in a field of [width] digits, the most
    significant first. *)
Fixpoint decimal (width : nat) (n : Z) : string :=
  match width with
  | O => ""
  | S w =>
      decimal w (n / 10)
      +:+ String (ascii_of_nat (48 + Z.to_nat (n mod 10))) ""
  end.

(** The name of the record of time [t], as its layout is worded:
    [conversation_YYYY-MM-DD_HH-MM-SS.json]. *)
Definition record_name (t : datetime) : string :=
  "conversation_"
  +:+ decimal 4 (year t) +:+ "-" +:+ decimal 2 (month t)
  +:+ "-" +:+ decimal 2 (day t) +:+ "_" +:+ decimal 2 (hour t)
  +:+ "-" +:+ decimal 2 (minute t) +:+ "-" +:+ decimal 2 (second t)
  +:+ ".json".

(** [c], and [c'] where [c] does not decide. *)
Definition then_by (c c' : comparison) : comparison :=
  match c with Eq => c' | _ => c end.

(** The order of two times down to the second: by year, then by month,
    day, hour, minute and second. *)
Definition compare_seconds (t t' : datetime) : comparison :=
  then_by (year t ?= year t')%Z
    (then_by (month t ?= month t')%Z
       (then_by (day t ?= day t')%Z
          (then_by (hour t ?= hour t')%Z
             (then_by (minute t ?= minute t')%Z
                (second t ?= second t')%Z)))).

(** A clock that stays in the second 14:05:09 of the seventh of March
    2025, and a storage that holds a record of the second before and a
    record of that very second. *)
Definition seventh_of_march (sec usec : Z) : datetime :=
  {| year := 2025; month := 3; day := 7; hour := 14; minute := 5;
     second := sec; microsecond := usec |}.

Definition march_env : environment :=
  {| env_stdio_client := env_stdio_client weather_env;
     env_client_session := env_client_session weather_env;
     env_initialize := env_initialize weather_env;
     env_list_tools := env_list_tools weather_env;
     env_call_tool := env_call_tool weather_env;
     env_completions_create := env_completions_create weather_env;
     env_json_loads := env_json_loads weather_env;
     env_now := fun n => seventh_of_march 9 (500 + Z.of_nat n);
     env_makedirs_fault := fun _ => None;
     env_open_fault := fun _ => None |}.

Definition archive : gmap string node :=
  <[conversation_path (seventh_of_march 9 0) := File (PStr "same second")]>
    (<[conversation_path (seventh_of_march 8 0) := File (PStr "earlier")]>
       (<["conversations" := Dir]> ∅)).

(** The weather scenario with a clock that advances by one microsecond
    per reading: the whole query runs within one second. *)
Definition fast_env : environment :=
  {| env_stdio_client := env_stdio_client weather_env;
     env_client_session := env_client_session weather_env;
     env_initialize := env_initialize weather_env;
     env_list_tools := env_list_tools weather_env;
     env_call_tool := env_call_tool weather_env;
     env_completions_create := env_completions_create weather_env;
     env_json_loads := env_json_loads weather_env;
     env_now := fun n => first_of_january 0 (Z.of_nat n);
     env_makedirs_fault := fun _ => None;
     env_open_fault := fun _ => None |}.

(** The transcripts a run wrote, oldest first. *)
Definition writes (tr : list event) : list (string * pyval) :=
  omap (fun e => match e with EvWrite p v => Some (p, v) | _ => None end) tr.

(** ** The shape of a transcript *)

(** The shape [{id, function: {name, arguments}}]. *)
Definition normalized (d : pyval) : Prop :=
  exists i n a,
    d = PDict [("id", i); ("function", PDict [("name", n); ("arguments", a)])].

(** [d] is what the recorder writes for the tool call [tc]: what
    [to_dict()] returns when [tc] has the method, [tc] itself when it is a
    mapping, the normalized shape read from its attributes otherwise. *)
Definition encodes_call (tc d : pyval) : Prop :=
  (exists m, getattr tc "to_dict" = Ok m /\ py_call m = Ok d)
  \/ (hasattr tc "to_dict" = false /\ isinstance_dict tc = true /\ d = tc)
  \/ (hasattr tc "to_dict" = false /\ isinstance_dict tc = false
      /\ exists i f n a,
           getattr tc "id" = Ok i
           /\ getattr tc "function" = Ok f
           /\ getattr f "name" = Ok n
           /\ getattr f "arguments" = Ok a
           /\ d = PDict [("id", i);
                         ("function",
                          PDict [("name", n); ("arguments", a)])]).

(** [sm] is what the recorder writes for the message [m]. *)
Definition encoded_as (m sm : pydict) : Prop :=
  (exists role, dict_get m "role" = Some role
                /\ dict_get sm "role" = Some role)
  /\ dict_get sm "content" = dict_get m "content"
  /\ dict_get sm "tool_call_id" = dict_get m "tool_call_id"
  /\ match dict_get m "tool_calls" with
     | None => dict_get sm "tool_calls" = None
     | Some v =>
         exists items ds,
           py_iter v = Ok items
           /\ Forall2 encodes_call items ds
           /\ dict_get sm "tool_calls" = Some (PList ds)
     end
  /\ (forall k, k <> "role" -> k <> "content" -> k <> "tool_calls" ->
                k <> "tool_call_id" -> dict_get sm k = None).

(** ** Messages that cannot be written *)

(** The first of [id], [function], [function.name] and
    [function.arguments] that the object [tc] does not have. *)
Definition missing_attribute (tc : pyval) : option string :=
  match getattr tc "id" with
  | Ok _ =>
      match getattr tc "function" with
      | Ok f =>
          if negb (hasattr f "name") then Some "name"
          else if negb (hasattr f "arguments") then Some "arguments"
          else None
      | _ => Some "function"
      end
  | _ => Some "id"
  end.

(** Why the tool call [tc] cannot be written, if it cannot: it has a
    [to_dict] that is not callable, or it has none, is no mapping and
    lacks one of the four attributes. *)
Definition call_defect (tc : pyval) : option exn :=
  match getattr tc "to_dict" with
  | Ok (PMethod _) => None
  | Ok _ => Some TypeError
  | _ =>
      if isinstance_dict tc then None
      else AttributeError <$> missing_attribute tc
  end.

(** Why the message [m] cannot be written, if it cannot: it has no
    [role], or what it holds under [tool_calls] is not iterable, or one
    of the calls cannot be written; the first such call decides. *)
Definition message_defect (m : pydict) : option exn :=
  match dict_get m "role" with
  | None => Some (KeyError "role")
  | Some _ =>
      match dict_get m "tool_calls" with
      | None => None
      | Some v =>
          match py_iter v with
          | Ok items => head (omap call_defect items)
          | _ => Some TypeError
          end
      end
  end.

(** An assistant message whose tool call is a flat mapping, a user message
    that carries a [tool_call_id], and a tool message that carries none. *)
Definition flat_call : pyval :=
  PDict [("id", PStr "call_1"); ("name", PStr "get_weather");
         ("arguments", city_args "Paris")].

Definition flat_message : pydict :=
  assistant_tool_message PNone (PList [flat_call]).

Definition tagged_user_message : pydict :=
  [("role", PStr "user"); ("content", PStr "hello");
   ("tool_call_id", PStr "call_0")].

Definition orphan_tool_message : pydict :=
  [("role", PStr "tool"); ("content", PStr "15C, cloudy")].

(** A model whose second tool call has lost its [function]. *)
Definition broken_calls : list pyval :=
  [mk_tool_call (PStr "call_1") (PStr "get_weather") (city_args "Paris");
   PObj [("id", PStr "call_2"); ("type", PStr "function")]].

Definition broken_env : environment :=
  {| env_stdio_client := env_stdio_client weather_env;
     env_client_session := env_client_session weather_env;
     env_initialize := env_initialize weather_env;
     env_list_tools := env_list_tools weather_env;
     env_call_tool := env_call_tool weather_env;
     env_completions_create := fun _ _ _ =>
       Ok (mk_response PNone (PList broken_calls));
     env_json_loads := env_json_loads weather_env;
     env_now := env_now weather_env;
     env_makedirs_fault := fun _ => None;
     env_open_fault := fun _ => None |}.

(** * The rest of the client *)

(** ** Leaving the connection *)

(** [self.exit_stack.aclose()]: every context that was entered is left and
    the stack is empty afterwards, whether or not leaving raised; [aclose]
    is what leaving the contexts of the stack amounts to. *)
Definition exit_stack_aclose (aclose : list resource -> outcome unit)
  : M unit :=
  let! stack := get exit_stack in
  modify (set_exit_stack []) ;;;
  lift (aclose stack).

Definition cleanup (aclose : list resource -> outcome unit) : M unit :=
  reraising
    (exit_stack_aclose aclose ;;;
     log INFO "Disconnected from MCP server")
    (fun _ => log ERROR "Error during cleanup: " ;;;
              log STDERR "traceback").

(** ** Vocabulary of the further properties *)

(** An external call made on behalf of the client as [s0] holds it: the
    LLM endpoint is offered the tools of [s0], a tool is called on the
    session of [s0]. *)
Definition served_by (s0 : state) (e : event) : Prop :=
  match e with
  | EvLLM _ ts => ts = tools s0
  | EvCallTool sid _ _ => session s0 = Some sid
  | _ => True
  end.

(** From [s] to [s'] the connection and the catalog are left alone, and
    the calls made on the way were served by them. *)
Definition keeps_connection (s s' : state) : Prop :=
  session s' = session s
  /\ stdio_write s' = stdio_write s
  /\ exit_stack s' = exit_stack s
  /\ tools s' = tools s
  /\ exists evs, trace s' = trace s ++ evs /\ Forall (served_by s) evs.

(** The interpreter [connect_to_server] launches the script with. *)
Definition interpreter (server_script_path : string) : string :=
  if endswith server_script_path ".py" then "python" else "node".

(** A storage in which no file can be opened for writing. *)
Definition readonly_env : environment :=
  {| env_stdio_client := env_stdio_client weather_env;
     env_client_session := env_client_session weather_env;
     env_initialize := env_initialize weather_env;
     env_list_tools := env_list_tools weather_env;
     env_call_tool := env_call_tool weather_env;
     env_completions_create := env_completions_create weather_env;
     env_json_loads := env_json_loads weather_env;
     env_now := env_now weather_env;
     env_makedirs_fault := fun _ => None;
     env_open_fault := fun _ => Some (External "permission denied") |}.

(** A server that does not complete the handshake. *)
Definition deaf_env : environment :=
  {| env_stdio_client := env_stdio_client weather_env;
     env_client_session := env_client_session weather_env;
     env_initialize := fun _ => Raise (External "handshake timed out");
     env_list_tools := env_list_tools weather_env;
     env_call_tool := env_call_tool weather_env;
     env_completions_create := env_completions_create weather_env;
     env_json_loads := env_json_loads weather_env;
     env_now := env_now weather_env;
     env_makedirs_fault := fun _ => None;
     env_open_fault := fun _ => None |}.


(** An interpreter that cannot be started, and an endpoint that is down. *)
Definition offline_env : environment :=
  {| env_stdio_client := fun _ _ => Raise (External "no such file");
     env_client_session := env_client_session weather_env;
     env_initialize := env_initialize weather_env;
     env_list_tools := fun _ => Raise (External "connection closed");
     env_call_tool := env_call_tool weather_env;
     env_completions_create := fun _ _ _ => Raise (External "rate limited");
     env_json_loads := env_json_loads weather_env;
     env_now := env_now weather_env;
     env_makedirs_fault := fun _ => None;
     env_open_fault := fun _ => None |}.

(** The endpoint answers every call with [response], which asks for the
    tool calls [tcs], and the session answers them whenever they are
    made. *)
Definition always_asks (E : environment) (sid : nat)
    (response m content : pyval) (tcs : list pyval) (rs : list reply)
    (ar : pydict) : Prop :=
  (forall n msgs ts, env_completions_create E n msgs ts = Ok response)
  /\ first_message response = Ok m
  /\ getattr m "content" = Ok content
  /\ getattr m "tool_calls" = Ok (PList tcs)
  /\ tcs <> []
  /\ serialize_message (assistant_tool_message content (PList tcs)) = Ok ar
  /\ forall k, all_answered E sid k tcs rs.

(** A model that asks for the weather again and again. *)
Definition eager_env : environment :=
  {| env_stdio_client := env_stdio_client weather_env;
     env_client_session := env_client_session weather_env;
     env_initialize := env_initialize weather_env;
     env_list_tools := env_list_tools weather_env;
     env_call_tool := env_call_tool weather_env;
     env_completions_create := fun _ _ _ =>
       Ok (mk_response PNone
             (PList [mk_tool_call (PStr "call_1") (PStr "get_weather")
                       (city_args "Paris")]));
     env_json_loads := env_json_loads weather_env;
     env_now := env_now weather_env;
     env_makedirs_fault := fun _ => None;
     env_open_fault := fun _ => None |}.
(** * Properties *)

(** ** Evaluation of the building blocks *)

Lemma state_ext (s1 s2 : state) :
  session s1 = session s2 -> stdio_write s1 = stdio_write s2 ->
  exit_stack s1 = exit_stack s2 -> tools s1 = tools s2 ->
  messages s1 = messages s2 -> fs s1 = fs s2 -> logs s1 = logs s2 ->
  trace s1 = trace s2 -> s1 = s2.
Proof. destruct s1, s2; cbn; intros; subst; reflexivity. Qed.

Lemma bind_ok {A B} (m : M A) (k : A -> M B) s a s' :
  m s = (Ok a, s') -> bind m k s = k a s'.
Proof. unfold bind. intros ->. reflexivity. Qed.

Lemma bind_raise {A B} (m : M A) (k : A -> M B) s e s' :
  m s = (Raise e, s') -> bind m k s = (Raise e, s').
Proof. unfold bind. intros ->. reflexivity. Qed.

Lemma reraising_ok {A} (m : M A) h s a s' :
  m s = (Ok a, s') -> reraising m h s = (Ok a, s').
Proof. unfold reraising. intros ->. reflexivity. Qed.

Lemma reraising_raise {A} (m : M A) h s e s' s'' :
  m s = (Raise e, s') -> h e s' = (Ok tt, s'') ->
  reraising m h s = (Raise e, s'').
Proof. unfold reraising. intros -> ->. reflexivity. Qed.

(** One step of a sequence whose first action is pure, reads or writes
    the state, or logs. *)
Ltac step :=
  unfold bind at 1;
  cbn [lift ret get modify log emit append_message
       messages trace logs fs tools session exit_stack stdio_write
       set_messages set_trace set_logs set_fs set_tools set_session
       set_exit_stack set_stdio_write].

Lemma lookup_after_cons {A} (l1 l2 : list A) (x : A) (i : nat) :
  (l1 ++ x :: l2) !! (S (length l1) + i) = l2 !! i.
Proof.
  rewrite lookup_app_r by lia.
  replace (S (length l1) + i - length l1) with (S i) by lia. reflexivity.
Qed.

Lemma count_app (p : event -> bool) (l1 l2 : list event) :
  count p (l1 ++ l2) = count p l1 + count p l2.
Proof. unfold count. rewrite List.filter_app, length_app. reflexivity. Qed.

Lemma for_each_app {A B} (f : A -> outcome B) (l1 l2 : list A) r1 r2 :
  for_each f l1 = Ok r1 -> for_each f l2 = Ok r2 ->
  for_each f (l1 ++ l2) = Ok (r1 ++ r2).
Proof.
  revert r1. induction l1 as [|x l1 IH]; intros r1 H1 H2; cbn in *.
  - injection H1 as <-. exact H2.
  - destruct (f x) as [y| |]; cbn in *; try discriminate.
    destruct (for_each f l1) as [ys| |]; cbn in *; try discriminate.
    injection H1 as <-. rewrite (IH ys eq_refl H2). reflexivity.
Qed.

Lemma for_each_length {A B} (f : A -> outcome B) (l : list A) r :
  for_each f l = Ok r -> length r = length l.
Proof.
  revert r. induction l as [|x l IH]; intros r H; cbn in *.
  - injection H as <-. reflexivity.
  - destruct (f x) as [y| |]; cbn in *; try discriminate.
    destruct (for_each f l) as [ys| |]; cbn in *; try discriminate.
    injection H as <-. cbn. rewrite (IH ys eq_refl). reflexivity.
Qed.

Lemma serialize_conversation_ok (msgs : list pydict) sc s :
  for_each serialize_message msgs = Ok sc ->
  serialize_conversation msgs s = (Ok sc, s).
Proof.
  revert sc. induction msgs as [|m msgs IH]; intros sc H; cbn in *.
  - injection H as <-. reflexivity.
  - unfold bind, reraising, lift.
    destruct (serialize_message m) as [y| |]; cbn in *; try discriminate.
    destruct (for_each serialize_message msgs) as [ys| |]; cbn in *;
      try discriminate.
    injection H as <-. rewrite (IH ys eq_refl). reflexivity.
Qed.

Lemma serialize_conversation_raise (msgs : list pydict) e s :
  for_each serialize_message msgs = Raise e ->
  serialize_conversation msgs s
  = (Raise e,
     set_logs ((logs s ++ [(ERROR, "Error processing message: ")])
               ++ [(DEBUG, "Message content: ")])
       (set_logs (logs s ++ [(ERROR, "Error processing message: ")]) s)).
Proof.
  induction msgs as [|m msgs IH]; intros H; cbn in *; [discriminate|].
  unfold bind, reraising, lift.
  destruct (serialize_message m) as [y| |]; cbn in *; try discriminate.
  - destruct (for_each serialize_message msgs) as [ys| |]; cbn in *;
      try discriminate.
    injection H as <-. rewrite (IH eq_refl). reflexivity.
  - injection H as <-. reflexivity.
Qed.

Lemma conversation_path_not_root (t : datetime) :
  conversation_path t <> "conversations".
Proof. unfold conversation_path, path_join. cbn. discriminate. Qed.

Lemma storage_ok_init (E : environment) :
  env_makedirs_fault E "conversations" = None ->
  (forall p, env_open_fault E p = None) ->
  storage_ok E (init ∅).
Proof.
  intros Hm Ho. repeat split; auto; intros x; cbn; rewrite lookup_empty;
    discriminate.
Qed.

Lemma storage_ok_frame (E : environment) (s s' : state) :
  fs s' = fs s -> storage_ok E s -> storage_ok E s'.
Proof. unfold storage_ok. intros ->. auto. Qed.

Lemma storage_ok_recorded (E : environment) sc (s : state) :
  storage_ok E s -> storage_ok E (recorded E sc s).
Proof.
  intros (Hm & Ho & Hf & Hd). repeat split; auto; cbn.
  - intros c. rewrite lookup_insert_ne by apply conversation_path_not_root.
    rewrite lookup_insert_eq. discriminate.
  - intros t.
    destruct (decide (conversation_path (stamp E s) = conversation_path t))
      as [->|Hne].
    + rewrite lookup_insert_eq. discriminate.
    + rewrite lookup_insert_ne by exact Hne.
      rewrite lookup_insert_ne
        by (intros Heq; symmetry in Heq;
            exact (conversation_path_not_root _ Heq)).
      apply Hd.
Qed.

Lemma os_makedirs_ok (E : environment) (path : string) (s : state) :
  env_makedirs_fault E path = None ->
  (forall c, fs s !! path <> Some (File c)) ->
  os_makedirs E path s = (Ok tt, set_fs (<[path := Dir]> (fs s)) s).
Proof.
  intros Hm Hf. unfold os_makedirs. rewrite Hm. unfold bind, get.
  destruct (fs s !! path) as [[|c]|] eqn:Hdir; cbn.
  - f_equal. apply state_ext; cbn; try reflexivity.
    symmetry. apply insert_id. exact Hdir.
  - exfalso. exact (Hf c eq_refl).
  - reflexivity.
Qed.

Lemma now_ok (E : environment) (s : state) :
  now E s = (Ok (stamp E s), set_trace (trace s ++ [EvNow (stamp E s)]) s).
Proof. reflexivity. Qed.

Lemma write_json_ok (E : environment) (path : string) (v : pyval)
    (s : state) :
  env_open_fault E path = None ->
  fs s !! path <> Some Dir ->
  write_json E path v s
  = (Ok tt,
     set_fs (<[path := File v]> (fs s))
       (set_trace (trace s ++ [EvWrite path v]) s)).
Proof.
  intros Ho Hd. unfold write_json. rewrite Ho. unfold bind, get.
  destruct (fs s !! path) as [[|c]|] eqn:Hp; cbn; try reflexivity.
  exfalso. exact (Hd eq_refl).
Qed.

(** A successful run of the recorder. *)
Lemma log_conversation_ok (E : environment) sc (s : state) :
  storage_ok E s ->
  for_each serialize_message (messages s) = Ok sc ->
  log_conversation E s = (Ok tt, recorded E sc s).
Proof.
  intros (Hm & Ho & Hf & Hd) Hsc. unfold log_conversation.
  rewrite (bind_ok _ _ _ _ _ (os_makedirs_ok E _ s Hm Hf)).
  unfold bind at 1. cbn [get messages set_fs].
  rewrite (bind_ok _ _ _ _ _ (serialize_conversation_ok _ sc _ Hsc)).
  rewrite (bind_ok _ _ _ _ _ (now_ok E _)).
  erewrite reraising_ok; [|apply write_json_ok; [apply Ho|]].
  - f_equal. apply state_ext; cbn; try reflexivity.
    rewrite <- app_assoc. reflexivity.
  - cbn. rewrite lookup_insert_ne
      by (intros Heq; symmetry in Heq;
          exact (conversation_path_not_root _ Heq)).
    apply Hd.
Qed.

Lemma stamp_eq (E : environment) (s s' : state) :
  count is_now (trace s') = count is_now (trace s) -> stamp E s' = stamp E s.
Proof. unfold stamp. intros ->. reflexivity. Qed.

Lemma call_llm_ok (E : environment) (s : state) (response : pyval) :
  completion E s = Ok response -> call_llm E s = (Ok response, asked s).
Proof.
  unfold completion, call_llm, reraising, bind. cbn. intros ->. reflexivity.
Qed.

Lemma first_message_hasattr (response m : pyval) :
  first_message response = Ok m -> hasattr response "choices" = true.
Proof.
  unfold first_message, hasattr.
  destruct (getattr response "choices"); cbn; congruence.
Qed.

Lemma process_query_unfold (E : environment) (fuel : nat) (query : string)
    (s : state) :
  process_query E fuel query s
  = finish_query (agent_loop E fuel (query_start query s)).
Proof.
  unfold process_query, reraising, bind, finish_query. cbn.
  fold (query_start query s).
  destruct (agent_loop E fuel (query_start query s)) as [[[]| |] s'];
    reflexivity.
Qed.

(** A turn of the loop in which the model answers with text. *)
Lemma agent_loop_text (E : environment) (fuel : nat) (s : state)
    (response m tcs c : pyval) (sc : list pydict) :
  completion E s = Ok response ->
  first_message response = Ok m ->
  getattr m "tool_calls" = Ok tcs ->
  truthy tcs = false ->
  getattr m "content" = Ok c ->
  storage_ok E s ->
  for_each serialize_message (messages s) = Ok sc ->
  agent_loop E (S fuel) s
  = (Ok tt,
     recorded E (sc ++ [assistant_text_message c])
       (set_messages (messages s ++ [assistant_text_message c]) (asked s))).
Proof.
  intros Hllm Hm Htcs Hfalsy Hc Hst Hsc. cbn [agent_loop].
  rewrite (bind_ok _ _ _ _ _ (call_llm_ok E s response Hllm)).
  unfold is_text_response.
  rewrite (first_message_hasattr _ _ Hm), Hm. cbn [negb obind].
  rewrite Htcs. cbn [obind]. rewrite Hfalsy. cbn [negb].
  unfold bind at 1. cbn [lift].
  unfold bind at 1. cbn [lift].
  unfold bind at 1. rewrite Hc. cbn [lift].
  unfold bind at 1. cbn [append_message modify].
  apply log_conversation_ok.
  - eapply storage_ok_frame; [|exact Hst]. reflexivity.
  - cbn [messages set_messages].
    apply for_each_app; [exact Hsc | reflexivity].
Qed.

(** *** Tool calls *)

Lemma session_call_tool_ok (E : environment) (sid : nat)
    (name args result : pyval) (s : state) :
  session s = Some sid ->
  env_call_tool E (count is_call_tool (trace s)) sid name args = Ok result ->
  session_call_tool E name args s
  = (Ok result, set_trace (trace s ++ [EvCallTool sid name args]) s).
Proof.
  intros Hs Hr. unfold session_call_tool, bind, get. rewrite Hs. cbn.
  rewrite Hr. reflexivity.
Qed.

Lemma session_call_tool_raise (E : environment) (sid : nat)
    (name args : pyval) (e : exn) (s : state) :
  session s = Some sid ->
  env_call_tool E (count is_call_tool (trace s)) sid name args = Raise e ->
  session_call_tool E name args s
  = (Raise e, set_trace (trace s ++ [EvCallTool sid name args]) s).
Proof.
  intros Hs Hr. unfold session_call_tool, bind, get. rewrite Hs. cbn.
  rewrite Hr. reflexivity.
Qed.

(** One answered call: the call, the append, the transcript. *)
Lemma dispatch_tool_call_ok (E : environment) (sid : nat) (tool_call : pyval)
    (r : reply) (sc : list pydict) (s : state) :
  session s = Some sid ->
  answered E sid (count is_call_tool (trace s)) tool_call r ->
  storage_ok E s ->
  for_each serialize_message (messages s) = Ok sc ->
  dispatch_tool_call E tool_call s
  = (Ok tt, recorded E (sc ++ [reply_record r]) (called sid r s)).
Proof.
  intros Hs ((f & a & Hf & Hn & Ha & Hl & Hi) & result & Hr & Hc) Hst Hsc.
  unfold dispatch_tool_call.
  rewrite Hf. step. rewrite Hn. do 2 step. rewrite Ha. step.
  rewrite Hl. step. rewrite Hi. do 2 step.
  erewrite reraising_ok; [reflexivity|].
  erewrite bind_ok; [|apply session_call_tool_ok; [exact Hs | exact Hr]].
  step. rewrite Hc. do 2 step.
  erewrite log_conversation_ok.
  - f_equal. f_equal. apply state_ext; cbn; try reflexivity.
    rewrite <- app_assoc. reflexivity.
  - eapply storage_ok_frame; [|exact Hst]. reflexivity.
  - cbn. apply for_each_app; [exact Hsc | reflexivity].
Qed.

(** One failing call: nothing is appended, nothing is recorded. *)
Lemma dispatch_tool_call_fails (E : environment) (sid : nat)
    (tool_call : pyval) (e : exn) (attempt : list event) (s : state) :
  session s = Some sid ->
  fails E sid (count is_call_tool (trace s)) tool_call e attempt ->
  exists s',
    dispatch_tool_call E tool_call s = (Raise e, s')
    /\ messages s' = messages s
    /\ trace s' = trace s ++ attempt
    /\ fs s' = fs s.
Proof.
  intros Hs [f n a Hf Hn Ha Hl | r (f & a & Hf & Hn & Ha & Hl & Hi) Hr].
  - unfold dispatch_tool_call, bind. rewrite Hf. cbn. rewrite Hn, Ha. cbn.
    rewrite Hl. cbn. eexists. split; [reflexivity|].
    rewrite app_nil_r. auto.
  - unfold dispatch_tool_call.
    rewrite Hf. step. rewrite Hn. do 2 step. rewrite Ha. step.
    rewrite Hl. step. rewrite Hi. do 2 step.
    erewrite reraising_raise;
      [| erewrite bind_raise;
         [reflexivity | apply session_call_tool_raise; [exact Hs | exact Hr]]
       | reflexivity].
    eexists. split; [reflexivity|]. cbn. auto.
Qed.

(** *** A batch of tool calls *)

Lemma called_storage_ok (E : environment) (sid : nat) (r : reply)
    (s : state) :
  storage_ok E s -> storage_ok E (called sid r s).
Proof. apply storage_ok_frame. reflexivity. Qed.

Lemma count_calls_recorded_called (E : environment) (sid : nat) (r : reply)
    (sc : list pydict) (s : state) :
  count is_call_tool (trace (recorded E sc (called sid r s)))
  = S (count is_call_tool (trace s)).
Proof. cbn. rewrite !count_app. unfold count. cbn. lia. Qed.

Lemma count_now_recorded_called (E : environment) (sid : nat) (r : reply)
    (sc : list pydict) (s : state) :
  count is_now (trace (recorded E sc (called sid r s)))
  = S (count is_now (trace s)).
Proof. cbn. rewrite !count_app. unfold count. cbn. lia. Qed.

Lemma stamp_called (E : environment) (sid : nat) (r : reply) (s : state) :
  stamp E (called sid r s) = stamp E s.
Proof. apply stamp_eq. cbn. rewrite count_app. unfold count. cbn. lia. Qed.

Lemma after_batch_messages (E : environment) (sid : nat) (rs : list reply) :
  forall (sc : list pydict) (s : state),
    messages (after_batch E sid sc rs s)
    = messages s ++ (reply_message <$> rs).
Proof.
  induction rs as [|r rs IH]; intros sc s; cbn [after_batch].
  - rewrite app_nil_r. reflexivity.
  - rewrite IH. cbn. rewrite <- app_assoc. reflexivity.
Qed.

Lemma after_batch_session (E : environment) (sid : nat) (rs : list reply) :
  forall (sc : list pydict) (s : state),
    session (after_batch E sid sc rs s) = session s
    /\ tools (after_batch E sid sc rs s) = tools s.
Proof.
  induction rs as [|r rs IH]; intros sc s; cbn [after_batch]; [auto|].
  destruct (IH (sc ++ [reply_record r])
              (recorded E (sc ++ [reply_record r]) (called sid r s)))
    as [-> ->].
  auto.
Qed.

Lemma call_block_first (E : environment) (sid n : nat) (sc : list pydict)
    (r : reply) (rs : list reply) :
  call_block E sid n sc (r :: rs) 0 r
  = [EvCallTool sid (r_name r) (r_args r);
     EvNow (env_now E n);
     EvWrite (conversation_path (env_now E n))
       (record_of (sc ++ [reply_record r]))].
Proof. unfold call_block. rewrite Nat.add_0_r. reflexivity. Qed.

Lemma call_block_next (E : environment) (sid n : nat) (sc : list pydict)
    (r : reply) (rs : list reply) (i : nat) (x : reply) :
  call_block E sid n sc (r :: rs) (S i) x
  = call_block E sid (S n) (sc ++ [reply_record r]) rs i x.
Proof.
  unfold call_block. rewrite Nat.add_succ_r. cbn [take fmap list_fmap].
  rewrite <- app_assoc. reflexivity.
Qed.

Lemma after_batch_trace (E : environment) (sid : nat) (rs : list reply) :
  forall (sc : list pydict) (s : state),
    trace (after_batch E sid sc rs s)
    = trace s
      ++ concat (imap (call_block E sid (count is_now (trace s)) sc rs) rs).
Proof.
  induction rs as [|r rs IH]; intros sc s; cbn [after_batch].
  - cbn. rewrite app_nil_r. reflexivity.
  - rewrite IH, count_now_recorded_called.
    cbn [trace recorded called set_fs set_trace set_messages set_logs].
    rewrite stamp_called. cbn [imap concat].
    rewrite call_block_first.
    rewrite (imap_ext
               (call_block E sid (count is_now (trace s)) sc (r :: rs) ∘ S)
               (call_block E sid (S (count is_now (trace s)))
                  (sc ++ [reply_record r]) rs))
      by (intros i x _; apply call_block_next).
    unfold stamp. rewrite <- !app_assoc. reflexivity.
Qed.

(** The answered calls at the head of a batch run one after the other. *)
Lemma dispatch_answered_prefix (E : environment) (sid : nat)
    (pre rest : list pyval) :
  forall (rs : list reply) (sc : list pydict) (s : state),
    session s = Some sid ->
    storage_ok E s ->
    for_each serialize_message (messages s) = Ok sc ->
    all_answered E sid (count is_call_tool (trace s)) pre rs ->
    dispatch_tool_calls E (pre ++ rest) s
    = dispatch_tool_calls E rest (after_batch E sid sc rs s)
    /\ for_each serialize_message (messages (after_batch E sid sc rs s))
       = Ok (sc ++ (reply_record <$> rs))
    /\ length rs = length pre.
Proof.
  induction pre as [|tool_call pre IH]; intros [|r rs] sc s Hs Hst Hsc Hall;
    cbn in Hall; try contradiction.
  - cbn. rewrite app_nil_r. auto.
  - destruct Hall as [Hr Hall]. cbn [app dispatch_tool_calls after_batch].
    rewrite (bind_ok _ _ _ _ _
               (dispatch_tool_call_ok E sid tool_call r sc s Hs Hr Hst Hsc)).
    destruct (IH rs (sc ++ [reply_record r])
                (recorded E (sc ++ [reply_record r]) (called sid r s)))
      as (Hrun & Hser & Hlen).
    + exact Hs.
    + apply storage_ok_recorded, called_storage_ok, Hst.
    + cbn. apply for_each_app; [exact Hsc | reflexivity].
    + rewrite count_calls_recorded_called. exact Hall.
    + split; [exact Hrun|]. split.
      * rewrite Hser, <- app_assoc. reflexivity.
      * cbn. rewrite Hlen. reflexivity.
Qed.

(** *** A turn in which the model asks for tools *)

Lemma turned_facts (E : environment) (sc : list pydict) (am ar : pydict)
    (s : state) :
  session (turned E sc am ar s) = session s
  /\ tools (turned E sc am ar s) = tools s
  /\ messages (turned E sc am ar s) = messages s ++ [am]
  /\ trace (turned E sc am ar s)
     = trace s
       ++ [EvLLM (messages s) (tools s);
           EvNow (stamp E s);
           EvWrite (conversation_path (stamp E s)) (record_of (sc ++ [ar]))]
  /\ count is_call_tool (trace (turned E sc am ar s))
     = count is_call_tool (trace s)
  /\ count is_now (trace (turned E sc am ar s))
     = S (count is_now (trace s)).
Proof.
  assert (Hstamp : stamp E (set_messages (messages s ++ [am]) (asked s))
                   = stamp E s)
    by (apply stamp_eq; cbn; rewrite count_app; unfold count; cbn; lia).
  unfold turned, recorded. rewrite Hstamp. cbn.
  repeat split.
  - rewrite <- app_assoc. reflexivity.
  - rewrite !count_app. unfold count. cbn. lia.
  - rewrite !count_app. unfold count. cbn. lia.
Qed.

Lemma turned_storage_ok (E : environment) (sc : list pydict)
    (am ar : pydict) (s : state) :
  storage_ok E s -> storage_ok E (turned E sc am ar s).
Proof.
  intros Hst. apply storage_ok_recorded.
  eapply storage_ok_frame; [|exact Hst]. reflexivity.
Qed.

Lemma agent_loop_tools (E : environment) (fuel : nat) (s : state)
    (response m content tool_calls : pyval) (items : list pyval)
    (sc : list pydict) (ar : pydict) :
  completion E s = Ok response ->
  first_message response = Ok m ->
  getattr m "content" = Ok content ->
  getattr m "tool_calls" = Ok tool_calls ->
  truthy tool_calls = true ->
  py_iter tool_calls = Ok items ->
  serialize_message (assistant_tool_message content tool_calls) = Ok ar ->
  storage_ok E s ->
  for_each serialize_message (messages s) = Ok sc ->
  agent_loop E (S fuel) s
  = (dispatch_tool_calls E items ;;; agent_loop E fuel)
      (turned E sc (assistant_tool_message content tool_calls) ar s).
Proof.
  intros Hllm Hm Hc Htcs Htrue Hiter Har Hst Hsc. cbn [agent_loop].
  rewrite (bind_ok _ _ _ _ _ (call_llm_ok E s response Hllm)).
  unfold is_text_response.
  rewrite (first_message_hasattr _ _ Hm), Hm. cbn [negb obind].
  rewrite Htcs. cbn [obind]. rewrite Htrue. cbn [negb].
  do 2 step. rewrite Hc. step. rewrite Htcs. do 2 step.
  erewrite bind_ok; [|apply (log_conversation_ok E (sc ++ [ar]))].
  - rewrite Hiter. step. reflexivity.
  - eapply storage_ok_frame; [|exact Hst]. reflexivity.
  - cbn [messages set_messages asked set_trace set_logs].
    apply for_each_app; [exact Hsc|]. cbn [for_each]. rewrite Har.
    reflexivity.
Qed.

(** ** Refusing a script that is neither Python nor JavaScript *)

(** C9. For a server script path that ends in neither ".py" nor ".js",
    [connect_to_server] raises the [ValueError] before it acquires
    anything: the trace of external calls is unchanged (no process is
    spawned, no session is opened), the exit stack holds what it held, and
    the [session] field keeps its value, which is [None] on a client that
    was never connected. *)
Theorem connect_rejects_other_scripts :
  forall (E : environment) (server_script_path : string) (s : state),
    endswith server_script_path ".py" = false ->
    endswith server_script_path ".js" = false ->
    exists s',
      connect_to_server E server_script_path s = (Raise bad_script_error, s')
      /\ trace s' = trace s
      /\ exit_stack s' = exit_stack s
      /\ stdio_write s' = stdio_write s
      /\ session s' = session s
      /\ (session s = None -> session s' = None).
Proof.
  intros E p s Hpy Hjs.
  unfold connect_to_server. rewrite Hpy, Hjs. cbn.
  eexists. split; [reflexivity|]. cbn. auto.
Qed.

Lemma connect_rejects_other_scripts_witness :
  exists s',
    connect_to_server weather_env "server.txt" (init ∅)
    = (Raise bad_script_error, s')
    /\ trace s' = []
    /\ session s' = None.
Proof.
  destruct (connect_rejects_other_scripts weather_env "server.txt" (init ∅))
    as (s' & Hrun & Htr & _ & _ & Hs & _); [reflexivity | reflexivity |].
  exists s'. split; [exact Hrun|]. split; [exact Htr | exact Hs].
Defined.

(** ** A query the model answers at once *)

(** C3. Let the answer of the LLM endpoint to the first call of a query,
    made with the one user message [{role: user, content: query}] and the
    tools of the client, be a response whose first choice holds a message
    without tool calls (its [tool_calls] is [None] or empty), and let the
    storage accept the transcript.  Then [process_query] returns, for any
    loop budget of at least one turn, after exactly one call of the LLM
    endpoint and no tool call.  The conversation it returns, which is also
    the one the client keeps, has exactly two messages:
    [{role: user, content: query}], then
    [{role: assistant, content: c}] where [c] is the content of the
    message of the response.  None of them has the role [tool], and one
    transcript, with these two messages, has been written. *)
Theorem text_answer_ends_query :
  forall (E : environment) (fuel : nat) (query : string) (s : state)
         (response choice m tcs c : pyval) (others : list pyval),
    storage_ok E s ->
    env_completions_create E (count is_llm (trace s))
      [[("role", PStr "user"); ("content", PStr query)]] (tools s)
    = Ok response ->
    getattr response "choices" = Ok (PList (choice :: others)) ->
    getattr choice "message" = Ok m ->
    getattr m "tool_calls" = Ok tcs ->
    truthy tcs = false ->
    getattr m "content" = Ok c ->
    exists (s' : state) (conversation : list pydict),
      process_query E (S fuel) query s = (Ok conversation, s')
      /\ conversation
         = [[("role", PStr "user"); ("content", PStr query)];
            [("role", PStr "assistant"); ("content", c)]]
      /\ messages s' = conversation
      /\ length conversation = 2
      /\ Forall (fun msg => dict_get msg "role" <> Some (PStr "tool"))
           conversation
      /\ trace s'
         = trace s
           ++ [EvLLM [[("role", PStr "user"); ("content", PStr query)]]
                 (tools s);
               EvNow (stamp E s);
               EvWrite (conversation_path (stamp E s))
                 (PList
                    [PDict [("role", PStr "user"); ("content", PStr query)];
                     PDict [("role", PStr "assistant"); ("content", c)]])]
      /\ count is_llm (trace s') = S (count is_llm (trace s))
      /\ count is_call_tool (trace s') = count is_call_tool (trace s).
Proof.
  intros E fuel query s response choice m tcs c others Hst Hllm Hchoices
    Hmessage Htcs Hfalsy Hc.
  assert (Hm : first_message response = Ok m)
    by (unfold first_message; rewrite Hchoices; cbn; exact Hmessage).
  rewrite process_query_unfold.
  rewrite (agent_loop_text E fuel (query_start query s) response m tcs c
             [user_message query]); try assumption.
  - eexists _, _. split; [reflexivity|]. cbn.
    rewrite (stamp_eq E s)
      by (cbn; rewrite count_app; unfold count; cbn; lia).
    rewrite <- app_assoc. cbn.
    repeat split.
    + repeat constructor; discriminate.
    + rewrite count_app. unfold count. cbn. lia.
    + rewrite count_app. unfold count. cbn. lia.
  - reflexivity.
Qed.

Lemma text_answer_ends_query_witness :
  exists s',
    process_query sum_env 1 "2+2?"
      (set_messages [[("role", PStr "user"); ("content", PStr "1+1?")];
                     [("role", PStr "assistant"); ("content", PStr "2")]]
         connected)
    = (Ok [[("role", PStr "user"); ("content", PStr "2+2?")];
           [("role", PStr "assistant"); ("content", PStr "4")]], s')
    /\ length (messages s') = 2
    /\ count is_llm (trace s') = 1.
Proof.
  destruct (text_answer_ends_query sum_env 0 "2+2?"
              (set_messages
                 [[("role", PStr "user"); ("content", PStr "1+1?")];
                  [("role", PStr "assistant"); ("content", PStr "2")]]
                 connected)
              (mk_response (PStr "4") PNone)
              (PObj [("message",
                      PObj [("role", PStr "assistant");
                            ("content", PStr "4");
                            ("tool_calls", PNone)])])
              (PObj [("role", PStr "assistant"); ("content", PStr "4");
                     ("tool_calls", PNone)])
              PNone (PStr "4") [])
    as (s' & conversation & Hrun & -> & Hmsgs & _ & _ & _ & Hllm & _);
    try reflexivity.
  - apply (storage_ok_frame sum_env (init ∅)); [reflexivity|].
    apply storage_ok_init; reflexivity.
  - exists s'. split; [exact Hrun|]. rewrite Hmsgs. split; [reflexivity|].
    exact Hllm.
Defined.

(** ** A response without choices *)

Lemma getattr_missing (v : pyval) (name : string) :
  hasattr v name = false -> getattr v name = Raise (AttributeError name).
Proof.
  unfold hasattr, getattr. destruct v; try reflexivity.
  destruct (dict_get attrs name); [discriminate | reflexivity].
Qed.

(** C10. Take any turn of the loop of a query, reached in state [s] with
    the loop about to call the model, and let the response lack the
    attribute [choices].  The guard of the branch counts the response as a
    text answer, the body of the branch reads [response.choices] and
    raises [AttributeError]; [process_query] raises that error, the
    conversation is the one the model was called with (no assistant
    message is appended) and nothing is recorded for the turn. *)
Theorem response_without_choices_raises :
  forall (E : environment) (budget fuel : nat) (query : string)
         (s0 s : state) (response : pyval),
    agent_loop E budget (query_start query s0) = agent_loop E (S fuel) s ->
    completion E s = Ok response ->
    hasattr response "choices" = false ->
    is_text_response response = Ok true
    /\ exists s',
         process_query E budget query s0
         = (Raise (AttributeError "choices"), s')
         /\ messages s' = messages s
         /\ trace s' = trace s ++ [EvLLM (messages s) (tools s)]
         /\ fs s' = fs s.
Proof.
  intros E budget fuel query s0 s response Hreach Hllm Hno.
  assert (Htext : is_text_response response = Ok true)
    by (unfold is_text_response; rewrite Hno; reflexivity).
  split; [exact Htext|].
  rewrite process_query_unfold, Hreach. unfold finish_query.
  cbn [agent_loop].
  rewrite (bind_ok _ _ _ _ _ (call_llm_ok E s response Hllm)).
  rewrite Htext. unfold bind at 1. cbn [lift].
  unfold first_message. rewrite (getattr_missing _ _ Hno). cbn.
  eexists. split; [reflexivity|]. cbn. auto.
Qed.

Lemma response_without_choices_raises_witness :
  exists s',
    process_query empty_env 1 "2+2?" connected
    = (Raise (AttributeError "choices"), s')
    /\ messages s' = [user_message "2+2?"].
Proof.
  destruct (response_without_choices_raises empty_env 1 0 "2+2?" connected
              (query_start "2+2?" connected)
              (PObj [("error", PStr "overloaded")]))
    as (_ & s' & Hrun & Hmsgs & _); try reflexivity.
  exists s'. split; [exact Hrun | exact Hmsgs].
Defined.

(** ** Discovery of the tools *)

Lemma for_each_tool_schema (ds : list pyval) (descs : list descriptor) :
  Forall2 describes ds descs ->
  for_each tool_schema ds = Ok (schema_entry <$> descs).
Proof.
  induction 1 as [|tool d ds descs (Hn & Hd & Hp) _ IH]; [reflexivity|].
  cbn. unfold tool_schema at 1. rewrite Hn, Hd, Hp. cbn. rewrite IH.
  reflexivity.
Qed.



(** C4 as stated fails on the key of the discriminator: the entries the
    client keeps have no key [kind]; they have the key [type], which the
    LLM endpoint requires. *)
Lemma discovered_entries_are_keyed_by_type :
  exists s',
    connect_to_server catalog_env "server.py" (init ∅) = (Ok true, s')
    /\ length (tools s') = 3
    /\ tools s' <> kind_entry <$> catalog
    /\ Forall (fun entry =>
                 exists kvs,
                   entry = PDict kvs
                   /\ dict_get kvs "kind" = None
                   /\ dict_get kvs "type" = Some (PStr "function"))
         (tools s').
Proof.
  eexists. split; [vm_compute; reflexivity|]. cbn [tools].
  split; [reflexivity|]. split; [discriminate|].
  repeat constructor; eexists; (split; [reflexivity|]); split; reflexivity.
Qed.

(** ** Tool calls of one assistant turn *)

Lemma all_answered_lookup (E : environment) (sid : nat)
    (tcs : list pyval) :
  forall (k : nat) (rs : list reply),
    all_answered E sid k tcs rs ->
    forall i tc, tcs !! i = Some tc ->
      exists r, rs !! i = Some r /\ answered E sid (k + i) tc r.
Proof.
  induction tcs as [|tc0 tcs IH]; intros k [|r0 rs] Hall i tc Hi;
    cbn in Hall; try contradiction; [discriminate|].
  destruct Hall as [H0 Hall]. destruct i as [|i]; cbn in Hi.
  - injection Hi as <-. exists r0. rewrite Nat.add_0_r. auto.
  - destruct (IH (S k) rs Hall i tc Hi) as (r & Hr & Ha).
    exists r. split; [exact Hr|]. rewrite Nat.add_succ_r. exact Ha.
Qed.

(** C1. Take a turn of the loop of [process_query] in which the model
    answers with the tool calls [tcs] = [t1, ..., tn], each of which is
    decoded and answered by the session (the replies [rs]), with a storage
    that accepts transcripts.  The loop comes back to the call of the
    model in a state [s'] where the conversation is the one before the
    turn, then the assistant message, then one tool message per call, in
    the order of [tcs]: the [i]-th has the [tool_call_id] read from the
    [i]-th call and the content of its result.  The external calls of the
    turn are, after the transcript of the assistant message, one block per
    call in the same order: the call of the tool, then the transcript that
    holds the results of the calls up to this one.  So a call starts only
    after the result of the one before it is appended and recorded, and a
    transcript is written after each result, not once for the batch. *)
Theorem tool_calls_run_in_order :
  forall (E : environment) (budget fuel : nat) (query : string)
         (s0 s : state) (sid : nat) (response m content : pyval)
         (tcs : list pyval) (rs : list reply) (sc : list pydict)
         (ar : pydict),
    agent_loop E budget (query_start query s0) = agent_loop E (S fuel) s ->
    session s = Some sid ->
    storage_ok E s ->
    for_each serialize_message (messages s) = Ok sc ->
    completion E s = Ok response ->
    first_message response = Ok m ->
    getattr m "content" = Ok content ->
    getattr m "tool_calls" = Ok (PList tcs) ->
    tcs <> [] ->
    serialize_message (assistant_tool_message content (PList tcs)) = Ok ar ->
    all_answered E sid (count is_call_tool (trace s)) tcs rs ->
    exists s',
      process_query E budget query s0 = finish_query (agent_loop E fuel s')
      /\ agent_loop E (S fuel) s = agent_loop E fuel s'
      /\ length rs = length tcs
      /\ messages s'
         = messages s
           ++ assistant_tool_message content (PList tcs)
              :: (reply_message <$> rs)
      /\ (forall i tc, tcs !! i = Some tc ->
            exists r,
              rs !! i = Some r
              /\ getattr tc "id" = Ok (r_id r)
              /\ messages s' !! (S (length (messages s)) + i)
                 = Some [("role", PStr "tool");
                         ("tool_call_id", r_id r);
                         ("content", r_content r)])
      /\ trace s'
         = trace s
           ++ [EvLLM (messages s) (tools s);
               EvNow (stamp E s);
               EvWrite (conversation_path (stamp E s))
                 (record_of (sc ++ [ar]))]
           ++ concat
                (imap (call_block E sid (S (count is_now (trace s)))
                         (sc ++ [ar]) rs) rs).
Proof.
  intros E budget fuel query s0 s sid response m content tcs rs sc ar
    Hreach Hs Hst Hsc Hllm Hm Hc Htcs Hne Har Hall.
  set (am := assistant_tool_message content (PList tcs)).
  destruct (turned_facts E sc am ar s)
    as (Hts & _ & Htm & Htt & Htc & Htn).
  destruct (dispatch_answered_prefix E sid tcs [] rs (sc ++ [ar])
              (turned E sc am ar s)) as (Hrun & _ & Hlen).
  { rewrite Hts. exact Hs. }
  { apply turned_storage_ok, Hst. }
  { rewrite Htm. apply for_each_app; [exact Hsc|].
    cbn [for_each]. subst am. rewrite Har. reflexivity. }
  { rewrite Htc. exact Hall. }
  rewrite app_nil_r in Hrun.
  assert (Hloop : agent_loop E (S fuel) s
                  = agent_loop E fuel
                      (after_batch E sid (sc ++ [ar]) rs
                         (turned E sc am ar s))).
  { rewrite (agent_loop_tools E fuel s response m content (PList tcs) tcs
               sc ar Hllm Hm Hc Htcs); try assumption; try reflexivity.
    - unfold bind. fold am. rewrite Hrun. reflexivity.
    - destruct tcs; [contradiction | reflexivity]. }
  exists (after_batch E sid (sc ++ [ar]) rs (turned E sc am ar s)).
  split; [rewrite process_query_unfold, Hreach, Hloop; reflexivity|].
  split; [exact Hloop|]. split; [exact Hlen|].
  assert (Hmsgs : messages (after_batch E sid (sc ++ [ar]) rs
                              (turned E sc am ar s))
                  = messages s ++ am :: (reply_message <$> rs)).
  { rewrite after_batch_messages, Htm, <- app_assoc. reflexivity. }
  split; [exact Hmsgs|]. split.
  - intros i tc Hi.
    destruct (all_answered_lookup E sid tcs _ rs Hall i tc Hi)
      as (r & Hr & (f & a & _ & _ & _ & _ & Hid) & _).
    exists r. split; [exact Hr|]. split; [exact Hid|].
    rewrite Hmsgs, lookup_after_cons, list_lookup_fmap, Hr. reflexivity.
  - rewrite after_batch_trace, Htn, Htt, <- app_assoc. reflexivity.
Qed.

Lemma tool_calls_run_in_order_witness :
  exists s',
    process_query three_cities_env 2 "Weather in three cities?" connected
    = finish_query (agent_loop three_cities_env 1 s')
    /\ messages s'
       = [[("role", PStr "user"); ("content", PStr "Weather in three cities?")];
          [("role", PStr "assistant"); ("content", PNone);
           ("tool_calls", PList three_calls)];
          [("role", PStr "tool"); ("tool_call_id", PStr "call_1");
           ("content", PStr "15C, cloudy")];
          [("role", PStr "tool"); ("tool_call_id", PStr "call_2");
           ("content", PStr "3C, snow")];
          [("role", PStr "tool"); ("tool_call_id", PStr "call_3");
           ("content", PStr "22C, sunny")]]
    /\ trace s'
       = [EvLLM [[("role", PStr "user");
                  ("content", PStr "Weather in three cities?")]] [];
          EvNow (first_of_january 0 0);
          EvWrite "conversations/conversation_2025-01-01_12-00-00.json"
            (PList (PDict <$> take 2 three_cities_record));
          EvCallTool 7 (PStr "get_weather") (PDict [("city", PStr "Paris")]);
          EvNow (first_of_january 1 0);
          EvWrite "conversations/conversation_2025-01-01_12-00-01.json"
            (PList (PDict <$> take 3 three_cities_record));
          EvCallTool 7 (PStr "get_weather") (PDict [("city", PStr "Oslo")]);
          EvNow (first_of_january 2 0);
          EvWrite "conversations/conversation_2025-01-01_12-00-02.json"
            (PList (PDict <$> take 4 three_cities_record));
          EvCallTool 7 (PStr "get_weather") (PDict [("city", PStr "Rome")]);
          EvNow (first_of_january 3 0);
          EvWrite "conversations/conversation_2025-01-01_12-00-03.json"
            (PList (PDict <$> three_cities_record))].
Proof.
  destruct (tool_calls_run_in_order three_cities_env 2 1
              "Weather in three cities?" connected
              (query_start "Weather in three cities?" connected) 7
              (mk_response PNone (PList three_calls))
              (PObj [("role", PStr "assistant"); ("content", PNone);
                     ("tool_calls", PList three_calls)])
              PNone three_calls three_replies
              (take 1 three_cities_record)
              (three_cities_record !!! 1))
    as (s' & Hrun & _ & _ & Hmsgs & _ & Htrace); try reflexivity.
  - apply (storage_ok_frame three_cities_env (init ∅)); [reflexivity|].
    apply storage_ok_init; reflexivity.
  - discriminate.
  - cbn [all_answered three_calls three_replies].
    repeat split;
      first
        [ eexists (PObj [("name", PStr "get_weather"); ("arguments", _)]), _;
          repeat split; reflexivity
        | eexists (mk_result _); split; reflexivity ].
  - exists s'. split; [exact Hrun|]. split; [exact Hmsgs | exact Htrace].
Defined.

(** ** A tool call that fails *)

Lemma after_batch_count_calls (E : environment) (sid : nat)
    (rs : list reply) :
  forall (sc : list pydict) (s : state),
    count is_call_tool (trace (after_batch E sid sc rs s))
    = count is_call_tool (trace s) + length rs.
Proof.
  induction rs as [|r rs IH]; intros sc s; cbn [after_batch length].
  - lia.
  - rewrite IH, count_calls_recorded_called. lia.
Qed.

Lemma fails_attempt (E : environment) (sid k : nat) (tool_call : pyval)
    (e : exn) (attempt : list event) :
  fails E sid k tool_call e attempt ->
  count is_call_tool attempt = length attempt /\ length attempt <= 1.
Proof. intros [|]; cbn; auto. Qed.

(** C2. Take a turn of the loop of [process_query] in which the model
    answers with the tool calls [pre ++ bad :: post]: the calls of [pre]
    are answered (the replies [rs]) and [bad] fails with [e], either when
    [json.loads] decodes its arguments or when the session calls the tool.
    Then [process_query] raises [e].  The conversation the client holds
    when the error leaves is the one before the turn, the assistant
    message and the tool messages of [pre], all of them kept.  The trace
    ends with the blocks of [pre] and the attempt made for [bad], which is
    no call for a decoding failure and one call for a failing tool: no
    call of [post] is made and [bad] is not called again. *)
Theorem failing_tool_call_aborts_query :
  forall (E : environment) (budget fuel : nat) (query : string)
         (s0 s : state) (sid : nat) (response m content : pyval)
         (pre post : list pyval) (bad : pyval) (rs : list reply)
         (sc : list pydict) (ar : pydict) (e : exn) (attempt : list event),
    agent_loop E budget (query_start query s0) = agent_loop E (S fuel) s ->
    session s = Some sid ->
    storage_ok E s ->
    for_each serialize_message (messages s) = Ok sc ->
    completion E s = Ok response ->
    first_message response = Ok m ->
    getattr m "content" = Ok content ->
    getattr m "tool_calls" = Ok (PList (pre ++ bad :: post)) ->
    serialize_message
      (assistant_tool_message content (PList (pre ++ bad :: post))) = Ok ar ->
    all_answered E sid (count is_call_tool (trace s)) pre rs ->
    fails E sid (count is_call_tool (trace s) + length pre) bad e attempt ->
    exists s',
      process_query E budget query s0 = (Raise e, s')
      /\ messages s'
         = messages s
           ++ assistant_tool_message content (PList (pre ++ bad :: post))
              :: (reply_message <$> rs)
      /\ trace s'
         = trace s
           ++ [EvLLM (messages s) (tools s);
               EvNow (stamp E s);
               EvWrite (conversation_path (stamp E s))
                 (record_of (sc ++ [ar]))]
           ++ concat
                (imap (call_block E sid (S (count is_now (trace s)))
                         (sc ++ [ar]) rs) rs)
           ++ attempt
      /\ count is_call_tool (trace s')
         = count is_call_tool (trace s) + length pre + length attempt
      /\ length attempt <= 1.
Proof.
  intros E budget fuel query s0 s sid response m content pre post bad rs sc
    ar e attempt Hreach Hs Hst Hsc Hllm Hm Hc Htcs Har Hall Hbad.
  set (tcs := pre ++ bad :: post) in *.
  set (am := assistant_tool_message content (PList tcs)).
  destruct (turned_facts E sc am ar s)
    as (Hts & _ & Htm & Htt & Htc & Htn).
  destruct (dispatch_answered_prefix E sid pre (bad :: post) rs (sc ++ [ar])
              (turned E sc am ar s)) as (Hrun & _ & Hlen).
  { rewrite Hts. exact Hs. }
  { apply turned_storage_ok, Hst. }
  { rewrite Htm. apply for_each_app; [exact Hsc|].
    cbn [for_each]. subst am. rewrite Har. reflexivity. }
  { rewrite Htc. exact Hall. }
  set (s1 := after_batch E sid (sc ++ [ar]) rs (turned E sc am ar s)) in *.
  destruct (dispatch_tool_call_fails E sid bad e attempt s1)
    as (s2 & Hfail & Hm2 & Ht2 & _).
  { subst s1. destruct (after_batch_session E sid rs (sc ++ [ar])
                          (turned E sc am ar s)) as [-> _].
    rewrite Hts. exact Hs. }
  { subst s1. rewrite after_batch_count_calls, Htc, Hlen. exact Hbad. }
  assert (Hloop : agent_loop E (S fuel) s = (Raise e, s2)).
  { rewrite (agent_loop_tools E fuel s response m content (PList tcs) tcs
               sc ar Hllm Hm Hc Htcs); try assumption; try reflexivity.
    - fold am. erewrite bind_raise; [reflexivity|].
      fold tcs in Hrun. rewrite Hrun. cbn [dispatch_tool_calls].
      erewrite bind_raise; [reflexivity | exact Hfail].
    - subst tcs. destruct pre; reflexivity. }
  destruct (fails_attempt _ _ _ _ _ _ Hbad) as [Hcount Hone].
  eexists. split.
  { rewrite process_query_unfold, Hreach, Hloop. reflexivity. }
  cbn [messages trace set_logs].
  assert (Htrace : trace s2
                   = trace s
                     ++ [EvLLM (messages s) (tools s);
                         EvNow (stamp E s);
                         EvWrite (conversation_path (stamp E s))
                           (record_of (sc ++ [ar]))]
                     ++ concat
                          (imap (call_block E sid
                                   (S (count is_now (trace s)))
                                   (sc ++ [ar]) rs) rs)
                     ++ attempt).
  { rewrite Ht2. subst s1.
    rewrite after_batch_trace, Htn, Htt, <- !app_assoc. reflexivity. }
  split; [|split; [exact Htrace | split; [|exact Hone]]].
  - rewrite Hm2. subst s1.
    rewrite after_batch_messages, Htm, <- app_assoc. reflexivity.
  - rewrite Ht2, count_app, Hcount. subst s1.
    rewrite after_batch_count_calls, Htc, Hlen. reflexivity.
Qed.

Lemma failing_tool_call_aborts_query_witness :
  exists s',
    process_query failing_env 3 "Weather in three cities?" connected
    = (Raise (External "tool execution failed"), s')
    /\ messages s'
       = [user_message "Weather in three cities?";
          assistant_tool_message PNone (PList three_calls);
          tool_message (PStr "call_1") (PStr "15C, cloudy")]
    /\ count is_call_tool (trace s') = 2.
Proof.
  destruct (failing_tool_call_aborts_query failing_env 3 2
              "Weather in three cities?" connected
              (query_start "Weather in three cities?" connected) 7
              (mk_response PNone (PList three_calls))
              (PObj [("role", PStr "assistant"); ("content", PNone);
                     ("tool_calls", PList three_calls)])
              PNone
              [mk_tool_call (PStr "call_1") (PStr "get_weather")
                 (city_args "Paris")]
              [mk_tool_call (PStr "call_3") (PStr "get_weather")
                 (city_args "Rome")]
              (mk_tool_call (PStr "call_2") (PStr "get_weather")
                 (city_args "Oslo"))
              [{| r_id := PStr "call_1"; r_name := PStr "get_weather";
                  r_args := PDict [("city", PStr "Paris")];
                  r_content := PStr "15C, cloudy" |}]
              [user_message "Weather in three cities?"]
              [("role", PStr "assistant"); ("content", PNone);
               ("tool_calls",
                PList
                  [PDict [("id", PStr "call_1");
                          ("function",
                           PDict [("name", PStr "get_weather");
                                  ("arguments", city_args "Paris")])];
                   PDict [("id", PStr "call_2");
                          ("function",
                           PDict [("name", PStr "get_weather");
                                  ("arguments", city_args "Oslo")])];
                   PDict [("id", PStr "call_3");
                          ("function",
                           PDict [("name", PStr "get_weather");
                                  ("arguments", city_args "Rome")])]])]
              (External "tool execution failed")
              [EvCallTool 7 (PStr "get_weather")
                 (PDict [("city", PStr "Oslo")])])
    as (s' & Hrun & Hmsgs & _ & Hcalls & _); try reflexivity.
  - apply (storage_ok_frame failing_env (init ∅)); [reflexivity|].
    apply storage_ok_init; reflexivity.
  - cbn. split; [|exact I]. split.
    + exists (PObj [("name", PStr "get_weather");
                    ("arguments", city_args "Paris")]),
        (city_args "Paris").
      repeat split; reflexivity.
    + exists (mk_result (PStr "15C, cloudy")). split; reflexivity.
  - apply (fails_call failing_env 7 _ _ _
             {| r_id := PStr "call_2"; r_name := PStr "get_weather";
                r_args := PDict [("city", PStr "Oslo")];
                r_content := PNone |}).
    + exists (PObj [("name", PStr "get_weather");
                    ("arguments", city_args "Oslo")]),
        (city_args "Oslo").
      repeat split; reflexivity.
    + reflexivity.
  - exists s'. split; [exact Hrun|]. split; [exact Hmsgs | exact Hcalls].
Defined.

(** ** The conversation only grows *)

Section Preserves.

Context (R : state -> state -> Prop).
Context (R_refl : forall s, R s s).
Context (R_trans : forall a b c, R a b -> R b c -> R a c).

Lemma preserves_ret {A} (a : A) : preserves R (ret a).
Proof. intros s. apply R_refl. Qed.

Lemma preserves_raise {A} (e : exn) : preserves R (@raise A e).
Proof. intros s. apply R_refl. Qed.

Lemma preserves_lift {A} (r : outcome A) : preserves R (lift r).
Proof. intros s. apply R_refl. Qed.

Lemma preserves_get {A} (f : state -> A) : preserves R (get f).
Proof. intros s. apply R_refl. Qed.

Lemma preserves_bind {A B} (m : M A) (k : A -> M B) :
  preserves R m -> (forall a, preserves R (k a)) -> preserves R (bind m k).
Proof.
  intros Hm Hk s. specialize (Hm s). unfold bind.
  destruct (m s) as [[a|e|] s1]; cbn in Hm; try exact Hm.
  eapply R_trans; [exact Hm | apply Hk].
Qed.

Lemma preserves_reraising {A} (m : M A) (h : exn -> M unit) :
  preserves R m -> (forall e, preserves R (h e)) ->
  preserves R (reraising m h).
Proof.
  intros Hm Hh s. specialize (Hm s). unfold reraising.
  destruct (m s) as [[a|e|] s1]; cbn in Hm; try exact Hm.
  specialize (Hh e s1).
  destruct (h e s1) as [[[]|e'|] s2]; cbn in Hh;
    eapply R_trans; eauto.
Qed.

End Preserves.

Lemma between_weaken (lo lo' : list pydict) (views : list (list pydict))
    (hi : list pydict) :
  lo `prefix_of` lo' -> between lo' views hi -> between lo views hi.
Proof.
  destruct views as [|v views]; cbn.
  - intros H1 H2. etrans; eassumption.
  - intros H1 [H2 H3]. split; [etrans; eassumption | exact H3].
Qed.

Lemma between_app (a b c : list pydict) (xs ys : list (list pydict)) :
  between a xs b -> between b ys c -> between a (xs ++ ys) c.
Proof.
  revert a. induction xs as [|x xs IH]; intros a; cbn.
  - apply between_weaken.
  - intros [H1 H2] H3. split; [exact H1 | apply IH; assumption].
Qed.

Lemma between_bounds (lo hi : list pydict) (views : list (list pydict)) :
  between lo views hi -> lo `prefix_of` hi.
Proof.
  revert lo. induction views as [|v views IH]; intros lo; cbn; [auto|].
  intros [H1 H2]. etrans; [exact H1 | apply IH, H2].
Qed.

Lemma extends_refl (s : state) : extends s s.
Proof.
  exists [], []. rewrite app_nil_r.
  split; [reflexivity|]. split; [constructor|]. cbn. reflexivity.
Qed.

Lemma extends_trans (a b c : state) :
  extends a b -> extends b c -> extends a c.
Proof.
  intros (e1 & v1 & Ht1 & Hs1 & Hb1) (e2 & v2 & Ht2 & Hs2 & Hb2).
  exists (e1 ++ e2), (v1 ++ v2). split; [|split].
  - rewrite Ht2, Ht1, <- app_assoc. reflexivity.
  - apply Forall2_app; assumption.
  - eapply between_app; eassumption.
Qed.

(** A step that touches neither the trace nor the conversation. *)
Lemma extends_same (s s' : state) :
  trace s' = trace s -> messages s' = messages s -> extends s s'.
Proof.
  intros Ht Hm. exists [], []. rewrite app_nil_r, Hm.
  split; [exact Ht|]. split; [constructor|]. cbn. reflexivity.
Qed.

(** A step that makes one external call and leaves the conversation. *)
Lemma extends_event (s s' : state) (e : event) :
  trace s' = trace s ++ [e] -> messages s' = messages s ->
  sees e (messages s) -> extends s s'.
Proof.
  intros Ht Hm He. exists [e], [messages s]. rewrite Hm.
  split; [exact Ht|]. split; [constructor; [exact He | constructor]|].
  cbn. split; reflexivity.
Qed.

Lemma extends_append (s : state) (m : pydict) :
  extends s (set_messages (messages s ++ [m]) s).
Proof.
  exists [], []. rewrite app_nil_r.
  split; [reflexivity|]. split; [constructor|].
  cbn. apply prefix_app_r. reflexivity.
Qed.

Lemma log_extends (l : level) (text : string) : preserves extends (log l text).
Proof. intros s. apply extends_same; reflexivity. Qed.

Lemma append_message_extends (m : pydict) :
  preserves extends (append_message m).
Proof. intros s. apply extends_append. Qed.

Lemma os_makedirs_extends (E : environment) (path : string) :
  preserves extends (os_makedirs E path).
Proof.
  intros s. unfold os_makedirs.
  destruct (env_makedirs_fault E path); [apply extends_refl|].
  unfold bind, get. destruct (fs s !! path) as [[|c]|]; cbn;
    try apply extends_refl.
  apply extends_same; reflexivity.
Qed.

Lemma serialize_conversation_run (msgs : list pydict) (s : state) :
  trace (snd (serialize_conversation msgs s)) = trace s
  /\ messages (snd (serialize_conversation msgs s)) = messages s
  /\ fs (snd (serialize_conversation msgs s)) = fs s
  /\ forall sc, fst (serialize_conversation msgs s) = Ok sc ->
       for_each serialize_message msgs = Ok sc
       /\ snd (serialize_conversation msgs s) = s.
Proof.
  induction msgs as [|m msgs IH]; cbn.
  - repeat split; congruence.
  - unfold bind, reraising, lift.
    destruct (serialize_message m) as [y| |]; cbn;
      [|repeat split; discriminate..].
    destruct IH as (Ht & Hm & Hf & Hok).
    destruct (serialize_conversation msgs s) as [[ys| |] s1]; cbn in *;
      (split; [exact Ht|]); (split; [exact Hm|]); (split; [exact Hf|]);
      intros sc' Heq; try discriminate.
    injection Heq as <-. destruct (Hok ys eq_refl) as [-> ->]. auto.
Qed.

Lemma log_conversation_extends (E : environment) :
  preserves extends (log_conversation E).
Proof.
  intros s. unfold log_conversation.
  pose proof (os_makedirs_extends E "conversations" s) as Hmk.
  unfold bind at 1.
  destruct (os_makedirs E "conversations" s) as [[[]|e|] s1]; cbn in Hmk;
    try exact Hmk.
  eapply extends_trans; [exact Hmk|]. clear Hmk.
  unfold bind at 1. cbn [get].
  destruct (serialize_conversation_run (messages s1) s1)
    as (Ht & Hm & _ & Hok).
  unfold bind at 1.
  destruct (serialize_conversation (messages s1) s1) as [[sc|e|] s2];
    cbn in Ht, Hm, Hok; try (apply extends_same; assumption).
  destruct (Hok sc eq_refl) as [Hsc ->]. clear Hok Ht Hm.
  rewrite (bind_ok _ _ _ _ _ (now_ok E s1)).
  apply (extends_trans _ (set_trace (trace s1 ++ [EvNow (stamp E s1)]) s1));
    [apply (extends_event s1 _ (EvNow (stamp E s1))); reflexivity|].
  unfold reraising, write_json.
  destruct (env_open_fault E (conversation_path (stamp E s1))); cbn;
    [apply extends_same; reflexivity|].
  unfold bind, get.
  destruct (_ !! _) as [[|c]|]; cbn;
    try (apply extends_same; reflexivity);
    (apply (extends_event _ _
              (EvWrite (conversation_path (stamp E s1)) (record_of sc)));
     [reflexivity | reflexivity |]);
    exists sc; (split; [exact Hsc | reflexivity]).
Qed.

Lemma call_llm_extends (E : environment) : preserves extends (call_llm E).
Proof.
  intros s. unfold call_llm, reraising, bind. cbn.
  destruct (env_completions_create E _ _ _); cbn.
  - apply (extends_event s _ (EvLLM (messages s) (tools s))); reflexivity.
  - apply (extends_trans _ (asked s));
      [apply (extends_event s _ (EvLLM (messages s) (tools s)));
       reflexivity|].
    apply extends_same; reflexivity.
  - apply (extends_event s _ (EvLLM (messages s) (tools s))); reflexivity.
Qed.

Lemma session_call_tool_extends (E : environment) (name args : pyval) :
  preserves extends (session_call_tool E name args).
Proof.
  intros s. unfold session_call_tool, bind, get.
  destruct (session s) as [sid|]; cbn; [|apply extends_refl].
  apply (extends_event _ _ (EvCallTool sid name args));
    [reflexivity | reflexivity | exact I].
Qed.

(** The methods already shown to extend first, then the combinators. *)
Ltac grows :=
  repeat first
    [ apply log_extends
    | apply append_message_extends
    | apply log_conversation_extends
    | apply call_llm_extends
    | apply session_call_tool_extends
    | apply (preserves_lift extends extends_refl)
    | apply (preserves_ret extends extends_refl)
    | apply (preserves_raise extends extends_refl)
    | apply (preserves_get extends extends_refl)
    | apply (preserves_bind extends extends_trans)
    | apply (preserves_reraising extends extends_trans)
    | match goal with |- forall _, preserves _ _ => intro end ].

Lemma dispatch_tool_call_extends (E : environment) (tool_call : pyval) :
  preserves extends (dispatch_tool_call E tool_call).
Proof. unfold dispatch_tool_call. grows. Qed.

Lemma dispatch_tool_calls_extends (E : environment)
    (tool_calls : list pyval) :
  preserves extends (dispatch_tool_calls E tool_calls).
Proof.
  induction tool_calls as [|tool_call rest IH]; cbn [dispatch_tool_calls].
  - apply (preserves_ret extends extends_refl).
  - apply (preserves_bind extends extends_trans);
      [apply dispatch_tool_call_extends | intros _; exact IH].
Qed.

(** A turn of the loop is the call of the model followed by steps that
    extend. *)
Lemma agent_loop_turn (E : environment) (fuel : nat) :
  preserves extends (agent_loop E fuel) ->
  exists k : pyval -> M unit,
    (forall response, preserves extends (k response))
    /\ agent_loop E (S fuel) = bind (call_llm E) k.
Proof.
  intros IH. eexists. split; [|cbn [agent_loop]; reflexivity].
  intros response. cbn beta.
  apply (preserves_bind extends extends_trans);
    [apply (preserves_lift extends extends_refl) | intros [|]].
  - grows.
  - grows; [apply dispatch_tool_calls_extends | exact IH].
Qed.

Lemma agent_loop_extends (E : environment) (fuel : nat) :
  preserves extends (agent_loop E fuel).
Proof.
  induction fuel as [|fuel IH].
  - apply (preserves_lift extends extends_refl).
  - destruct (agent_loop_turn E fuel IH) as (k & Hk & ->).
    apply (preserves_bind extends extends_trans);
      [apply call_llm_extends | exact Hk].
Qed.

Lemma call_llm_trace (E : environment) (s : state) :
  trace (snd (call_llm E s)) = trace s ++ [EvLLM (messages s) (tools s)].
Proof.
  unfold call_llm, reraising, bind. cbn.
  destruct (env_completions_create E _ _ _); reflexivity.
Qed.

(** The first external call of a turn is the call of the model, with the
    conversation as it stands. *)
Lemma agent_loop_first_call (E : environment) (fuel : nat) (s : state) :
  exists evs,
    trace (snd (agent_loop E (S fuel) s))
    = trace s ++ EvLLM (messages s) (tools s) :: evs.
Proof.
  destruct (agent_loop_turn E fuel (agent_loop_extends E fuel))
    as (k & Hk & ->).
  pose proof (call_llm_trace E s) as Hllm. unfold bind.
  destruct (call_llm E s) as [[response|e|] s1]; cbn in Hllm;
    try (exists []; exact Hllm).
  destruct (Hk response s1) as (evs & _ & Ht & _).
  exists evs. rewrite Ht, Hllm, <- app_assoc. reflexivity.
Qed.

(** C8. [process_query] resets the conversation to the one message
    [{role: user, content: query}], whatever the client held before: the
    run does not depend on the earlier conversation, and the conversation
    with which the loop is entered (the one the client holds when the run
    stops before the first turn) is that message alone.  From there on
    the conversation only grows at its end.  Each external call of the
    query saw a conversation (the LLM endpoint the conversation itself,
    each transcript its encoding); these views begin with the user
    message alone, each is a prefix of the next, and the last is a prefix
    of the conversation the client holds when the query returns, raises
    or runs out of budget.  When the loop runs at all, its first external
    call is the call of the model with exactly the user message. *)
Theorem conversation_reset_then_append_only :
  forall (E : environment) (fuel : nat) (query : string) (s : state),
    let s' := snd (process_query E fuel query s) in
    (forall prior,
        process_query E fuel query (set_messages prior s)
        = process_query E fuel query s)
    /\ messages (snd (process_query E 0 query s))
       = [[("role", PStr "user"); ("content", PStr query)]]
    /\ exists (evs : list event) (views : list (list pydict)),
         trace s' = trace s ++ evs
         /\ Forall2 sees evs views
         /\ between [[("role", PStr "user"); ("content", PStr query)]] views
              (messages s')
         /\ [[("role", PStr "user"); ("content", PStr query)]]
            `prefix_of` messages s'
         /\ (fuel <> 0 ->
             exists evs',
               evs = EvLLM [[("role", PStr "user"); ("content", PStr query)]]
                       (tools s) :: evs').
Proof.
  intros E fuel query s s'. split; [|split; [reflexivity|]].
  - intros prior. rewrite !process_query_unfold. reflexivity.
  - subst s'. rewrite process_query_unfold.
    pose proof (agent_loop_extends E fuel (query_start query s))
      as (evs & views & Ht & Hsees & Hbetween).
    assert (Hfirst : fuel <> 0 ->
              exists evs', evs = EvLLM [user_message query] (tools s) :: evs').
    { destruct fuel as [|fuel]; [congruence|]. intros _.
      destruct (agent_loop_first_call E fuel (query_start query s))
        as (evs' & Ht').
      exists evs'. rewrite Ht in Ht'. apply app_inv_head in Ht'. exact Ht'. }
    exists evs, views.
    destruct (agent_loop E fuel (query_start query s)) as [[[]|e|] s1];
      cbn in *; repeat split; auto;
      exact (between_bounds _ _ _ Hbetween).
Qed.

(** ** The name of a record *)

Ltac Zify.zify_post_hook ::= Z.div_mod_to_equations.

Lemma digit_inj (a b : Z) : digit a = digit b -> (a mod 10 = b mod 10)%Z.
Proof.
  unfold digit. intros H. apply (f_equal nat_of_ascii) in H.
  rewrite !nat_ascii_embedding in H by lia. lia.
Qed.

Lemma two_digits (a b : Z) :
  (0 <= a < 100)%Z -> (0 <= b < 100)%Z ->
  digit (a / 10) = digit (b / 10) -> digit a = digit b -> a = b.
Proof. intros Ha Hb H1%digit_inj H2%digit_inj. lia. Qed.

Lemma four_digits (a b : Z) :
  (0 <= a < 10000)%Z -> (0 <= b < 10000)%Z ->
  digit (a / 1000) = digit (b / 1000) -> digit (a / 100) = digit (b / 100) ->
  digit (a / 10) = digit (b / 10) -> digit a = digit b -> a = b.
Proof.
  intros Ha Hb H1%digit_inj H2%digit_inj H3%digit_inj H4%digit_inj.
  assert (E3 : forall x, (x / 1000 = x / 10 / 10 / 10)%Z)
    by (intros; rewrite !Z.div_div by lia; reflexivity).
  assert (E2 : forall x, (x / 100 = x / 10 / 10)%Z)
    by (intros; rewrite !Z.div_div by lia; reflexivity).
  rewrite !E3 in H1. rewrite !E2 in H2. lia.
Qed.

(** Two valid times have the same record name exactly when they agree
    down to the second. *)
Lemma conversation_path_same_second (t t' : datetime) :
  valid_datetime t -> valid_datetime t' ->
  conversation_path t = conversation_path t' <-> same_second t t'.
Proof.
  intros (Hy & Hmo & Hd & Hh & Hmi & Hs & _)
         (Hy' & Hmo' & Hd' & Hh' & Hmi' & Hs' & _).
  split.
  - intros H.
    cbv [conversation_path path_join strftime pad4 pad2 String.append] in H.
    injection H as Y1 Y2 Y3 Y4 Mo1 Mo2 D1 D2 H1 H2 Mi1 Mi2 S1 S2.
    split; [apply four_digits; auto; lia|].
    repeat split; apply two_digits; auto; lia.
  - intros (Ey & Emo & Ed & Eh & Emi & Es).
    unfold conversation_path, strftime.
    rewrite Ey, Emo, Ed, Eh, Emi, Es. reflexivity.
Qed.

(** The name of a record has the layout
    [conversations/conversation_YYYY-MM-DD_HH-MM-SS.json]. *)
Lemma conversation_path_layout (t : datetime) :
  conversation_path t = "conversations/" +:+ record_name t.
Proof.
  assert (D : forall a b, (a mod 10 = b mod 10)%Z ->
                digit a = ascii_of_nat (48 + Z.to_nat (b mod 10)))
    by (intros a b H; unfold digit; rewrite H; f_equal; lia).
  assert (E1 : forall x, (x / 10 / 10 / 10 = x / 1000)%Z)
    by (intros; rewrite !Z.div_div by lia; reflexivity).
  assert (E2 : forall x, (x / 10 / 10 = x / 100)%Z)
    by (intros; rewrite !Z.div_div by lia; reflexivity).
  cbv [conversation_path path_join record_name strftime pad4 pad2 decimal
       String.append].
  rewrite !E1, !E2.
  repeat (f_equal; try (apply D; reflexivity)).
Qed.

Lemma compare_digit (a b : Z) :
  Ascii.compare (digit a) (digit b) = (a mod 10 ?= b mod 10)%Z.
Proof.
  unfold Ascii.compare, digit.
  assert (H : forall x, N_of_ascii (ascii_of_nat (Z.to_nat (48 + x mod 10)))
                        = Z.to_N (48 + x mod 10)).
  { intros x. unfold ascii_of_nat. rewrite N_ascii_embedding by lia. lia. }
  rewrite !H, Z2N.inj_compare by lia.
  apply Z.add_compare_mono_l.
Qed.

Lemma compare_cons (c c' : ascii) (s s' : string) :
  String.compare (String c s) (String c' s')
  = then_by (Ascii.compare c c') (String.compare s s').
Proof. cbn. destruct (Ascii.compare c c'); reflexivity. Qed.

Lemma compare_same_head (c : ascii) (s s' : string) :
  String.compare (String c s) (String c s') = String.compare s s'.
Proof.
  rewrite compare_cons. unfold Ascii.compare. rewrite N.compare_refl.
  reflexivity.
Qed.

(** One field after the other: a comparison is decided by the first digit
    that differs. *)
Ltac by_digits :=
  repeat (cbn [then_by];
          match goal with
          | |- context [then_by (?x ?= ?y)%Z _] =>
              destruct (Z.compare_spec x y)
          | |- context [(?x ?= ?y)%Z] => destruct (Z.compare_spec x y)
          end);
  cbn [then_by]; first [reflexivity | exfalso; lia].

Lemma compare_pad2 (a b : Z) (s s' : string) :
  (0 <= a < 100)%Z -> (0 <= b < 100)%Z ->
  String.compare (String (digit (a / 10)) (String (digit a) s))
                 (String (digit (b / 10)) (String (digit b) s'))
  = then_by (a ?= b)%Z (String.compare s s').
Proof.
  intros Ha Hb. rewrite !compare_cons, !compare_digit.
  generalize (String.compare s s'). intros rest. by_digits.
Qed.

Lemma compare_pad4 (a b : Z) (s s' : string) :
  (0 <= a < 10000)%Z -> (0 <= b < 10000)%Z ->
  String.compare
    (String (digit (a / 1000))
       (String (digit (a / 100)) (String (digit (a / 10))
                                    (String (digit a) s))))
    (String (digit (b / 1000))
       (String (digit (b / 100)) (String (digit (b / 10))
                                    (String (digit b) s'))))
  = then_by (a ?= b)%Z (String.compare s s').
Proof.
  intros Ha Hb. rewrite !compare_cons, !compare_digit.
  assert (E3 : forall x, (x / 1000 = x / 10 / 10 / 10)%Z)
    by (intros; rewrite !Z.div_div by lia; reflexivity).
  assert (E2 : forall x, (x / 100 = x / 10 / 10)%Z)
    by (intros; rewrite !Z.div_div by lia; reflexivity).
  rewrite !E3, !E2.
  generalize (String.compare s s'). intros rest. by_digits.
Qed.

(** The names of the records sort as their seconds do. *)
Lemma conversation_path_sorts (t t' : datetime) :
  valid_datetime t -> valid_datetime t' ->
  String.compare (conversation_path t) (conversation_path t')
  = compare_seconds t t'.
Proof.
  intros (Hy & Hmo & Hd & Hh & Hmi & Hs & _)
         (Hy' & Hmo' & Hd' & Hh' & Hmi' & Hs' & _).
  cbv [conversation_path path_join strftime pad4 pad2 String.append].
  rewrite !compare_same_head.
  rewrite compare_pad4 by lia. rewrite compare_same_head.
  rewrite compare_pad2 by lia. rewrite compare_same_head.
  rewrite compare_pad2 by lia. rewrite compare_same_head.
  rewrite compare_pad2 by lia. rewrite compare_same_head.
  rewrite compare_pad2 by lia. rewrite compare_same_head.
  rewrite compare_pad2 by lia. rewrite !compare_same_head.
  unfold compare_seconds. cbn [String.compare].
  destruct (second t ?= second t')%Z; reflexivity.
Qed.

(** C7, as the code has it.  A run of the recorder in a storage that
    accepts transcripts succeeds, leaves the directory ["conversations"]
    in place (created if it was absent) and makes the complete encoding of
    the conversation so far, one entry per message, the whole content of
    the record named after the second of the clock:
    [conversations/conversation_YYYY-MM-DD_HH-MM-SS.json].  No other path
    changes.  The names sort as the seconds do: the name of a record of
    an earlier second is the smaller string, that of a later second the
    larger.  So, for a record written at another time [t0]: if [t0] lies
    in another second, the names differ and that record is left as it
    is; if [t0] lies in the same second, the names are the same and the
    present snapshot has taken its place. *)
Theorem record_is_named_by_the_second :
  forall (E : environment) (s : state) (sc : list pydict),
    storage_ok E s ->
    for_each serialize_message (messages s) = Ok sc ->
    valid_datetime (stamp E s) ->
    let t := stamp E s in
    let s' := snd (log_conversation E s) in
    fst (log_conversation E s) = Ok tt
    /\ fs s' !! "conversations" = Some Dir
    /\ conversation_path t = "conversations/" +:+ record_name t
    /\ fs s' !! conversation_path t = Some (File (record_of sc))
    /\ length sc = length (messages s)
    /\ (forall p, p <> "conversations" -> p <> conversation_path t ->
                  fs s' !! p = fs s !! p)
    /\ forall t0, valid_datetime t0 ->
         String.compare (conversation_path t0) (conversation_path t)
         = compare_seconds t0 t
         /\ (same_second t0 t ->
             fs s' !! conversation_path t0 = Some (File (record_of sc)))
         /\ (~ same_second t0 t ->
             conversation_path t0 <> conversation_path t
             /\ fs s' !! conversation_path t0 = fs s !! conversation_path t0).
Proof.
  intros E s sc Hst Hsc Hvalid t s'. subst s'.
  rewrite (log_conversation_ok E sc s Hst Hsc). cbn [fst snd].
  assert (Hrec : fs (recorded E sc s) !! conversation_path t
                 = Some (File (record_of sc)))
    by (cbn; apply lookup_insert_eq).
  assert (Hframe : forall p, p <> "conversations" ->
                     p <> conversation_path t ->
                     fs (recorded E sc s) !! p = fs s !! p).
  { intros p Hp1 Hp2. cbn. fold t.
    rewrite !lookup_insert_ne by congruence. reflexivity. }
  split; [reflexivity|]. split; [|split; [|split; [exact Hrec|split; [|split]]]].
  - cbn. rewrite lookup_insert_ne by apply conversation_path_not_root.
    apply lookup_insert_eq.
  - apply conversation_path_layout.
  - eapply for_each_length, Hsc.
  - exact Hframe.
  - intros t0 Hvalid0.
    split; [apply conversation_path_sorts; assumption|]. split.
    + intros Hsame.
      apply (conversation_path_same_second t0 t Hvalid0 Hvalid) in Hsame.
      rewrite Hsame. exact Hrec.
    + intros Hdiff.
      assert (Hne : conversation_path t0 <> conversation_path t).
      { intros Heq. apply Hdiff.
        apply (conversation_path_same_second t0 t Hvalid0 Hvalid), Heq. }
      split; [exact Hne|].
      apply Hframe; [apply conversation_path_not_root | exact Hne].
Qed.

Lemma record_is_named_by_the_second_witness :
  let s := set_messages [[("role", PStr "user"); ("content", PStr "2+2?")]]
             (set_session (Some 7) (init archive)) in
  fst (log_conversation march_env s) = Ok tt
  /\ fs (snd (log_conversation march_env s))
     !! "conversations/conversation_2025-03-07_14-05-09.json"
     = Some (File (PList [PDict [("role", PStr "user");
                                 ("content", PStr "2+2?")]]))
  /\ fs s !! "conversations/conversation_2025-03-07_14-05-09.json"
     = Some (File (PStr "same second"))
  /\ fs (snd (log_conversation march_env s))
     !! "conversations/conversation_2025-03-07_14-05-08.json"
     = Some (File (PStr "earlier"))
  /\ String.compare "conversations/conversation_2025-03-07_14-05-08.json"
       "conversations/conversation_2025-03-07_14-05-09.json" = Lt.
Proof.
  intros s.
  assert (Hp9 : conversation_path (seventh_of_march 9 0)
                = "conversations/conversation_2025-03-07_14-05-09.json")
    by reflexivity.
  assert (Hp8 : conversation_path (seventh_of_march 8 0)
                = "conversations/conversation_2025-03-07_14-05-08.json")
    by reflexivity.
  assert (Hold9 : fs s !! "conversations/conversation_2025-03-07_14-05-09.json"
                  = Some (File (PStr "same second")))
    by (cbn; unfold archive; rewrite Hp9; apply lookup_insert_eq).
  assert (Hold8 : fs s !! "conversations/conversation_2025-03-07_14-05-08.json"
                  = Some (File (PStr "earlier"))).
  { cbn. unfold archive. rewrite Hp9, Hp8.
    rewrite lookup_insert_ne by discriminate. apply lookup_insert_eq. }
  destruct (record_is_named_by_the_second march_env s
              [[("role", PStr "user"); ("content", PStr "2+2?")]])
    as (Hok & _ & _ & Hrec & _ & _ & Hother).
  - split; [reflexivity|]. split; [reflexivity|]. split.
    + intros c. cbn. unfold archive.
      rewrite !lookup_insert_ne by apply conversation_path_not_root.
      rewrite lookup_insert_eq. discriminate.
    + intros t. cbn. unfold archive.
      destruct (decide (conversation_path (seventh_of_march 9 0)
                        = conversation_path t)) as [->|H9];
        [rewrite lookup_insert_eq; discriminate|].
      rewrite lookup_insert_ne by exact H9.
      destruct (decide (conversation_path (seventh_of_march 8 0)
                        = conversation_path t)) as [->|H8];
        [rewrite lookup_insert_eq; discriminate|].
      rewrite lookup_insert_ne by exact H8.
      rewrite lookup_insert_ne
        by (intros Heq; symmetry in Heq;
            exact (conversation_path_not_root _ Heq)).
      rewrite lookup_empty. discriminate.
  - reflexivity.
  - unfold valid_datetime, stamp, count. cbn. lia.
  - destruct (Hother (seventh_of_march 8 0)) as (Hsort & _ & Hkept).
    { unfold valid_datetime. cbn. lia. }
    destruct Hkept as [_ Hkept].
    { unfold same_second, stamp, count. cbn. lia. }
    split; [exact Hok|]. split; [exact Hrec|]. split; [exact Hold9|].
    split; [rewrite <- Hold8; exact Hkept | exact Hsort].
Defined.

(** C7 as stated fails: with a clock that stays within one second, the
    three transcripts of the weather query are written to one path, and
    the record that remains holds the last of them only. *)
Lemma snapshots_overwritten_within_a_second :
  fst <$> writes (trace (snd (process_query fast_env 3
                                "What is the weather in Paris?" connected)))
  = ["conversations/conversation_2025-01-01_12-00-00.json";
     "conversations/conversation_2025-01-01_12-00-00.json";
     "conversations/conversation_2025-01-01_12-00-00.json"]
  /\ exists r1 r2 r3,
       snd <$> writes (trace (snd (process_query fast_env 3
                                     "What is the weather in Paris?"
                                     connected)))
       = [r1; r2; r3]
       /\ r1 <> r3 /\ r2 <> r3
       /\ fs (snd (process_query fast_env 3
                     "What is the weather in Paris?" connected))
          !! "conversations/conversation_2025-01-01_12-00-00.json"
          = Some (File r3).
Proof.
  split; [vm_compute; reflexivity|].
  eexists _, _, _. split; [vm_compute; reflexivity|].
  split; [discriminate|]. split; [discriminate|].
  vm_compute. reflexivity.
Qed.

(** ** The encoding of a conversation *)

Lemma serialize_tool_call_encodes (tc d : pyval) :
  serialize_tool_call tc = Ok d -> encodes_call tc d.
Proof.
  unfold serialize_tool_call, encodes_call.
  destruct (hasattr tc "to_dict") eqn:Hto.
  - destruct (getattr tc "to_dict") as [m| |]; cbn; try discriminate.
    intros Hcall. left. exists m. auto.
  - destruct (isinstance_dict tc) eqn:Hdict.
    + intros [= <-]. right. left. auto.
    + destruct (getattr tc "id") as [i| |] eqn:Hi; cbn; try discriminate.
      destruct (getattr tc "function") as [f| |] eqn:Hf; cbn;
        try discriminate.
      destruct (getattr f "name") as [n| |] eqn:Hn; cbn; try discriminate.
      destruct (getattr f "arguments") as [a| |] eqn:Ha; cbn;
        try discriminate.
      intros [= <-]. right. right.
      split; [reflexivity|]. split; [reflexivity|].
      exists i, f, n, a. auto.
Qed.

Lemma for_each_encodes (items ds : list pyval) :
  for_each serialize_tool_call items = Ok ds ->
  Forall2 encodes_call items ds.
Proof.
  revert ds. induction items as [|tc items IH]; intros ds; cbn.
  - intros [= <-]. constructor.
  - destruct (serialize_tool_call tc) as [d| |] eqn:Hd; cbn;
      try discriminate.
    destruct (for_each serialize_tool_call items) as [ds'| |]; cbn;
      try discriminate.
    intros [= <-]. constructor;
      [apply serialize_tool_call_encodes, Hd | apply IH; reflexivity].
Qed.

(** The three optional fields of a record, one after the other. *)
Lemma serialize_message_encoded (m sm : pydict) :
  serialize_message m = Ok sm -> encoded_as m sm.
Proof.
  unfold serialize_message, dict_item, dict_in, encoded_as.
  destruct (dict_get m "role") as [role|]; cbn [obind]; [|discriminate].
  destruct (dict_get m "content") as [c|];
    destruct (dict_get m "tool_calls") as [v|]; cbn [obind];
    try (destruct (py_iter v) as [items| |]; cbn [obind];
         try discriminate;
         destruct (for_each serialize_tool_call items) as [ds| |] eqn:Hds;
         cbn [obind]; try discriminate;
         apply for_each_encodes in Hds);
    destruct (dict_get m "tool_call_id") as [i|]; cbn [obind];
    intros [= <-];
    (split; [exists role; split; reflexivity|]);
    (split; [reflexivity|]); (split; [reflexivity|]);
    (split; [first [reflexivity | exists items, ds; auto]|]);
    intros k H1 H2 H3 H4;
    cbn [dict_get];
    repeat match goal with
      | |- context [String.eqb ?a k] =>
          destruct (String.eqb_spec a k) as [E|_];
            [symmetry in E; contradiction|]
      end;
    reflexivity.
Qed.

Lemma for_each_encoded (msgs sc : list pydict) :
  for_each serialize_message msgs = Ok sc -> Forall2 encoded_as msgs sc.
Proof.
  revert sc. induction msgs as [|m msgs IH]; intros sc; cbn.
  - intros [= <-]. constructor.
  - destruct (serialize_message m) as [sm| |] eqn:Hsm; cbn;
      try discriminate.
    destruct (for_each serialize_message msgs) as [sc'| |]; cbn;
      try discriminate.
    intros [= <-]. constructor;
      [apply serialize_message_encoded, Hsm | apply IH; reflexivity].
Qed.

(** C5, as the code has it.  When every message of the conversation
    encodes, the recorder writes one entry per message, in order, and each
    entry

    - has the [role] of the message;
    - has [content] exactly when the message has the key, with its value;
    - has [tool_calls] exactly when the message has the key: the list of
      the encodings of the calls, where a call that has [to_dict] is
      written as what [to_dict()] returns, a call that is a mapping is
      written unchanged, and any other call is written as
      [{id, function: {name, arguments}}] read from its attributes;
    - has [tool_call_id] exactly when the message has the key, with its
      value, whatever the role;
    - has no other key. *)
Theorem record_encodes_each_message :
  forall (E : environment) (s : state) (sc : list pydict),
    storage_ok E s ->
    for_each serialize_message (messages s) = Ok sc ->
    log_conversation E s = (Ok tt, recorded E sc s)
    /\ fs (recorded E sc s) !! conversation_path (stamp E s)
       = Some (File (record_of sc))
    /\ Forall2 encoded_as (messages s) sc.
Proof.
  intros E s sc Hst Hsc. split; [apply log_conversation_ok; assumption|].
  split; [cbn; apply lookup_insert_eq | apply for_each_encoded, Hsc].
Qed.

Lemma record_encodes_each_message_witness :
  Forall2 encoded_as
    [user_message "What is the weather in Paris?";
     assistant_tool_message PNone
       (PList [mk_tool_call (PStr "call_1") (PStr "get_weather")
                 (city_args "Paris")]);
     tool_message (PStr "call_1") (PStr "15C, cloudy")]
    [user_message "What is the weather in Paris?";
     [("role", PStr "assistant"); ("content", PNone);
      ("tool_calls",
       PList [PDict [("id", PStr "call_1");
                     ("function",
                      PDict [("name", PStr "get_weather");
                             ("arguments", city_args "Paris")])]])];
     [("role", PStr "tool"); ("content", PStr "15C, cloudy");
      ("tool_call_id", PStr "call_1")]].
Proof.
  destruct (record_encodes_each_message weather_env
              (set_messages
                 [user_message "What is the weather in Paris?";
                  assistant_tool_message PNone
                    (PList [mk_tool_call (PStr "call_1")
                              (PStr "get_weather") (city_args "Paris")]);
                  tool_message (PStr "call_1") (PStr "15C, cloudy")]
                 connected)
              [user_message "What is the weather in Paris?";
               [("role", PStr "assistant"); ("content", PNone);
                ("tool_calls",
                 PList [PDict [("id", PStr "call_1");
                               ("function",
                                PDict [("name", PStr "get_weather");
                                       ("arguments",
                                        city_args "Paris")])]])];
               [("role", PStr "tool"); ("content", PStr "15C, cloudy");
                ("tool_call_id", PStr "call_1")]])
    as (_ & _ & Henc).
  - apply (storage_ok_frame weather_env (init ∅)); [reflexivity|].
    apply storage_ok_init; reflexivity.
  - reflexivity.
  - exact Henc.
Defined.

(** C5 as stated fails on a tool call that arrives as a flat mapping and
    on a message that is not a tool message but carries a [tool_call_id]:
    the recorder succeeds and the record holds both messages as they
    are. *)
Lemma flat_mapping_is_recorded_as_it_is :
  log_conversation weather_env
    (set_messages [tagged_user_message; flat_message] connected)
  = (Ok tt,
     recorded weather_env [tagged_user_message; flat_message]
       (set_messages [tagged_user_message; flat_message] connected))
  /\ dict_get flat_message "tool_calls" = Some (PList [flat_call])
  /\ ~ normalized flat_call
  /\ dict_get tagged_user_message "role" = Some (PStr "user")
  /\ dict_get tagged_user_message "tool_call_id" = Some (PStr "call_0").
Proof.
  split.
  - apply log_conversation_ok; [|reflexivity].
    apply (storage_ok_frame weather_env (init ∅)); [reflexivity|].
    apply storage_ok_init; reflexivity.
  - split; [reflexivity|]. split; [|split; reflexivity].
    intros (i & n & a & H). discriminate H.
Qed.

(** ** A conversation that does not encode *)

Lemma for_each_app_raise {A B} (f : A -> outcome B) (l1 l2 : list A) r1 e :
  for_each f l1 = Ok r1 -> for_each f l2 = Raise e ->
  for_each f (l1 ++ l2) = Raise e.
Proof.
  revert r1. induction l1 as [|x l1 IH]; intros r1 H1 H2; cbn in *.
  - exact H2.
  - destruct (f x) as [y| |]; cbn in *; try discriminate.
    destruct (for_each f l1) as [ys| |]; cbn in *; try discriminate.
    rewrite (IH ys eq_refl H2). reflexivity.
Qed.

Lemma getattr_cases (v : pyval) (name : string) :
  (exists a, getattr v name = Ok a)
  \/ getattr v name = Raise (AttributeError name).
Proof.
  unfold getattr. destruct v; auto.
  destruct (dict_get attrs name); eauto.
Qed.

Lemma serialize_tool_call_defect (tc : pyval) :
  match call_defect tc with
  | Some e => serialize_tool_call tc = Raise e
  | None => exists d, serialize_tool_call tc = Ok d
  end.
Proof.
  unfold call_defect, serialize_tool_call, missing_attribute, hasattr.
  destruct (getattr_cases tc "to_dict") as [[m ->] | ->].
  - destruct m; cbn; eauto.
  - destruct (isinstance_dict tc); [eauto|].
    destruct (getattr_cases tc "id") as [[i ->] | ->]; cbn;
      [|reflexivity].
    destruct (getattr_cases tc "function") as [[f ->] | ->]; cbn;
      [|reflexivity].
    destruct (getattr_cases f "name") as [[n ->] | ->]; cbn;
      [|reflexivity].
    destruct (getattr_cases f "arguments") as [[a ->] | ->]; cbn;
      [|reflexivity].
    eauto.
Qed.

Lemma for_each_call_defect (tcs : list pyval) :
  match head (omap call_defect tcs) with
  | Some e => for_each serialize_tool_call tcs = Raise e
  | None => exists ds, for_each serialize_tool_call tcs = Ok ds
  end.
Proof.
  induction tcs as [|tc tcs IH]; cbn [omap list_omap head for_each];
    [eauto|].
  pose proof (serialize_tool_call_defect tc) as Htc.
  destruct (call_defect tc) as [e|]; cbn [head].
  - rewrite Htc. reflexivity.
  - destruct Htc as [d ->]. cbn [obind].
    destruct (head (omap call_defect tcs)) as [e|].
    + rewrite IH. reflexivity.
    + destruct IH as [ds ->]. cbn [obind]. eauto.
Qed.

(** The defect of a message is the error of its encoding. *)
Lemma py_iter_cases (v : pyval) :
  (exists items, py_iter v = Ok items) \/ py_iter v = Raise TypeError.
Proof. destruct v; cbn; eauto. Qed.

Lemma serialize_message_defect (m : pydict) :
  match message_defect m with
  | Some e => serialize_message m = Raise e
  | None => exists sm, serialize_message m = Ok sm
  end.
Proof.
  unfold message_defect, serialize_message, dict_item, dict_in.
  destruct (dict_get m "role") as [role|]; cbn [obind]; [|reflexivity].
  destruct (dict_get m "tool_calls") as [v|].
  - destruct (dict_get m "content");
      destruct (dict_get m "tool_call_id"); cbn [obind];
      (destruct (py_iter_cases v) as [[items ->] | ->]; cbn [obind];
       [|reflexivity]);
      pose proof (for_each_call_defect items) as Hitems;
      (destruct (head (omap call_defect items)) as [e|];
       [rewrite Hitems; reflexivity|]);
      destruct Hitems as [ds ->]; cbn [obind]; eauto.
  - destruct (dict_get m "content");
      destruct (dict_get m "tool_call_id"); cbn [obind]; eauto.
Qed.

Lemma serialize_message_raises (m : pydict) (e : exn) :
  serialize_message m = Raise e <-> message_defect m = Some e.
Proof.
  pose proof (serialize_message_defect m) as H.
  destruct (message_defect m) as [e'|].
  - rewrite H. split; congruence.
  - destruct H as [sm ->]. split; discriminate.
Qed.

(** A conversation whose messages have no defect encodes. *)
Lemma for_each_without_defect (msgs : list pydict) :
  Forall (fun m => message_defect m = None) msgs ->
  exists sc, for_each serialize_message msgs = Ok sc.
Proof.
  induction 1 as [|m msgs Hm _ [sc IH]]; cbn [for_each]; [eauto|].
  pose proof (serialize_message_defect m) as H. rewrite Hm in H.
  destruct H as [sm ->]. cbn [obind]. rewrite IH. cbn [obind]. eauto.
Qed.

(** The first message with a defect ends the encoding. *)
Lemma for_each_first_defect (good rest : list pydict) (bad : pydict)
    (e : exn) :
  Forall (fun m => message_defect m = None) good ->
  message_defect bad = Some e ->
  for_each serialize_message (good ++ bad :: rest) = Raise e.
Proof.
  intros [sc Hsc]%for_each_without_defect Hbad.
  eapply for_each_app_raise; [exact Hsc|]. cbn [for_each].
  apply serialize_message_raises in Hbad. rewrite Hbad. reflexivity.
Qed.

(** The recorder on a conversation that does not encode: the error leaves
    the recorder, nothing is written. *)
Lemma log_conversation_raise (E : environment) (e : exn) (s : state) :
  storage_ok E s ->
  for_each serialize_message (messages s) = Raise e ->
  exists s',
    log_conversation E s = (Raise e, s')
    /\ messages s' = messages s
    /\ trace s' = trace s
    /\ fs s' = <["conversations" := Dir]> (fs s)
    /\ logs s'
       = logs s ++ [(ERROR, "Error processing message: ");
                    (DEBUG, "Message content: ")].
Proof.
  intros (Hm & Ho & Hf & Hd) Hsc. unfold log_conversation.
  rewrite (bind_ok _ _ _ _ _ (os_makedirs_ok E _ s Hm Hf)).
  unfold bind at 1. cbn [get messages set_fs].
  erewrite bind_raise; [|apply serialize_conversation_raise, Hsc].
  eexists. split; [reflexivity|]. cbn. rewrite <- app_assoc. auto.
Qed.

Lemma agent_loop_unencodable (E : environment) (fuel : nat) (s : state)
    (response m content tool_calls : pyval) (sc : list pydict) (e : exn) :
  completion E s = Ok response ->
  first_message response = Ok m ->
  getattr m "content" = Ok content ->
  getattr m "tool_calls" = Ok tool_calls ->
  truthy tool_calls = true ->
  serialize_message (assistant_tool_message content tool_calls) = Raise e ->
  storage_ok E s ->
  for_each serialize_message (messages s) = Ok sc ->
  exists s',
    agent_loop E (S fuel) s = (Raise e, s')
    /\ messages s'
       = messages s ++ [assistant_tool_message content tool_calls]
    /\ trace s' = trace s ++ [EvLLM (messages s) (tools s)]
    /\ fs s' = <["conversations" := Dir]> (fs s)
    /\ logs s'
       = logs s ++ [(INFO, "Calling LLM");
                    (ERROR, "Error processing message: ");
                    (DEBUG, "Message content: ")].
Proof.
  intros Hllm Hm Hc Htcs Htrue Har Hst Hsc. cbn [agent_loop].
  rewrite (bind_ok _ _ _ _ _ (call_llm_ok E s response Hllm)).
  unfold is_text_response.
  rewrite (first_message_hasattr _ _ Hm), Hm. cbn [negb obind].
  rewrite Htcs. cbn [obind]. rewrite Htrue. cbn [negb].
  do 2 step. rewrite Hc. step. rewrite Htcs. do 2 step.
  destruct (log_conversation_raise E e
              (set_messages
                 (messages s ++ [assistant_tool_message content tool_calls])
                 (asked s)))
    as (s' & Hrun & Hm' & Ht' & Hf' & Hl').
  - eapply storage_ok_frame; [|exact Hst]. reflexivity.
  - cbn [messages set_messages asked set_trace set_logs].
    eapply for_each_app_raise; [exact Hsc|]. cbn [for_each]. rewrite Har.
    reflexivity.
  - exists s'. split; [erewrite bind_raise; [reflexivity | exact Hrun]|].
    rewrite Hm', Ht', Hf', Hl'. cbn. rewrite <- app_assoc. auto.
Qed.

Lemma serialize_message_without_calls (m : pydict) (role : pyval) :
  dict_get m "role" = Some role ->
  dict_get m "tool_calls" = None ->
  exists sm,
    serialize_message m = Ok sm
    /\ dict_get sm "tool_call_id" = dict_get m "tool_call_id".
Proof.
  intros Hrole Hcalls. unfold serialize_message, dict_item, dict_in.
  rewrite Hrole, Hcalls.
  destruct (dict_get m "content") as [c|];
    destruct (dict_get m "tool_call_id") as [i|]; cbn [obind];
    eexists; (split; [reflexivity|]); reflexivity.
Qed.

(** C6, as the code has it.  A message cannot be written when it has no
    [role] ([KeyError]), when what it holds under [tool_calls] is not
    iterable ([TypeError]), or when one of its tool calls cannot be
    written: a call whose [to_dict] is not callable ([TypeError]), or a
    call that has no [to_dict], is no mapping and lacks [id], [function],
    [function.name] or [function.arguments] ([AttributeError] of the
    first that is missing).  [message_defect] names that error, and the
    encoding of a message raises exactly when the message has a defect,
    with the error of the defect.

    On a conversation whose first message with a defect is [bad], the
    recorder logs an error and a debug entry, raises the error of [bad],
    reads no clock and writes no record.  In the turn of [process_query]
    where the assistant message has a defect, the message has been
    appended, the recorder fails on it, and the query raises the error,
    logged once more by [process_query]; no tool is called and nothing is
    written.

    A message with a role and no [tool_calls] has no defect: it is
    written, with a [tool_call_id] exactly when it carries one, so a tool
    message without [tool_call_id] is no error. *)
Theorem unencodable_message_is_fatal :
  (forall (m : pydict) (e : exn),
      serialize_message m = Raise e <-> message_defect m = Some e)
  /\ (forall (E : environment) (s : state) (good rest : list pydict)
             (bad : pydict) (e : exn),
         storage_ok E s ->
         messages s = good ++ bad :: rest ->
         Forall (fun m => message_defect m = None) good ->
         message_defect bad = Some e ->
         exists s',
           log_conversation E s = (Raise e, s')
           /\ logs s'
              = logs s ++ [(ERROR, "Error processing message: ");
                           (DEBUG, "Message content: ")]
           /\ messages s' = messages s
           /\ trace s' = trace s
           /\ forall t, fs s' !! conversation_path t
                        = fs s !! conversation_path t)
  /\ (forall (E : environment) (budget fuel : nat) (query : string)
             (s0 s : state) (response m content tool_calls : pyval)
             (e : exn),
         agent_loop E budget (query_start query s0)
         = agent_loop E (S fuel) s ->
         storage_ok E s ->
         Forall (fun m => message_defect m = None) (messages s) ->
         completion E s = Ok response ->
         first_message response = Ok m ->
         getattr m "content" = Ok content ->
         getattr m "tool_calls" = Ok tool_calls ->
         truthy tool_calls = true ->
         message_defect [("role", PStr "assistant"); ("content", content);
                         ("tool_calls", tool_calls)] = Some e ->
         exists s',
           process_query E budget query s0 = (Raise e, s')
           /\ logs s'
              = logs s ++ [(INFO, "Calling LLM");
                           (ERROR, "Error processing message: ");
                           (DEBUG, "Message content: ");
                           (ERROR, "Error processing query: ")]
           /\ messages s'
              = messages s ++ [[("role", PStr "assistant");
                                ("content", content);
                                ("tool_calls", tool_calls)]]
           /\ writes (trace s') = writes (trace s)
           /\ count is_call_tool (trace s') = count is_call_tool (trace s))
  /\ (forall (m : pydict) (role : pyval),
         dict_get m "role" = Some role ->
         dict_get m "tool_calls" = None ->
         message_defect m = None
         /\ exists sm,
              serialize_message m = Ok sm
              /\ dict_get sm "tool_call_id" = dict_get m "tool_call_id").
Proof.
  split; [exact serialize_message_raises|].
  split; [|split].
  - intros E s good rest bad e Hst Hmsgs Hgood Hbad.
    destruct (log_conversation_raise E e s Hst)
      as (s' & Hrun & Hm & Ht & Hf & Hl).
    { rewrite Hmsgs. apply for_each_first_defect; assumption. }
    exists s'. repeat split; auto.
    intros t. rewrite Hf.
    apply lookup_insert_ne. intros Heq. symmetry in Heq.
    exact (conversation_path_not_root _ Heq).
  - intros E budget fuel query s0 s response m content tool_calls e
      Hreach Hst Hgood Hllm Hm Hc Htcs Htrue Hbad.
    destruct (for_each_without_defect _ Hgood) as [sc Hsc].
    apply serialize_message_raises in Hbad.
    destruct (agent_loop_unencodable E fuel s response m content tool_calls
                sc e Hllm Hm Hc Htcs Htrue Hbad Hst Hsc)
      as (s' & Hrun & Hmsgs & Ht & _ & Hl).
    eexists. split.
    { rewrite process_query_unfold, Hreach, Hrun. reflexivity. }
    cbn [trace logs messages set_logs]. rewrite Ht, Hl, Hmsgs.
    split; [rewrite <- app_assoc; reflexivity|].
    split; [reflexivity|]. split.
    + unfold writes. rewrite omap_app. cbn. apply app_nil_r.
    + rewrite count_app. unfold count. cbn. lia.
  - intros m role Hrole Hcalls. split.
    + unfold message_defect. rewrite Hrole, Hcalls. reflexivity.
    + exact (serialize_message_without_calls m role Hrole Hcalls).
Qed.

Lemma unencodable_message_is_fatal_witness :
  serialize_message
    [("role", PStr "assistant"); ("content", PNone);
     ("tool_calls", PList broken_calls)]
  = Raise (AttributeError "function")
  /\ serialize_message
       [("role", PStr "assistant"); ("content", PNone);
        ("tool_calls", PInt 5)]
     = Raise TypeError
  /\ exists s',
       process_query broken_env 1 "Weather in Paris?" connected
       = (Raise (AttributeError "function"), s')
       /\ logs s'
          = [(INFO, "Processing query: ");
             (INFO, "Calling LLM");
             (ERROR, "Error processing message: ");
             (DEBUG, "Message content: ");
             (ERROR, "Error processing query: ")]
       /\ writes (trace s') = []
       /\ count is_call_tool (trace s') = 0.
Proof.
  destruct unencodable_message_is_fatal as (Hiff & _ & Hquery & _).
  split; [apply Hiff; reflexivity|].
  split; [apply Hiff; reflexivity|].
  destruct (Hquery broken_env 1 0 "Weather in Paris?" connected
              (query_start "Weather in Paris?" connected)
              (mk_response PNone (PList broken_calls))
              (PObj [("role", PStr "assistant"); ("content", PNone);
                     ("tool_calls", PList broken_calls)])
              PNone (PList broken_calls) (AttributeError "function"))
    as (s' & Hrun & Hlogs & _ & Hw & Hcalls); try reflexivity.
  - apply (storage_ok_frame broken_env (init ∅)); [reflexivity|].
    apply storage_ok_init; reflexivity.
  - repeat constructor.
  - exists s'. split; [exact Hrun|]. split; [exact Hlogs|].
    split; [exact Hw | exact Hcalls].
Defined.

(** C6 as stated fails on its own example: a conversation whose tool
    message has no [tool_call_id] is recorded, and the entry of that
    message is the message itself, without the field. *)
Lemma tool_message_without_id_is_recorded :
  log_conversation weather_env
    (set_messages [user_message "hello"; orphan_tool_message] connected)
  = (Ok tt,
     recorded weather_env [user_message "hello"; orphan_tool_message]
       (set_messages [user_message "hello"; orphan_tool_message] connected))
  /\ dict_get orphan_tool_message "role" = Some (PStr "tool")
  /\ dict_get orphan_tool_message "tool_call_id" = None.
Proof.
  split; [|split; reflexivity].
  apply log_conversation_ok; [|reflexivity].
  apply (storage_ok_frame weather_env (init ∅)); [reflexivity|].
  apply storage_ok_init; reflexivity.
Qed.

Lemma conversation_reset_then_append_only_witness :
  process_query weather_env 3 "What is the weather in Paris?"
    (set_messages [[("role", PStr "user"); ("content", PStr "2+2?")];
                   [("role", PStr "assistant"); ("content", PStr "4")]]
       connected)
  = process_query weather_env 3 "What is the weather in Paris?" connected
  /\ [[("role", PStr "user");
       ("content", PStr "What is the weather in Paris?")]]
     `prefix_of`
     messages (snd (process_query weather_env 3
                      "What is the weather in Paris?" connected))
  /\ exists evs',
       trace (snd (process_query weather_env 3
                     "What is the weather in Paris?" connected))
       = EvLLM [[("role", PStr "user");
                 ("content", PStr "What is the weather in Paris?")]] []
         :: evs'.
Proof.
  destruct (conversation_reset_then_append_only weather_env 3
              "What is the weather in Paris?" connected)
    as (Hreset & _ & evs & views & Htrace & _ & _ & Hprefix & Hfirst).
  split; [apply Hreset|]. split; [exact Hprefix|].
  destruct Hfirst as [evs' ->]; [discriminate|].
  exists evs'. exact Htrace.
Defined.

(** * Further properties *)

(** ** Reading a successful run backwards *)

Lemma bind_inv_ok {A B} (m : M A) (k : A -> M B) s b s' :
  bind m k s = (Ok b, s') ->
  exists a s1, m s = (Ok a, s1) /\ k a s1 = (Ok b, s').
Proof.
  unfold bind. destruct (m s) as [[a|e|] s1]; try discriminate.
  intros H. exists a, s1. auto.
Qed.

Lemma reraising_inv_ok {A} (m : M A) h s a s' :
  reraising m h s = (Ok a, s') -> m s = (Ok a, s').
Proof.
  unfold reraising. destruct (m s) as [[a0|e|] s1]; try discriminate; auto.
  destruct (h e s1) as [[[]|e'|] s2]; discriminate.
Qed.

Lemma lift_inv_ok {A} (r : outcome A) s a s' :
  lift r s = (Ok a, s') -> r = Ok a /\ s' = s.
Proof. unfold lift. intros [= -> ->]. auto. Qed.

Lemma os_makedirs_inv_ok (E : environment) (path : string) (s s' : state) u :
  os_makedirs E path s = (Ok u, s') ->
  s' = set_fs (<[path := Dir]> (fs s)) s.
Proof.
  unfold os_makedirs.
  destruct (env_makedirs_fault E path); [discriminate|].
  destruct u.
  unfold bind, get. destruct (fs s !! path) as [[|c]|] eqn:Hdir; cbn;
    intros H; try discriminate H; injection H as <-; try reflexivity.
  apply state_ext; cbn; try reflexivity. symmetry. apply insert_id, Hdir.
Qed.

Lemma write_json_inv_ok (E : environment) (path : string) (v : pyval)
    (s s' : state) u :
  write_json E path v s = (Ok u, s') ->
  s' = set_fs (<[path := File v]> (fs s))
         (set_trace (trace s ++ [EvWrite path v]) s).
Proof.
  unfold write_json. destruct (env_open_fault E path); [discriminate|].
  destruct u.
  unfold bind, get. destruct (fs s !! path) as [[|c]|]; cbn;
    intros H; try discriminate H; injection H as <-; reflexivity.
Qed.

(** The recorder returns only from the state in which the whole
    conversation is written. *)
Lemma log_conversation_inv_ok (E : environment) (s s' : state) u :
  log_conversation E s = (Ok u, s') ->
  exists sc,
    for_each serialize_message (messages s) = Ok sc
    /\ s' = recorded E sc s.
Proof.
  unfold log_conversation. intros H.
  apply bind_inv_ok in H as (a & s1 & Hmk & H).
  apply os_makedirs_inv_ok in Hmk. subst s1.
  apply bind_inv_ok in H as (msgs & s1 & Hget & H).
  injection Hget as <- <-.
  apply bind_inv_ok in H as (sc & s2 & Hser & H).
  destruct (serialize_conversation_run (messages s)
              (set_fs (<["conversations" := Dir]> (fs s)) s))
    as (_ & _ & _ & Hok).
  rewrite Hser in Hok. destruct (Hok sc eq_refl) as [Hsc Hs2].
  cbn [snd] in Hs2. subst s2.
  rewrite (bind_ok _ _ _ _ _ (now_ok E _)) in H.
  apply reraising_inv_ok, write_json_inv_ok in H.
  exists sc. split; [exact Hsc|]. subst s'.
  apply state_ext; cbn; try reflexivity.
  rewrite <- app_assoc. reflexivity.
Qed.

(** ** The recorder *)

(** X1. When the recorder returns, the directory of the transcripts
    exists and the record named after the second of the clock holds the
    encoding of every message of the conversation, in order; the run read
    the clock once and then wrote that one file, which are its only
    external calls, and changed neither the conversation nor the log. *)
Theorem recorder_returns_after_writing :
  forall (E : environment) (s s' : state),
    log_conversation E s = (Ok tt, s') ->
    exists sc,
      Forall2 encoded_as (messages s) sc
      /\ fs s' !! "conversations" = Some Dir
      /\ fs s' !! conversation_path (stamp E s) = Some (File (record_of sc))
      /\ trace s'
         = trace s ++ [EvNow (stamp E s);
                       EvWrite (conversation_path (stamp E s))
                         (record_of sc)]
      /\ count is_now (trace s') = S (count is_now (trace s))
      /\ writes (trace s')
         = writes (trace s) ++ [(conversation_path (stamp E s), record_of sc)]
      /\ messages s' = messages s
      /\ logs s' = logs s.
Proof.
  intros E s s' H.
  apply log_conversation_inv_ok in H as (sc & Hsc & ->).
  exists sc. split; [apply for_each_encoded, Hsc|]. cbn.
  split; [|split; [apply lookup_insert_eq|]].
  - rewrite lookup_insert_ne by apply conversation_path_not_root.
    apply lookup_insert_eq.
  - split; [reflexivity|]. split.
    + rewrite count_app. unfold count. cbn. lia.
    + split; [|auto]. unfold writes. rewrite omap_app. reflexivity.
Qed.

Lemma recorder_returns_after_writing_witness :
  exists sc,
    Forall2 encoded_as [[("role", PStr "user"); ("content", PStr "2+2?")]] sc
    /\ fs (snd (log_conversation weather_env (query_start "2+2?" connected)))
       !! "conversations" = Some Dir
    /\ trace (snd (log_conversation weather_env
                     (query_start "2+2?" connected)))
       = [EvNow (first_of_january 0 0);
          EvWrite "conversations/conversation_2025-01-01_12-00-00.json"
            (record_of sc)].
Proof.
  destruct (recorder_returns_after_writing weather_env
              (query_start "2+2?" connected)
              (snd (log_conversation weather_env
                      (query_start "2+2?" connected))))
    as (sc & Henc & Hdir & _ & Htrace & _); [vm_compute; reflexivity|].
  exists sc. split; [exact Henc|]. split; [exact Hdir | exact Htrace].
Defined.

(** X2. When ["conversations"] exists as a file, the recorder raises
    [FileExistsError] from [os.makedirs], which stands outside its
    handlers: nothing is logged by the recorder, the clock is not read,
    nothing is written, the state is the one it started from. *)
Theorem recorder_refuses_a_file_in_place_of_the_directory :
  forall (E : environment) (s : state) (c : pyval),
    env_makedirs_fault E "conversations" = None ->
    fs s !! "conversations" = Some (File c) ->
    log_conversation E s = (Raise (FileExistsError "conversations"), s).
Proof.
  intros E s c Hm Hfile. unfold log_conversation, os_makedirs.
  rewrite Hm. unfold bind, get. rewrite Hfile. reflexivity.
Qed.

Lemma recorder_refuses_a_file_in_place_of_the_directory_witness :
  log_conversation weather_env
    (set_fs {["conversations" := File PNone]} connected)
  = (Raise (FileExistsError "conversations"),
     set_fs {["conversations" := File PNone]} connected).
Proof.
  apply (recorder_refuses_a_file_in_place_of_the_directory weather_env _
           PNone); reflexivity.
Defined.

(** X3. When the file of the transcript cannot be opened, the recorder
    logs the failure (an error and a debug entry) and raises the error of
    the operating system.  The directory has been created and the clock
    read, but no transcript is written and no record changes. *)
Theorem recorder_reports_a_file_it_cannot_open :
  forall (E : environment) (s : state) (sc : list pydict) (e : exn),
    env_makedirs_fault E "conversations" = None ->
    (forall c, fs s !! "conversations" <> Some (File c)) ->
    for_each serialize_message (messages s) = Ok sc ->
    env_open_fault E (conversation_path (stamp E s)) = Some e ->
    exists s',
      log_conversation E s = (Raise e, s')
      /\ fs s' = <["conversations" := Dir]> (fs s)
      /\ writes (trace s') = writes (trace s)
      /\ trace s' = trace s ++ [EvNow (stamp E s)]
      /\ messages s' = messages s
      /\ logs s'
         = logs s ++ [(ERROR, "Error writing conversation to file: ");
                      (DEBUG, "Serializable conversation: ")].
Proof.
  intros E s sc e Hm Hf Hsc Ho. unfold log_conversation.
  rewrite (bind_ok _ _ _ _ _ (os_makedirs_ok E _ s Hm Hf)).
  unfold bind at 1. cbn [get messages set_fs].
  rewrite (bind_ok _ _ _ _ _ (serialize_conversation_ok _ sc _ Hsc)).
  rewrite (bind_ok _ _ _ _ _ (now_ok E _)).
  unfold reraising, write_json.
  replace (stamp E (set_fs (<["conversations" := Dir]> (fs s)) s))
    with (stamp E s) by reflexivity.
  rewrite Ho. cbn.
  eexists. split; [reflexivity|]. cbn.
  repeat split.
  - unfold writes. rewrite omap_app. cbn. apply app_nil_r.
  - rewrite <- app_assoc. reflexivity.
Qed.

(** X4. The recorder fails on the first message that does not encode,
    with the error of that message, whatever comes after it in the
    conversation; no transcript is written. *)
Theorem recorder_fails_on_the_first_bad_message :
  forall (E : environment) (s : state) (good rest : list pydict)
         (bad : pydict) (sc : list pydict) (e : exn),
    storage_ok E s ->
    messages s = good ++ bad :: rest ->
    for_each serialize_message good = Ok sc ->
    serialize_message bad = Raise e ->
    exists s',
      log_conversation E s = (Raise e, s')
      /\ writes (trace s') = writes (trace s)
      /\ messages s' = messages s.
Proof.
  intros E s good rest bad sc e Hst Hmsgs Hgood Hbad.
  destruct (log_conversation_raise E e s Hst) as (s' & Hrun & Hm & Ht & _).
  - rewrite Hmsgs. eapply for_each_app_raise; [exact Hgood|].
    cbn [for_each]. rewrite Hbad. reflexivity.
  - exists s'. rewrite Ht. auto.
Qed.

(** ** What a query leaves alone *)

Lemma keeps_connection_refl (s : state) : keeps_connection s s.
Proof.
  repeat split. exists []. rewrite app_nil_r. split; [reflexivity|].
  constructor.
Qed.

Lemma served_by_frame (s s1 : state) (e : event) :
  session s1 = session s -> tools s1 = tools s ->
  served_by s1 e -> served_by s e.
Proof. intros Hs Ht. destruct e; cbn; congruence. Qed.

Lemma keeps_connection_trans (a b c : state) :
  keeps_connection a b -> keeps_connection b c -> keeps_connection a c.
Proof.
  intros (Hs1 & Hw1 & Hx1 & Ht1 & e1 & Htr1 & Hf1)
         (Hs2 & Hw2 & Hx2 & Ht2 & e2 & Htr2 & Hf2).
  repeat split; try congruence.
  exists (e1 ++ e2). split.
  - rewrite Htr2, Htr1, <- app_assoc. reflexivity.
  - apply Forall_app. split; [exact Hf1|].
    eapply Forall_impl; [exact Hf2|]. intros e.
    apply served_by_frame; assumption.
Qed.

Lemma keeps_connection_same (s s' : state) :
  session s' = session s -> stdio_write s' = stdio_write s ->
  exit_stack s' = exit_stack s -> tools s' = tools s ->
  trace s' = trace s -> keeps_connection s s'.
Proof.
  intros Hs Hw Hx Ht Htr. repeat split; auto.
  exists []. rewrite app_nil_r. split; [exact Htr | constructor].
Qed.

Lemma keeps_connection_event (s s' : state) (e : event) :
  session s' = session s -> stdio_write s' = stdio_write s ->
  exit_stack s' = exit_stack s -> tools s' = tools s ->
  trace s' = trace s ++ [e] -> served_by s e -> keeps_connection s s'.
Proof.
  intros Hs Hw Hx Ht Htr He. repeat split; auto.
  exists [e]. split; [exact Htr | repeat constructor; exact He].
Qed.

Lemma log_keeps_connection (l : level) (text : string) :
  preserves keeps_connection (log l text).
Proof. intros s. apply keeps_connection_same; reflexivity. Qed.

Lemma append_message_keeps_connection (m : pydict) :
  preserves keeps_connection (append_message m).
Proof. intros s. apply keeps_connection_same; reflexivity. Qed.

Lemma os_makedirs_keeps_connection (E : environment) (path : string) :
  preserves keeps_connection (os_makedirs E path).
Proof.
  intros s. unfold os_makedirs.
  destruct (env_makedirs_fault E path); [apply keeps_connection_refl|].
  unfold bind, get. destruct (fs s !! path) as [[|c]|]; cbn;
    apply keeps_connection_same; reflexivity.
Qed.

Lemma now_keeps_connection (E : environment) :
  preserves keeps_connection (now E).
Proof.
  intros s. apply (keeps_connection_event _ _ (EvNow (stamp E s)));
    first [reflexivity | exact I].
Qed.

Lemma write_json_keeps_connection (E : environment) (path : string)
    (v : pyval) :
  preserves keeps_connection (write_json E path v).
Proof.
  intros s. unfold write_json.
  destruct (env_open_fault E path); [apply keeps_connection_refl|].
  unfold bind, get. destruct (fs s !! path) as [[|c]|]; cbn;
    try apply keeps_connection_refl;
    apply (keeps_connection_event _ _ (EvWrite path v));
    first [reflexivity | exact I].
Qed.

Lemma call_llm_keeps_connection (E : environment) :
  preserves keeps_connection (call_llm E).
Proof.
  intros s.
  apply (keeps_connection_trans _ (asked s)).
  - apply (keeps_connection_event _ _ (EvLLM (messages s) (tools s)));
      reflexivity.
  - unfold call_llm, reraising, bind. cbn.
    destruct (env_completions_create E _ _ _); cbn;
      try apply keeps_connection_refl.
    apply keeps_connection_same; reflexivity.
Qed.

Lemma session_call_tool_keeps_connection (E : environment)
    (name args : pyval) :
  preserves keeps_connection (session_call_tool E name args).
Proof.
  intros s. unfold session_call_tool, bind, get.
  destruct (session s) as [sid|] eqn:Hs; cbn;
    [|apply keeps_connection_refl].
  apply (keeps_connection_event _ _ (EvCallTool sid name args));
    first [reflexivity | exact Hs].
Qed.

(** The methods already shown to keep the connection, then the
    combinators. *)
Ltac keeps_step :=
  first
    [ apply log_keeps_connection
    | apply append_message_keeps_connection
    | apply os_makedirs_keeps_connection
    | apply now_keeps_connection
    | apply write_json_keeps_connection
    | apply call_llm_keeps_connection
    | apply session_call_tool_keeps_connection
    | apply (preserves_lift keeps_connection keeps_connection_refl)
    | apply (preserves_ret keeps_connection keeps_connection_refl)
    | apply (preserves_raise keeps_connection keeps_connection_refl)
    | apply (preserves_get keeps_connection keeps_connection_refl)
    | apply (preserves_bind keeps_connection keeps_connection_trans)
    | apply (preserves_reraising keeps_connection keeps_connection_trans)
    | match goal with |- forall _, preserves _ _ => intro end ].

Ltac keeps := repeat keeps_step.

Lemma serialize_conversation_keeps_connection (msgs : list pydict) :
  preserves keeps_connection (serialize_conversation msgs).
Proof.
  induction msgs as [|m msgs IH]; cbn [serialize_conversation].
  - keeps.
  - apply (preserves_bind keeps_connection keeps_connection_trans);
      [keeps | intro].
    apply (preserves_bind keeps_connection keeps_connection_trans);
      [exact IH | keeps].
Qed.

Lemma log_conversation_keeps_connection (E : environment) :
  preserves keeps_connection (log_conversation E).
Proof.
  unfold log_conversation.
  apply (preserves_bind keeps_connection keeps_connection_trans);
    [keeps | intro].
  apply (preserves_bind keeps_connection keeps_connection_trans);
    [keeps | intro].
  apply (preserves_bind keeps_connection keeps_connection_trans);
    [apply serialize_conversation_keeps_connection | keeps].
Qed.

Ltac keeps_recording :=
  repeat first [apply log_conversation_keeps_connection | keeps_step].

Lemma dispatch_tool_calls_keep_connection (E : environment)
    (tool_calls : list pyval) :
  preserves keeps_connection (dispatch_tool_calls E tool_calls).
Proof.
  induction tool_calls as [|tool_call rest IH]; cbn [dispatch_tool_calls].
  - keeps.
  - apply (preserves_bind keeps_connection keeps_connection_trans);
      [|intros _; exact IH].
    unfold dispatch_tool_call. keeps_recording.
Qed.

Lemma agent_loop_keeps_connection (E : environment) (fuel : nat) :
  preserves keeps_connection (agent_loop E fuel).
Proof.
  induction fuel as [|fuel IH]; cbn [agent_loop]; [keeps|].
  apply (preserves_bind keeps_connection keeps_connection_trans);
    [keeps | intros response].
  apply (preserves_bind keeps_connection keeps_connection_trans);
    [keeps | intros [|]].
  - keeps_recording.
  - keeps_recording; [apply dispatch_tool_calls_keep_connection | exact IH].
Qed.

(** X5. A query never changes the session, the streams, the exit stack
    or the catalog of tools, however it ends.  Every call of the model
    made by the query offers the catalog the client held when the query
    began, and every call of a tool goes to the session it held then. *)
Theorem query_keeps_the_connection :
  forall (E : environment) (fuel : nat) (query : string) (s : state),
    let s' := snd (process_query E fuel query s) in
    session s' = session s
    /\ stdio_write s' = stdio_write s
    /\ exit_stack s' = exit_stack s
    /\ tools s' = tools s
    /\ exists evs,
         trace s' = trace s ++ evs
         /\ Forall (fun e =>
                      match e with
                      | EvLLM _ ts => ts = tools s
                      | EvCallTool sid _ _ => session s = Some sid
                      | _ => True
                      end) evs.
Proof.
  intros E fuel query s.
  assert (H : preserves keeps_connection (process_query E fuel query)).
  { unfold process_query.
    apply (preserves_reraising keeps_connection keeps_connection_trans);
      [|keeps].
    apply (preserves_bind keeps_connection keeps_connection_trans);
      [keeps | intro].
    apply (preserves_bind keeps_connection keeps_connection_trans).
    - intros s1. apply keeps_connection_same; reflexivity.
    - intro.
      apply (preserves_bind keeps_connection keeps_connection_trans);
        [apply agent_loop_keeps_connection | keeps]. }
  exact (H s).
Qed.

Lemma recorder_reports_a_file_it_cannot_open_witness :
  exists s',
    log_conversation readonly_env (query_start "2+2?" connected)
    = (Raise (External "permission denied"), s')
    /\ writes (trace s') = [].
Proof.
  destruct (recorder_reports_a_file_it_cannot_open readonly_env
              (query_start "2+2?" connected) [user_message "2+2?"]
              (External "permission denied"))
    as (s' & Hrun & _ & Hw & _); try reflexivity.
  - intros c. cbn. rewrite lookup_empty. discriminate.
  - exists s'. split; [exact Hrun | exact Hw].
Defined.

Lemma recorder_fails_on_the_first_bad_message_witness :
  exists s',
    log_conversation weather_env
      (set_messages
         [user_message "hello"; [("content", PStr "no role")];
          assistant_tool_message PNone (PInt 5)]
         connected)
    = (Raise (KeyError "role"), s')
    /\ writes (trace s') = [].
Proof.
  destruct (recorder_fails_on_the_first_bad_message weather_env
              (set_messages
                 [user_message "hello"; [("content", PStr "no role")];
                  assistant_tool_message PNone (PInt 5)]
                 connected)
              [user_message "hello"]
              [assistant_tool_message PNone (PInt 5)]
              [("content", PStr "no role")]
              [user_message "hello"] (KeyError "role"))
    as (s' & Hrun & Hw & _); try reflexivity.
  - apply (storage_ok_frame weather_env (init ∅)); [reflexivity|].
    apply storage_ok_init; reflexivity.
  - exists s'. split; [exact Hrun | exact Hw].
Defined.

(** ** Connecting *)

(** The state after a connection was made from [s]. *)
Lemma connect_to_server_ok (E : environment) (server_script_path : string)
    (s : state) (stdio write sid : nat) (response : pyval)
    (ds : list pyval) (descs : list descriptor) :
  (endswith server_script_path ".py" || endswith server_script_path ".js")
  = true ->
  env_stdio_client E (interpreter server_script_path) [server_script_path]
  = Ok (stdio, write) ->
  env_client_session E stdio write = Ok sid ->
  env_initialize E sid = Ok tt ->
  env_list_tools E sid = Ok response ->
  getattr response "tools" = Ok (PList ds) ->
  Forall2 describes ds descs ->
  exists s',
    connect_to_server E server_script_path s = (Ok true, s')
    /\ session s' = Some sid
    /\ stdio_write s' = Some (stdio, write)
    /\ exit_stack s'
       = exit_stack s ++ [StdioTransport stdio write; Session sid]
    /\ tools s' = schema_entry <$> descs
    /\ messages s' = messages s
    /\ fs s' = fs s
    /\ trace s'
       = trace s
         ++ [EvSpawn (interpreter server_script_path) [server_script_path];
             EvOpenSession stdio write; EvInitialize sid; EvListTools sid]
    /\ logs s'
       = logs s ++ [(INFO, "Connected to MCP server");
                    (INFO, "Available tools: ")].
Proof.
  intros Hext Hspawn Hsess Hinit Hlist Htools Hdescs.
  unfold interpreter in *.
  unfold connect_to_server. rewrite Hext. cbn [negb].
  unfold enter_stdio_client, enter_client_session, session_initialize,
    get_mcp_tools.
  unfold reraising, bind. cbn. rewrite Hspawn. cbn. rewrite Hsess. cbn.
  rewrite Hinit. cbn. rewrite Hlist. cbn. rewrite Htools. cbn.
  rewrite (for_each_tool_schema ds descs Hdescs). cbn.
  eexists. split; [reflexivity|]. cbn.
  rewrite <- !app_assoc. cbn. repeat split.
Qed.


(** X6. A successful connection launches the interpreter, opens the
    session, completes the handshake and lists the tools, in this order
    and once each.  It registers the transport and then the session on
    the exit stack, after what the stack already held, and leaves the
    conversation and the stored files as they were. *)
Theorem connection_registers_transport_then_session :
  forall (E : environment) (server_script_path : string) (s : state)
         (stdio write sid : nat) (response : pyval) (ds : list pyval)
         (descs : list descriptor),
    (endswith server_script_path ".py" || endswith server_script_path ".js")
    = true ->
    env_stdio_client E (interpreter server_script_path) [server_script_path]
    = Ok (stdio, write) ->
    env_client_session E stdio write = Ok sid ->
    env_initialize E sid = Ok tt ->
    env_list_tools E sid = Ok response ->
    getattr response "tools" = Ok (PList ds) ->
    Forall2 describes ds descs ->
    exists s',
      connect_to_server E server_script_path s = (Ok true, s')
      /\ exit_stack s'
         = exit_stack s ++ [StdioTransport stdio write; Session sid]
      /\ stdio_write s' = Some (stdio, write)
      /\ trace s'
         = trace s
           ++ [EvSpawn (interpreter server_script_path) [server_script_path];
               EvOpenSession stdio write; EvInitialize sid; EvListTools sid]
      /\ messages s' = messages s
      /\ fs s' = fs s.
Proof.
  intros E p s stdio write sid response ds descs H1 H2 H3 H4 H5 H6 H7.
  destruct (connect_to_server_ok E p s stdio write sid response ds descs
              H1 H2 H3 H4 H5 H6 H7)
    as (s' & Hrun & _ & Hw & Hx & _ & Hm & Hf & Ht & _).
  exists s'. auto 10.
Qed.

Lemma connection_registers_transport_then_session_witness :
  exists s',
    connect_to_server weather_env "server.js" (init ∅) = (Ok true, s')
    /\ exit_stack s' = [StdioTransport 0 1; Session 7]
    /\ trace s'
       = [EvSpawn "node" ["server.js"]; EvOpenSession 0 1; EvInitialize 7;
          EvListTools 7].
Proof.
  destruct (connection_registers_transport_then_session weather_env
              "server.js" (init ∅) 0 1 7
              (PObj [("tools",
                      PList [mk_tool (PStr "get_weather") (PStr "Weather")
                               (PDict [("type", PStr "object")])])])
              [mk_tool (PStr "get_weather") (PStr "Weather")
                 (PDict [("type", PStr "object")])]
              [{| d_name := PStr "get_weather";
                  d_description := PStr "Weather";
                  d_input_schema := PDict [("type", PStr "object")] |}])
    as (s' & Hrun & Hx & _ & Ht & _); try reflexivity.
  - repeat constructor.
  - exists s'. split; [exact Hrun|]. split; [exact Hx | exact Ht].
Defined.

(** X7. When the interpreter cannot be started, [connect_to_server] logs
    the error with a traceback and raises it.  The launch was attempted,
    nothing was acquired: the exit stack, the streams, the session and the
    catalog are what they were. *)
Theorem failed_launch_acquires_nothing :
  forall (E : environment) (server_script_path : string) (s : state)
         (e : exn),
    (endswith server_script_path ".py" || endswith server_script_path ".js")
    = true ->
    env_stdio_client E (interpreter server_script_path) [server_script_path]
    = Raise e ->
    exists s',
      connect_to_server E server_script_path s = (Raise e, s')
      /\ exit_stack s' = exit_stack s
      /\ stdio_write s' = stdio_write s
      /\ session s' = session s
      /\ tools s' = tools s
      /\ trace s'
         = trace s
           ++ [EvSpawn (interpreter server_script_path) [server_script_path]]
      /\ logs s'
         = logs s ++ [(ERROR, "Error connecting to MCP server: ");
                      (STDERR, "traceback")].
Proof.
  intros E p s e Hext Hspawn. unfold interpreter in *.
  unfold connect_to_server. rewrite Hext. cbn [negb].
  unfold enter_stdio_client, reraising, bind. cbn. rewrite Hspawn. cbn.
  eexists. split; [reflexivity|]. cbn.
  rewrite <- app_assoc. repeat split.
Qed.

Lemma failed_launch_acquires_nothing_witness :
  exists s',
    connect_to_server offline_env "server.py" (init ∅)
    = (Raise (External "no such file"), s')
    /\ exit_stack s' = []
    /\ session s' = None.
Proof.
  destruct (failed_launch_acquires_nothing offline_env "server.py" (init ∅)
              (External "no such file"))
    as (s' & Hrun & Hx & _ & Hs & _); try reflexivity.
  exists s'. split; [exact Hrun|]. split; [exact Hx | exact Hs].
Defined.

(** X8. When the handshake fails, [connect_to_server] raises its error
    with the session field already set to the session that did not
    initialize, and with the transport and the session still registered
    on the exit stack: the method releases nothing itself.  The catalog
    is the one held before, the tools are not listed. *)
Theorem failed_handshake_leaves_the_session_set :
  forall (E : environment) (server_script_path : string) (s : state)
         (stdio write sid : nat) (e : exn),
    (endswith server_script_path ".py" || endswith server_script_path ".js")
    = true ->
    env_stdio_client E (interpreter server_script_path) [server_script_path]
    = Ok (stdio, write) ->
    env_client_session E stdio write = Ok sid ->
    env_initialize E sid = Raise e ->
    exists s',
      connect_to_server E server_script_path s = (Raise e, s')
      /\ session s' = Some sid
      /\ exit_stack s'
         = exit_stack s ++ [StdioTransport stdio write; Session sid]
      /\ tools s' = tools s
      /\ trace s'
         = trace s
           ++ [EvSpawn (interpreter server_script_path) [server_script_path];
               EvOpenSession stdio write; EvInitialize sid].
Proof.
  intros E p s stdio write sid e Hext Hspawn Hsess Hinit.
  unfold interpreter in *.
  unfold connect_to_server. rewrite Hext. cbn [negb].
  unfold enter_stdio_client, enter_client_session, session_initialize.
  unfold reraising, bind. cbn. rewrite Hspawn. cbn. rewrite Hsess. cbn.
  rewrite Hinit. cbn.
  eexists. split; [reflexivity|]. cbn.
  rewrite <- !app_assoc. repeat split.
Qed.

Lemma failed_handshake_leaves_the_session_set_witness :
  exists s',
    connect_to_server deaf_env "server.py" (init ∅)
    = (Raise (External "handshake timed out"), s')
    /\ session s' = Some 7
    /\ exit_stack s' = [StdioTransport 0 1; Session 7].
Proof.
  destruct (failed_handshake_leaves_the_session_set deaf_env "server.py"
              (init ∅) 0 1 7 (External "handshake timed out"))
    as (s' & Hrun & Hs & Hx & _); try reflexivity.
  exists s'. split; [exact Hrun|]. split; [exact Hs | exact Hx].
Defined.



(** X10. When [list_tools] fails, the error is logged by [get_mcp_tools]
    and again, with a traceback, by [connect_to_server], which raises it.
    The client is left connected (session set, both resources
    registered) with the catalog it held before. *)
Theorem failed_discovery_is_logged_twice_and_raised :
  forall (E : environment) (server_script_path : string) (s : state)
         (stdio write sid : nat) (e : exn),
    (endswith server_script_path ".py" || endswith server_script_path ".js")
    = true ->
    env_stdio_client E (interpreter server_script_path) [server_script_path]
    = Ok (stdio, write) ->
    env_client_session E stdio write = Ok sid ->
    env_initialize E sid = Ok tt ->
    env_list_tools E sid = Raise e ->
    exists s',
      connect_to_server E server_script_path s = (Raise e, s')
      /\ logs s'
         = logs s ++ [(INFO, "Connected to MCP server");
                      (ERROR, "Error getting MCP tools: ");
                      (ERROR, "Error connecting to MCP server: ");
                      (STDERR, "traceback")]
      /\ tools s' = tools s
      /\ session s' = Some sid
      /\ exit_stack s'
         = exit_stack s ++ [StdioTransport stdio write; Session sid].
Proof.
  intros E p s stdio write sid e Hext Hspawn Hsess Hinit Hlist.
  unfold interpreter in *.
  unfold connect_to_server. rewrite Hext. cbn [negb].
  unfold enter_stdio_client, enter_client_session, session_initialize,
    get_mcp_tools.
  unfold reraising, bind. cbn. rewrite Hspawn. cbn. rewrite Hsess. cbn.
  rewrite Hinit. cbn. rewrite Hlist. cbn.
  eexists. split; [reflexivity|]. cbn.
  rewrite <- !app_assoc. repeat split.
Qed.

(** X11. Connecting again does not release the connection made before:
    the exit stack holds the transport and the session of the first
    connection followed by those of the second, the session field and the
    catalog are those of the second. *)
Theorem reconnecting_keeps_the_first_connection_open :
  forall (E : environment) (p1 p2 : string) (s : state)
         (stdio1 write1 sid1 stdio2 write2 sid2 : nat)
         (response1 response2 : pyval) (ds1 ds2 : list pyval)
         (descs1 descs2 : list descriptor),
    (endswith p1 ".py" || endswith p1 ".js") = true ->
    env_stdio_client E (interpreter p1) [p1] = Ok (stdio1, write1) ->
    env_client_session E stdio1 write1 = Ok sid1 ->
    env_initialize E sid1 = Ok tt ->
    env_list_tools E sid1 = Ok response1 ->
    getattr response1 "tools" = Ok (PList ds1) ->
    Forall2 describes ds1 descs1 ->
    (endswith p2 ".py" || endswith p2 ".js") = true ->
    env_stdio_client E (interpreter p2) [p2] = Ok (stdio2, write2) ->
    env_client_session E stdio2 write2 = Ok sid2 ->
    env_initialize E sid2 = Ok tt ->
    env_list_tools E sid2 = Ok response2 ->
    getattr response2 "tools" = Ok (PList ds2) ->
    Forall2 describes ds2 descs2 ->
    exists s',
      (connect_to_server E p1 ;;; connect_to_server E p2) s = (Ok true, s')
      /\ exit_stack s'
         = exit_stack s
           ++ [StdioTransport stdio1 write1; Session sid1;
               StdioTransport stdio2 write2; Session sid2]
      /\ session s' = Some sid2
      /\ tools s' = schema_entry <$> descs2.
Proof.
  intros E p1 p2 s stdio1 write1 sid1 stdio2 write2 sid2 response1 response2
    ds1 ds2 descs1 descs2 A1 A2 A3 A4 A5 A6 A7 B1 B2 B3 B4 B5 B6 B7.
  destruct (connect_to_server_ok E p1 s stdio1 write1 sid1 response1 ds1
              descs1 A1 A2 A3 A4 A5 A6 A7)
    as (s1 & Hrun1 & _ & _ & Hx1 & _).
  destruct (connect_to_server_ok E p2 s1 stdio2 write2 sid2 response2 ds2
              descs2 B1 B2 B3 B4 B5 B6 B7)
    as (s2 & Hrun2 & Hs2 & _ & Hx2 & Ht2 & _).
  exists s2. rewrite (bind_ok _ _ _ _ _ Hrun1).
  split; [exact Hrun2|]. split; [|auto].
  rewrite Hx2, Hx1, <- app_assoc. reflexivity.
Qed.

Lemma reconnecting_keeps_the_first_connection_open_witness :
  exists s',
    (connect_to_server weather_env "server.py" ;;;
     connect_to_server weather_env "other.js") (init ∅) = (Ok true, s')
    /\ exit_stack s'
       = [StdioTransport 0 1; Session 7; StdioTransport 0 1; Session 7].
Proof.
  destruct (reconnecting_keeps_the_first_connection_open weather_env
              "server.py" "other.js" (init ∅) 0 1 7 0 1 7
              (PObj [("tools",
                      PList [mk_tool (PStr "get_weather") (PStr "Weather")
                               (PDict [("type", PStr "object")])])])
              (PObj [("tools",
                      PList [mk_tool (PStr "get_weather") (PStr "Weather")
                               (PDict [("type", PStr "object")])])])
              [mk_tool (PStr "get_weather") (PStr "Weather")
                 (PDict [("type", PStr "object")])]
              [mk_tool (PStr "get_weather") (PStr "Weather")
                 (PDict [("type", PStr "object")])]
              [{| d_name := PStr "get_weather";
                  d_description := PStr "Weather";
                  d_input_schema := PDict [("type", PStr "object")] |}]
              [{| d_name := PStr "get_weather";
                  d_description := PStr "Weather";
                  d_input_schema := PDict [("type", PStr "object")] |}])
    as (s' & Hrun & Hx & _); try reflexivity; try (repeat constructor).
  exists s'. split; [exact Hrun | exact Hx].
Defined.

Lemma failed_discovery_is_logged_twice_and_raised_witness :
  exists s',
    connect_to_server
      {| env_stdio_client := env_stdio_client weather_env;
         env_client_session := env_client_session weather_env;
         env_initialize := env_initialize weather_env;
         env_list_tools := env_list_tools offline_env;
         env_call_tool := env_call_tool weather_env;
         env_completions_create := env_completions_create weather_env;
         env_json_loads := env_json_loads weather_env;
         env_now := env_now weather_env;
         env_makedirs_fault := env_makedirs_fault weather_env;
         env_open_fault := env_open_fault weather_env |}
      "server.py" (init ∅)
    = (Raise (External "connection closed"), s')
    /\ session s' = Some 7.
Proof.
  destruct (failed_discovery_is_logged_twice_and_raised
              {| env_stdio_client := env_stdio_client weather_env;
                 env_client_session := env_client_session weather_env;
                 env_initialize := env_initialize weather_env;
                 env_list_tools := env_list_tools offline_env;
                 env_call_tool := env_call_tool weather_env;
                 env_completions_create :=
                   env_completions_create weather_env;
                 env_json_loads := env_json_loads weather_env;
                 env_now := env_now weather_env;
                 env_makedirs_fault := env_makedirs_fault weather_env;
                 env_open_fault := env_open_fault weather_env |}
              "server.py" (init ∅) 0 1 7 (External "connection closed"))
    as (s' & Hrun & _ & _ & Hs & _); try reflexivity.
  exists s'. split; [exact Hrun | exact Hs].
Defined.

(** X12. However it ends, and whatever the script path,
    [connect_to_server] leaves the conversation and the stored files
    alone, calls neither the model nor a tool and writes no transcript;
    and unless it returns, it leaves the catalog as it was. *)
Theorem connecting_leaves_the_conversation_alone :
  forall (E : environment) (server_script_path : string) (s : state),
    let r := connect_to_server E server_script_path s in
    messages (snd r) = messages s
    /\ fs (snd r) = fs s
    /\ count is_llm (trace (snd r)) = count is_llm (trace s)
    /\ count is_call_tool (trace (snd r)) = count is_call_tool (trace s)
    /\ writes (trace (snd r)) = writes (trace s)
    /\ (fst r = Ok true \/ tools (snd r) = tools s).
Proof.
  intros E p s r. subst r.
  unfold connect_to_server, enter_stdio_client, enter_client_session,
    session_initialize, get_mcp_tools, reraising, bind.
  cbn.
  repeat match goal with
         | |- context [match ?x with _ => _ end] =>
             match x with
             | context [match _ with _ => _ end] => fail 1
             | _ => destruct x
             end; cbn
         end;
    rewrite ?count_app; unfold writes, count; rewrite ?omap_app; cbn;
    rewrite ?app_nil_r;
    repeat split; auto; lia.
Qed.

(** ** The loop of a query *)

Lemma call_llm_fails (E : environment) (s : state) (e : exn) :
  completion E s = Raise e ->
  call_llm E s
  = (Raise e,
     set_logs (logs (asked s) ++ [(ERROR, "Error calling LLM: ")])
       (asked s)).
Proof.
  unfold completion, call_llm, reraising, bind. cbn. intros ->. reflexivity.
Qed.

(** X13. When the LLM endpoint fails in some turn of a query, the query
    raises the error of the endpoint, logged once by [call_llm] and once
    by [process_query].  The conversation is the one the endpoint was
    called with; nothing is appended, recorded or retried. *)
Theorem model_failure_aborts_the_query :
  forall (E : environment) (budget fuel : nat) (query : string)
         (s0 s : state) (e : exn),
    agent_loop E budget (query_start query s0) = agent_loop E (S fuel) s ->
    completion E s = Raise e ->
    exists s',
      process_query E budget query s0 = (Raise e, s')
      /\ messages s' = messages s
      /\ fs s' = fs s
      /\ trace s' = trace s ++ [EvLLM (messages s) (tools s)]
      /\ logs s'
         = logs s ++ [(INFO, "Calling LLM");
                      (ERROR, "Error calling LLM: ");
                      (ERROR, "Error processing query: ")].
Proof.
  intros E budget fuel query s0 s e Hreach Hllm.
  rewrite process_query_unfold, Hreach. cbn [agent_loop].
  rewrite (bind_raise _ _ _ _ _ (call_llm_fails E s e Hllm)).
  eexists. split; [reflexivity|]. cbn.
  rewrite <- !app_assoc. repeat split.
Qed.

Lemma model_failure_aborts_the_query_witness :
  exists s',
    process_query offline_env 5 "2+2?" connected
    = (Raise (External "rate limited"), s')
    /\ messages s' = [user_message "2+2?"].
Proof.
  destruct (model_failure_aborts_the_query offline_env 5 4 "2+2?" connected
              (query_start "2+2?" connected) (External "rate limited"))
    as (s' & Hrun & Hm & _); try reflexivity.
  exists s'. split; [exact Hrun | exact Hm].
Defined.

(** X14. A tool whose result has no [content] was still called: the body
    of the loop over the tool calls makes the call, then raises
    [AttributeError] on [result.content], logs it as an error of the tool
    and appends and records nothing. *)
Theorem result_without_content_is_lost :
  forall (E : environment) (sid : nat) (tool_call result : pyval)
         (r : reply) (s : state),
    session s = Some sid ->
    requests E tool_call r ->
    env_call_tool E (count is_call_tool (trace s)) sid (r_name r) (r_args r)
    = Ok result ->
    hasattr result "content" = false ->
    exists s',
      dispatch_tool_call E tool_call s
      = (Raise (AttributeError "content"), s')
      /\ trace s' = trace s ++ [EvCallTool sid (r_name r) (r_args r)]
      /\ messages s' = messages s
      /\ fs s' = fs s
      /\ logs s'
         = logs s ++ [(INFO, "Calling tool  with args ");
                      (INFO, "Tool  result: ...");
                      (ERROR, "Error calling tool : ")].
Proof.
  intros E sid tool_call result r s Hs (f & a & Hf & Hn & Ha & Hl & Hi)
    Hr Hno.
  unfold dispatch_tool_call.
  rewrite Hf. step. rewrite Hn. do 2 step. rewrite Ha. step.
  rewrite Hl. step. rewrite Hi. do 2 step.
  erewrite reraising_raise; [| |reflexivity].
  2: { erewrite bind_ok;
         [|apply session_call_tool_ok; [exact Hs | exact Hr]].
       step. rewrite (getattr_missing _ _ Hno). reflexivity. }
  eexists. split; [reflexivity|]. cbn.
  rewrite <- !app_assoc. repeat split.
Qed.

Lemma result_without_content_is_lost_witness :
  exists s',
    dispatch_tool_call
      {| env_stdio_client := env_stdio_client weather_env;
         env_client_session := env_client_session weather_env;
         env_initialize := env_initialize weather_env;
         env_list_tools := env_list_tools weather_env;
         env_call_tool := fun _ _ _ _ => Ok (PStr "15C, cloudy");
         env_completions_create := env_completions_create weather_env;
         env_json_loads := env_json_loads weather_env;
         env_now := env_now weather_env;
         env_makedirs_fault := env_makedirs_fault weather_env;
         env_open_fault := env_open_fault weather_env |}
      (mk_tool_call (PStr "call_1") (PStr "get_weather")
         (city_args "Paris"))
      connected
    = (Raise (AttributeError "content"), s')
    /\ messages s' = [].
Proof.
  destruct (result_without_content_is_lost
              {| env_stdio_client := env_stdio_client weather_env;
                 env_client_session := env_client_session weather_env;
                 env_initialize := env_initialize weather_env;
                 env_list_tools := env_list_tools weather_env;
                 env_call_tool := fun _ _ _ _ => Ok (PStr "15C, cloudy");
                 env_completions_create :=
                   env_completions_create weather_env;
                 env_json_loads := env_json_loads weather_env;
                 env_now := env_now weather_env;
                 env_makedirs_fault := env_makedirs_fault weather_env;
                 env_open_fault := env_open_fault weather_env |}
              7
              (mk_tool_call (PStr "call_1") (PStr "get_weather")
                 (city_args "Paris"))
              (PStr "15C, cloudy")
              {| r_id := PStr "call_1"; r_name := PStr "get_weather";
                 r_args := PDict [("city", PStr "Paris")];
                 r_content := PNone |}
              connected)
    as (s' & Hrun & _ & Hm & _); try reflexivity.
  - exists (PObj [("name", PStr "get_weather");
                  ("arguments", city_args "Paris")]),
      (city_args "Paris").
    repeat split; reflexivity.
  - exists s'. split; [exact Hrun | exact Hm].
Defined.

(** X15. On a client that holds no session, a tool call is decoded and
    logged, then [self.session.call_tool] raises [AttributeError]: no
    call leaves the client, nothing is appended or recorded. *)
Theorem tool_call_without_session_raises :
  forall (E : environment) (tool_call : pyval) (r : reply) (s : state),
    session s = None ->
    requests E tool_call r ->
    exists s',
      dispatch_tool_call E tool_call s
      = (Raise (AttributeError "call_tool"), s')
      /\ trace s' = trace s
      /\ messages s' = messages s
      /\ fs s' = fs s
      /\ logs s'
         = logs s ++ [(INFO, "Calling tool  with args ");
                      (ERROR, "Error calling tool : ")].
Proof.
  intros E tool_call r s Hs (f & a & Hf & Hn & Ha & Hl & Hi).
  unfold dispatch_tool_call.
  rewrite Hf. step. rewrite Hn. do 2 step. rewrite Ha. step.
  rewrite Hl. step. rewrite Hi. do 2 step.
  unfold reraising, session_call_tool, bind, get. cbn. rewrite Hs. cbn.
  eexists. split; [reflexivity|]. cbn.
  rewrite <- !app_assoc. repeat split.
Qed.

Lemma tool_call_without_session_raises_witness :
  exists s',
    dispatch_tool_call weather_env
      (mk_tool_call (PStr "call_1") (PStr "get_weather")
         (city_args "Paris"))
      (init ∅)
    = (Raise (AttributeError "call_tool"), s')
    /\ trace s' = [].
Proof.
  destruct (tool_call_without_session_raises weather_env
              (mk_tool_call (PStr "call_1") (PStr "get_weather")
                 (city_args "Paris"))
              {| r_id := PStr "call_1"; r_name := PStr "get_weather";
                 r_args := PDict [("city", PStr "Paris")];
                 r_content := PNone |}
              (init ∅))
    as (s' & Hrun & Ht & _); try reflexivity.
  - exists (PObj [("name", PStr "get_weather");
                  ("arguments", city_args "Paris")]),
      (city_args "Paris").
    repeat split; reflexivity.
  - exists s'. split; [exact Hrun | exact Ht].
Defined.

Lemma after_batch_keeps_storage (E : environment) (sid : nat)
    (rs : list reply) :
  forall (sc : list pydict) (s : state),
    storage_ok E s -> storage_ok E (after_batch E sid sc rs s).
Proof.
  induction rs as [|r rs IH]; intros sc s Hst; cbn [after_batch]; [exact Hst|].
  apply IH, storage_ok_recorded, called_storage_ok, Hst.
Qed.

Lemma after_batch_count_llm (E : environment) (sid : nat) (rs : list reply) :
  forall (sc : list pydict) (s : state),
    count is_llm (trace (after_batch E sid sc rs s)) = count is_llm (trace s).
Proof.
  induction rs as [|r rs IH]; intros sc s; cbn [after_batch]; [reflexivity|].
  rewrite IH. cbn. rewrite !count_app. unfold count. cbn. lia.
Qed.

(** The loop under a model that always asks for tools. *)
Lemma agent_loop_never_done (E : environment) (sid : nat)
    (response m content : pyval) (tcs : list pyval) (rs : list reply)
    (ar : pydict) :
  always_asks E sid response m content tcs rs ar ->
  forall (fuel : nat) (s : state) (sc : list pydict),
    session s = Some sid ->
    storage_ok E s ->
    for_each serialize_message (messages s) = Ok sc ->
    exists s',
      agent_loop E fuel s = (OutOfFuel, s')
      /\ count is_llm (trace s') = count is_llm (trace s) + fuel
      /\ count is_call_tool (trace s')
         = count is_call_tool (trace s) + fuel * length tcs
      /\ length (messages s')
         = length (messages s) + fuel * S (length tcs).
Proof.
  intros (Hllm & Hm & Hc & Htcs & Hne & Har & Hall).
  induction fuel as [|fuel IH]; intros s sc Hs Hst Hsc.
  - exists s. cbn. split; [reflexivity|]. lia.
  - set (am := assistant_tool_message content (PList tcs)).
    destruct (turned_facts E sc am ar s)
      as (Hts & _ & Htm & Htt & Htc & _).
    destruct (dispatch_answered_prefix E sid tcs [] rs (sc ++ [ar])
                (turned E sc am ar s)) as (Hrun & Hser & Hlen).
    { rewrite Hts. exact Hs. }
    { apply turned_storage_ok, Hst. }
    { rewrite Htm. apply for_each_app; [exact Hsc|].
      cbn [for_each]. subst am. rewrite Har. reflexivity. }
    { apply Hall. }
    rewrite app_nil_r in Hrun.
    set (s2 := after_batch E sid (sc ++ [ar]) rs (turned E sc am ar s))
      in *.
    destruct (IH s2 ((sc ++ [ar]) ++ (reply_record <$> rs)))
      as (s' & Hloop & Hl & Hk & Hlm); [| |exact Hser|].
    { subst s2. destruct (after_batch_session E sid rs (sc ++ [ar])
                            (turned E sc am ar s)) as [-> _].
      rewrite Hts. exact Hs. }
    { subst s2. apply after_batch_keeps_storage, turned_storage_ok, Hst. }
    exists s'. split.
    + rewrite (agent_loop_tools E fuel s response m content (PList tcs) tcs
                 sc ar (Hllm _ _ _) Hm Hc Htcs); try assumption;
        try reflexivity.
      * fold am. unfold bind. rewrite Hrun. exact Hloop.
      * destruct tcs; [contradiction | reflexivity].
    + rewrite Hl, Hk, Hlm. subst s2.
      rewrite after_batch_count_llm, after_batch_count_calls,
        after_batch_messages, Htc, Htm, Htt, Hlen.
      rewrite count_app, !length_app, length_fmap, Hlen.
      unfold count. cbn. lia.
Qed.

(** X16. The loop has no limit of turns: under a model that answers
    every call by asking for tools, with a session that answers them and
    a storage that accepts the transcripts, [process_query] is still
    running after any number [n] of turns.  By then it has called the
    model [n] times and the tools [n] times each, and the conversation
    has grown to the user message plus [n] turns. *)
Theorem loop_has_no_turn_limit :
  forall (E : environment) (sid : nat) (response m content : pyval)
         (tcs : list pyval) (rs : list reply) (ar : pydict)
         (query : string) (s : state) (n : nat),
    always_asks E sid response m content tcs rs ar ->
    session s = Some sid ->
    storage_ok E s ->
    exists s',
      process_query E n query s = (OutOfFuel, s')
      /\ count is_llm (trace s') = count is_llm (trace s) + n
      /\ count is_call_tool (trace s')
         = count is_call_tool (trace s) + n * length tcs
      /\ length (messages s') = 1 + n * S (length tcs).
Proof.
  intros E sid response m content tcs rs ar query s n Hask Hs Hst.
  destruct (agent_loop_never_done E sid response m content tcs rs ar Hask n
              (query_start query s) [user_message query])
    as (s' & Hloop & Hl & Hk & Hlm); try exact Hs; try reflexivity.
  { eapply storage_ok_frame; [|exact Hst]. reflexivity. }
  exists s'. rewrite process_query_unfold, Hloop.
  split; [reflexivity|]. auto.
Qed.

Lemma loop_has_no_turn_limit_witness :
  exists s',
    process_query eager_env 25 "What is the weather in Paris?" connected
    = (OutOfFuel, s')
    /\ count is_llm (trace s') = 25.
Proof.
  destruct (loop_has_no_turn_limit eager_env 7
              (mk_response PNone
                 (PList [mk_tool_call (PStr "call_1") (PStr "get_weather")
                           (city_args "Paris")]))
              (PObj [("role", PStr "assistant"); ("content", PNone);
                     ("tool_calls",
                      PList [mk_tool_call (PStr "call_1")
                               (PStr "get_weather") (city_args "Paris")])])
              PNone
              [mk_tool_call (PStr "call_1") (PStr "get_weather")
                 (city_args "Paris")]
              [{| r_id := PStr "call_1"; r_name := PStr "get_weather";
                  r_args := PDict [("city", PStr "Paris")];
                  r_content := PStr "15C, cloudy" |}]
              [("role", PStr "assistant"); ("content", PNone);
               ("tool_calls",
                PList [PDict [("id", PStr "call_1");
                              ("function",
                               PDict [("name", PStr "get_weather");
                                      ("arguments",
                                       city_args "Paris")])]])]
              "What is the weather in Paris?" connected 25)
    as (s' & Hrun & Hl & _).
  - repeat split; try reflexivity; try discriminate.
    + exists (PObj [("name", PStr "get_weather");
                    ("arguments", city_args "Paris")]),
        (city_args "Paris").
      repeat split; reflexivity.
    + exists (mk_result (PStr "15C, cloudy")). split; reflexivity.
  - reflexivity.
  - apply (storage_ok_frame eager_env (init ∅)); [reflexivity|].
    apply storage_ok_init; reflexivity.
  - exists s'. split; [exact Hrun | exact Hl].
Defined.

(** ** A query that returns *)

Lemma call_llm_inv_ok (E : environment) (s s' : state) (response : pyval) :
  call_llm E s = (Ok response, s') -> s' = asked s.
Proof.
  unfold call_llm, reraising, bind. cbn.
  destruct (env_completions_create E _ _ _); cbn; intros H;
    try discriminate H.
  injection H as _ <-. reflexivity.
Qed.

Lemma session_call_tool_inv_ok (E : environment) (name args result : pyval)
    (s s' : state) :
  session_call_tool E name args s = (Ok result, s') ->
  exists sid,
    session s = Some sid
    /\ s' = set_trace (trace s ++ [EvCallTool sid name args]) s.
Proof.
  unfold session_call_tool, bind, get.
  destruct (session s) as [sid|]; cbn; [|discriminate].
  destruct (env_call_tool E _ _ _ _); cbn; intros H; try discriminate H.
  injection H as _ <-. exists sid. auto.
Qed.

Lemma writes_recorded (E : environment) (sc : list pydict) (s : state) :
  writes (trace (recorded E sc s))
  = writes (trace s) ++ [(conversation_path (stamp E s), record_of sc)].
Proof. cbn. unfold writes. rewrite omap_app. reflexivity. Qed.

(** Undo one [bind] of a run that returned. *)
Ltac unbind H :=
  let a := fresh "a" in
  let s1 := fresh "s" in
  let Hstep := fresh "Hstep" in
  apply bind_inv_ok in H as (a & s1 & Hstep & H);
  first
    [ apply lift_inv_ok in Hstep as [Hstep ->]
    | cbv [log append_message modify get] in Hstep;
      injection Hstep as Hstep ?; subst ].

(** An answered tool call adds one message and one transcript. *)
Lemma dispatch_tool_call_inv_ok (E : environment) (tool_call : pyval)
    (s s' : state) u :
  dispatch_tool_call E tool_call s = (Ok u, s') ->
  exists (m : pydict) (sc : list pydict) (s1 : state),
    messages s' = messages s ++ [m]
    /\ dict_get m "role" = Some (PStr "tool")
    /\ for_each serialize_message (messages s') = Ok sc
    /\ s' = recorded E sc s1
    /\ messages s1 = messages s'
    /\ writes (trace s1) = writes (trace s).
Proof.
  unfold dispatch_tool_call. intros H.
  do 7 unbind H.
  apply reraising_inv_ok in H.
  apply bind_inv_ok in H as (result & s1 & Hcall & H).
  apply session_call_tool_inv_ok in Hcall as (sid & Hs & ->).
  do 3 unbind H.
  apply log_conversation_inv_ok in H as (sc & Hsc & ->).
  eexists _, sc, _. split; [reflexivity|]. split; [reflexivity|].
  split; [exact Hsc|]. split; [reflexivity|]. split; [reflexivity|].
  cbn. unfold writes. rewrite omap_app. cbn. apply app_nil_r.
Qed.

Lemma dispatch_tool_calls_inv_ok (E : environment) (tool_calls : list pyval) :
  forall (s s' : state) u,
    dispatch_tool_calls E tool_calls s = (Ok u, s') ->
    exists ms,
      messages s' = messages s ++ ms
      /\ length ms = length tool_calls
      /\ length (writes (trace s'))
         = length (writes (trace s)) + length tool_calls.
Proof.
  induction tool_calls as [|tool_call rest IH]; intros s s' u H;
    cbn [dispatch_tool_calls] in H.
  - injection H as _ <-. exists []. rewrite app_nil_r. cbn. auto.
  - apply bind_inv_ok in H as (a & s1 & Hcall & H).
    apply dispatch_tool_call_inv_ok in Hcall
      as (m & sc & s0 & Hm & _ & _ & -> & _ & Hw).
    apply IH in H as (ms & Hms & Hlen & Hws).
    exists (m :: ms). split; [|split].
    + rewrite Hms, Hm, <- app_assoc. reflexivity.
    + cbn. rewrite Hlen. reflexivity.
    + rewrite Hws, writes_recorded, length_app, Hw. cbn. lia.
Qed.

(** The loop returns only from the record of a conversation that ends
    with the text answer. *)
Lemma agent_loop_inv_ok (E : environment) (fuel : nat) :
  forall (s s' : state) u,
    agent_loop E fuel s = (Ok u, s') ->
    exists (pre : list pydict) (c : pyval) (sc : list pydict) (s1 : state),
      messages s' = messages s ++ pre ++ [assistant_text_message c]
      /\ for_each serialize_message (messages s') = Ok sc
      /\ s' = recorded E sc s1
      /\ messages s1 = messages s'
      /\ length (writes (trace s'))
         = length (writes (trace s)) + S (length pre).
Proof.
  induction fuel as [|fuel IH]; intros s s' u H; cbn [agent_loop] in H;
    [discriminate H|].
  apply bind_inv_ok in H as (response & s1 & Hllm & H).
  apply call_llm_inv_ok in Hllm. subst s1.
  apply bind_inv_ok in H as ([|] & s1 & Htext & H);
    apply lift_inv_ok in Htext as [Htext ->].
  - do 3 unbind H.
    apply log_conversation_inv_ok in H as (sc & Hsc & ->).
    eexists [], _, sc, _. split; [reflexivity|]. split; [exact Hsc|].
    split; [reflexivity|]. split; [reflexivity|].
    rewrite writes_recorded, length_app. cbn.
    unfold writes. rewrite omap_app, length_app. cbn. lia.
  - do 4 unbind H.
    apply bind_inv_ok in H as (u1 & s1 & Hrec & H).
    apply log_conversation_inv_ok in Hrec as (sc & Hsc & ->).
    unbind H.
    apply bind_inv_ok in H as (u2 & s2 & Hcalls & H).
    apply dispatch_tool_calls_inv_ok in Hcalls as (ms & Hms & Hlen & Hws).
    apply IH in H as (pre & c & sc' & s3 & Hm & Hsc' & -> & Hm3 & Hw).
    eexists (_ :: ms ++ pre), c, sc', s3.
    split; [|split; [exact Hsc'|split; [reflexivity|split; [exact Hm3|]]]].
    + rewrite Hm, Hms. cbn. rewrite <- !app_assoc. reflexivity.
    + rewrite Hw, Hws, writes_recorded, !length_app. cbn.
      unfold writes. rewrite omap_app, !length_app. cbn. lia.
Qed.

(** X17. When [process_query] returns, the conversation it returns is
    the user message, then the messages of the turns, then the assistant
    message of the text answer.  The run wrote one transcript per message
    after the first; the last thing it did was to write the encoding of
    the whole returned conversation, which the file named after that
    moment holds. *)
Theorem returned_conversation_is_on_record :
  forall (E : environment) (fuel : nat) (query : string) (s s' : state)
         (conversation : list pydict),
    process_query E fuel query s = (Ok conversation, s') ->
    conversation = messages s'
    /\ (exists turns c,
          conversation
          = user_message query :: turns ++ [assistant_text_message c])
    /\ length (writes (trace s'))
       = length (writes (trace s)) + (length conversation - 1)
    /\ exists sc before t,
         Forall2 encoded_as conversation sc
         /\ trace s'
            = before ++ [EvNow t;
                         EvWrite (conversation_path t) (record_of sc)]
         /\ fs s' !! conversation_path t = Some (File (record_of sc)).
Proof.
  intros E fuel query s s' conversation H.
  rewrite process_query_unfold in H. unfold finish_query in H.
  destruct (agent_loop E fuel (query_start query s)) as [[[]|e|] s1] eqn:Hloop;
    try discriminate H.
  injection H as <- <-.
  apply agent_loop_inv_ok in Hloop
    as (pre & c & sc & s0 & Hm & Hsc & -> & Hm0 & Hw).
  split; [reflexivity|]. split; [exists pre, c; exact Hm|]. split.
  - rewrite Hw, Hm. cbn [messages query_start set_messages trace set_logs].
    rewrite !length_app. cbn [length]. lia.
  - exists sc, (trace s0), (stamp E s0).
    split; [apply for_each_encoded, Hsc|]. split; [reflexivity|].
    cbn. apply lookup_insert_eq.
Qed.

Lemma returned_conversation_is_on_record_witness :
  length (writes (trace (snd (process_query weather_env 3
                                "What is the weather in Paris?"
                                connected))))
  = 3
  /\ length (messages (snd (process_query weather_env 3
                              "What is the weather in Paris?" connected)))
     = 4.
Proof.
  destruct (returned_conversation_is_on_record weather_env 3
              "What is the weather in Paris?" connected
              (snd (process_query weather_env 3
                      "What is the weather in Paris?" connected))
              (messages (snd (process_query weather_env 3
                                "What is the weather in Paris?"
                                connected))))
    as (_ & _ & Hw & _); [vm_compute; reflexivity|].
  split; [rewrite Hw|]; vm_compute; reflexivity.
Defined.

(** ** Leaving the connection *)

(** X18. When leaving the contexts of the exit stack raises, [cleanup]
    logs the error with a traceback and raises it; the message of a
    completed disconnection is not logged.  The stack is empty all the
    same, and the session field and the catalog are what they were. *)
Theorem cleanup_raises_what_closing_raised :
  forall (aclose : list resource -> outcome unit) (s : state) (e : exn),
    aclose (exit_stack s) = Raise e ->
    exists s',
      cleanup aclose s = (Raise e, s')
      /\ exit_stack s' = []
      /\ session s' = session s
      /\ tools s' = tools s
      /\ messages s' = messages s
      /\ logs s'
         = logs s ++ [(ERROR, "Error during cleanup: ");
                      (STDERR, "traceback")].
Proof.
  intros aclose s e H.
  unfold cleanup, exit_stack_aclose, reraising, bind. cbn. rewrite H. cbn.
  eexists. split; [reflexivity|]. cbn. rewrite <- app_assoc. repeat split.
Qed.

Lemma cleanup_raises_what_closing_raised_witness :
  exists s',
    cleanup (fun stack => match stack with
                          | [] => Ok tt
                          | _ => Raise (External "broken pipe")
                          end)
      (set_exit_stack [StdioTransport 0 1; Session 7] connected)
    = (Raise (External "broken pipe"), s')
    /\ exit_stack s' = []
    /\ session s' = Some 7.
Proof.
  destruct (cleanup_raises_what_closing_raised
              (fun stack => match stack with
                            | [] => Ok tt
                            | _ => Raise (External "broken pipe")
                            end)
              (set_exit_stack [StdioTransport 0 1; Session 7] connected)
              (External "broken pipe"))
    as (s' & Hrun & Hx & Hs & _); [reflexivity|].
  exists s'. split; [exact Hrun|]. split; [exact Hx | exact Hs].
Defined.

(** X19. A clean-up that succeeds empties the exit stack and logs the
    disconnection, but does not reset the client: the session field still
    names the session that was just left, and the catalog and the
    conversation stay.  A second clean-up finds the stack empty. *)
Theorem cleanup_leaves_the_session_field_set :
  forall (aclose : list resource -> outcome unit) (s : state),
    aclose (exit_stack s) = Ok tt ->
    exists s',
      cleanup aclose s = (Ok tt, s')
      /\ exit_stack s' = []
      /\ session s' = session s
      /\ tools s' = tools s
      /\ messages s' = messages s
      /\ trace s' = trace s
      /\ logs s' = logs s ++ [(INFO, "Disconnected from MCP server")]
      /\ fst (cleanup aclose s') = aclose [].
Proof.
  intros aclose s H.
  unfold cleanup, exit_stack_aclose, reraising, bind. cbn. rewrite H. cbn.
  eexists. split; [reflexivity|]. cbn. repeat split.
  destruct (aclose []) as [[]| |]; reflexivity.
Qed.

Lemma cleanup_leaves_the_session_field_set_witness :
  exists s',
    cleanup (fun _ => Ok tt)
      (set_exit_stack [StdioTransport 0 1; Session 7] connected)
    = (Ok tt, s')
    /\ exit_stack s' = []
    /\ session s' = Some 7.
Proof.
  destruct (cleanup_leaves_the_session_field_set (fun _ => Ok tt)
              (set_exit_stack [StdioTransport 0 1; Session 7] connected))
    as (s' & Hrun & Hx & Hs & _); [reflexivity|].
  exists s'. split; [exact Hrun|]. split; [exact Hx | exact Hs].
Defined.

(** ** Encoding twice *)

Lemma serialize_dict_call (d : pyval) :
  isinstance_dict d = true -> serialize_tool_call d = Ok d.
Proof. destruct d; try discriminate. reflexivity. Qed.

Lemma for_each_dict_calls (ds : list pyval) :
  Forall (fun d => isinstance_dict d = true) ds ->
  for_each serialize_tool_call ds = Ok ds.
Proof.
  induction 1 as [|d ds Hd _ IH]; [reflexivity|].
  cbn [for_each]. rewrite (serialize_dict_call d Hd). cbn [obind].
  rewrite IH. reflexivity.
Qed.

Lemma serialized_call_is_dict (tc d : pyval) :
  hasattr tc "to_dict" = false ->
  serialize_tool_call tc = Ok d -> isinstance_dict d = true.
Proof.
  unfold serialize_tool_call. intros ->.
  destruct (isinstance_dict tc) eqn:Hdict; [intros [= <-]; exact Hdict|].
  destruct (getattr tc "id"); cbn; try discriminate.
  destruct (getattr tc "function") as [f| |]; cbn; try discriminate.
  destruct (getattr f "name"); cbn; try discriminate.
  destruct (getattr f "arguments"); cbn; try discriminate.
  intros [= <-]. reflexivity.
Qed.

Lemma serialized_calls_are_dicts (items ds : list pyval) :
  Forall (fun tc => hasattr tc "to_dict" = false) items ->
  for_each serialize_tool_call items = Ok ds ->
  Forall (fun d => isinstance_dict d = true) ds.
Proof.
  intros Hitems. revert ds.
  induction Hitems as [|tc items Htc _ IH]; intros ds; cbn [for_each].
  - intros [= <-]. constructor.
  - destruct (serialize_tool_call tc) as [d| |] eqn:Hd; cbn;
      try discriminate.
    destruct (for_each serialize_tool_call items) as [ds'| |]; cbn;
      try discriminate.
    intros [= <-]. constructor;
      [exact (serialized_call_is_dict tc d Htc Hd) | apply IH; reflexivity].
Qed.

(** X20. An entry of a transcript encodes to itself: when none of the
    tool calls of a message is encoded through [to_dict], so that every
    call is written as a mapping, handing the entry the recorder made of
    the message to the recorder again gives the same entry, key for key
    and in the same order. *)
Theorem encoding_an_entry_again_changes_nothing :
  forall (m sm : pydict),
    serialize_message m = Ok sm ->
    (forall v items,
        dict_get m "tool_calls" = Some v -> py_iter v = Ok items ->
        Forall (fun tc => hasattr tc "to_dict" = false) items) ->
    serialize_message sm = Ok sm.
Proof.
  intros m sm. unfold serialize_message at 1. unfold dict_item, dict_in.
  destruct (dict_get m "role") as [role|]; cbn [obind]; [|discriminate].
  destruct (dict_get m "tool_calls") as [v|].
  - destruct (dict_get m "content") as [c|];
      destruct (dict_get m "tool_call_id") as [i|]; cbn [obind];
      (destruct (py_iter v) as [items| |] eqn:Hiter; cbn [obind];
       try discriminate;
       destruct (for_each serialize_tool_call items) as [ds| |] eqn:Hds;
       cbn [obind]; try discriminate);
      intros [= <-] Hplain;
      pose proof (for_each_dict_calls ds
                    (serialized_calls_are_dicts items ds
                       (Hplain v items eq_refl Hiter) Hds)) as Hagain;
      unfold serialize_message, dict_item, dict_in; cbn;
      rewrite Hagain; reflexivity.
  - destruct (dict_get m "content") as [c|];
      destruct (dict_get m "tool_call_id") as [i|]; cbn [obind];
      intros [= <-] _; reflexivity.
Qed.

Lemma encoding_an_entry_again_changes_nothing_witness :
  serialize_message
    [("role", PStr "assistant"); ("content", PNone);
     ("tool_calls",
      PList [PDict [("id", PStr "call_1");
                    ("function",
                     PDict [("name", PStr "get_weather");
                            ("arguments", city_args "Paris")])]])]
  = Ok [("role", PStr "assistant"); ("content", PNone);
        ("tool_calls",
         PList [PDict [("id", PStr "call_1");
                       ("function",
                        PDict [("name", PStr "get_weather");
                               ("arguments", city_args "Paris")])]])].
Proof.
  apply (encoding_an_entry_again_changes_nothing
           (assistant_tool_message PNone
              (PList [mk_tool_call (PStr "call_1") (PStr "get_weather")
                        (city_args "Paris")]))).
  - reflexivity.
  - intros v items [= <-] [= <-]. repeat constructor.
Defined.
